(** * SQL_port: resampling and merge/dedup engine

    A shallow embedding of the resample routes ([app/routes/resample.py],
    the SQL text of [execute_resample_option] and [execute_resample_stock],
    and [api_resample]), of the merge route ([app/routes/merge.py],
    [merge_option_data] with its helpers [normalize_dt], [row_exists] and
    [parse_filename]) and of the table helpers of
    [app/services/database.py].

    Conventions.
    - A Python [str] and a MySQL character value are a [string]; every
      character is read as a code point below 256.
    - A MySQL [DATETIME] and a Python [datetime] are a record of the six
      calendar fields.
    - A MySQL [DECIMAL(10,4)] is the integer [v] standing for [v / 10^4].
    - SQL [NULL] and Python [None] are [None]. *)

From Stdlib Require Import ZArith Lia String Ascii List.
From stdpp Require Import base decidable option list sorting countable gmap strings.

Local Open Scope string_scope.
Local Open Scope Z_scope.

(** ** Text primitives *)

Module Text.

(** Code point of a character. *)
Definition code (c : ascii) : Z := Z.of_N (N_of_ascii c).

(** The character of a decimal digit [0..9]. *)
Definition digit_char (d : Z) : ascii := ascii_of_N (Z.to_N (48 + d)).

(** Fixed-width, zero-padded decimal fields, as produced by [%m], [%d],
    [%H], [%M]/[%i], [%S]/[%s] (two digits) and [%Y] (four digits). *)
Definition pad2 (n : Z) (k : string) : string :=
  String (digit_char (n / 10 mod 10)) (String (digit_char (n mod 10)) k).

Definition pad4 (n : Z) (k : string) : string :=
  String (digit_char (n / 1000 mod 10))
    (String (digit_char (n / 100 mod 10)) (pad2 n k)).

(** Python [str.isspace] on one character (code points below 256). *)
Definition is_space (c : ascii) : bool :=
  let n := code c in
  ((9 <=? n) && (n <=? 13)) || ((28 <=? n) && (n <=? 32))
  || (n =? 133) || (n =? 160).

(** Python [s.replace(a, b)] for one-character [a] and [b]. *)
Fixpoint replace_char (a b : ascii) (s : string) : string :=
  match s with
  | EmptyString => EmptyString
  | String c r =>
      String (if Ascii.eqb c a then b else c) (replace_char a b r)
  end.

(** Python [s.split(sep)[0]] for a one-character separator: the text
    before the first [sep], or all of [s] when there is none. *)
Fixpoint split_head (sep : ascii) (s : string) : string :=
  match s with
  | EmptyString => EmptyString
  | String c r =>
      if Ascii.eqb c sep then EmptyString else String c (split_head sep r)
  end.

(** Python [s.lstrip()], [s.rstrip()] and [s.strip()]. *)
Fixpoint lstrip (s : string) : string :=
  match s with
  | EmptyString => EmptyString
  | String c r => if is_space c then lstrip r else s
  end.

Fixpoint rstrip (s : string) : string :=
  match s with
  | EmptyString => EmptyString
  | String c r =>
      match rstrip r with
      | EmptyString => if is_space c then EmptyString else String c EmptyString
      | r' => String c r'
      end
  end.

Definition strip (s : string) : string := rstrip (lstrip s).

(** Python [s.lower()] on code points below 256. *)
Definition lower_char (c : ascii) : ascii :=
  let n := code c in
  if ((65 <=? n) && (n <=? 90))
     || ((192 <=? n) && (n <=? 222) && negb (n =? 215))
  then ascii_of_N (Z.to_N (n + 32)) else c.

Fixpoint lower (s : string) : string :=
  match s with
  | EmptyString => EmptyString
  | String c r => String (lower_char c) (lower r)
  end.

(** Python [s.startswith(p)]. *)
Fixpoint startswith (p s : string) : bool :=
  match p, s with
  | EmptyString, _ => true
  | String a p', String b s' => Ascii.eqb a b && startswith p' s'
  | String _ _, EmptyString => false
  end.

(** Python [p in s] on two strings. *)
Fixpoint is_in (p s : string) : bool :=
  startswith p s
  || match s with
     | EmptyString => false
     | String _ r => is_in p r
     end.

(** Python [s.replace(old, new)]: every occurrence of [old], found
    left to right without overlap.  [skip] counts the characters of an
    occurrence already replaced that are still to be passed over. *)
Fixpoint replace_from (old new : string) (skip : nat) (s : string) : string :=
  match s with
  | EmptyString => EmptyString
  | String c r =>
      match skip with
      | S k => replace_from old new k r
      | O =>
          if startswith old s then
            new ++ replace_from old new (Nat.pred (String.length old)) r
          else String c (replace_from old new O r)
      end
  end.

Definition replace (old new s : string) : string :=
  match old with
  | EmptyString => s
  | _ => replace_from old new O s
  end.

(** The longest prefix of characters satisfying [p], and the rest. *)
Fixpoint span (p : ascii -> bool) (s : string) : string * string :=
  match s with
  | EmptyString => (EmptyString, EmptyString)
  | String c r =>
      if p c then let '(a, b) := span p r in (String c a, b)
      else (EmptyString, s)
  end.

(** [Some r] when [s = p ++ r]. *)
Fixpoint strip_prefix (p s : string) : option string :=
  match p, s with
  | EmptyString, _ => Some s
  | String a p', String b s' =>
      if Ascii.eqb a b then strip_prefix p' s' else None
  | String _ _, EmptyString => None
  end.

End Text.

(** ** Dates and times *)

Record datetime := DateTime {
  dt_year : Z; dt_month : Z; dt_day : Z;
  dt_hour : Z; dt_minute : Z; dt_second : Z
}.

#[global] Instance datetime_eq_dec : EqDecision datetime.
Proof. solve_decision. Defined.

Module Calendar.

Definition is_leap (y : Z) : bool :=
  ((y mod 4 =? 0) && negb (y mod 100 =? 0)) || (y mod 400 =? 0).

Definition days_in_month (y m : Z) : Z :=
  if m =? 2 then (if is_leap y then 29 else 28)
  else if (m =? 4) || (m =? 6) || (m =? 9) || (m =? 11) then 30
  else 31.

(** The values a [DATETIME] column can hold. *)
Definition dt_valid (t : datetime) : Prop :=
  1000 <= dt_year t <= 9999 /\ 1 <= dt_month t <= 12 /\
  1 <= dt_day t <= days_in_month (dt_year t) (dt_month t) /\
  0 <= dt_hour t <= 23 /\ 0 <= dt_minute t <= 59 /\ 0 <= dt_second t <= 59.

(** Days since 1970-01-01 of a proleptic Gregorian date. *)
Definition day_number (y m d : Z) : Z :=
  let y' := if m <=? 2 then y - 1 else y in
  let era := y' / 400 in
  let yoe := y' - era * 400 in
  let doy := (153 * (m + (if 2 <? m then -3 else 9)) + 2) / 5 + d - 1 in
  let doe := yoe * 365 + yoe / 4 - yoe / 100 + doy in
  era * 146097 + doe - 719468.

Definition next_day (ymd : Z * Z * Z) : Z * Z * Z :=
  let '(y, m, d) := ymd in
  if d <? days_in_month y m then (y, m, d + 1)
  else if m <? 12 then (y, m + 1, 1)
  else (y + 1, 1, 1).

Definition prev_day (ymd : Z * Z * Z) : Z * Z * Z :=
  let '(y, m, d) := ymd in
  if 1 <? d then (y, m, d - 1)
  else if 1 <? m then (y, m - 1, days_in_month y (m - 1))
  else (y - 1, 12, 31).

Definition add_days (ymd : Z * Z * Z) (k : Z) : Z * Z * Z :=
  match k with
  | Z0 => ymd
  | Zpos p => Pos.iter next_day ymd p
  | Zneg p => Pos.iter prev_day ymd p
  end.

(** Seconds since midnight: the value of SQL [TIME(t)]. *)
Definition time_of_day (t : datetime) : Z :=
  dt_hour t * 3600 + dt_minute t * 60 + dt_second t.

Definition epoch_seconds (t : datetime) : Z :=
  day_number (dt_year t) (dt_month t) (dt_day t) * 86400 + time_of_day t.

(** Chronological comparison of two [DATETIME] values, as used by
    [ORDER BY Timestamp]. *)
Definition dt_compare (a b : datetime) : comparison :=
  match dt_year a ?= dt_year b with
  | Eq =>
    match dt_month a ?= dt_month b with
    | Eq =>
      match dt_day a ?= dt_day b with
      | Eq =>
        match dt_hour a ?= dt_hour b with
        | Eq =>
          match dt_minute a ?= dt_minute b with
          | Eq => dt_second a ?= dt_second b
          | c => c
          end
        | c => c
        end
      | c => c
      end
    | c => c
    end
  | c => c
  end.

Definition dt_le (a b : datetime) : Prop := dt_compare a b <> Gt.

(** [%Y] of [strftime], as the C library prints it for the years 1 to
    9999 of a Python [datetime]: the decimal number of the year, not
    padded (four digits from the year 1000 on). *)
Definition year_text (y : Z) (k : string) : string :=
  if y <? 10 then String (Text.digit_char (y mod 10)) k
  else if y <? 100 then Text.pad2 y k
  else if y <? 1000 then String (Text.digit_char (y / 100 mod 10)) (Text.pad2 y k)
  else Text.pad4 y k.

(** Python [t.strftime('%Y-%m-%d %H:%M:%S')]. *)
Definition strftime (t : datetime) : string :=
  year_text (dt_year t) (String "-" (Text.pad2 (dt_month t) (String "-"
    (Text.pad2 (dt_day t) (String " " (Text.pad2 (dt_hour t) (String ":"
      (Text.pad2 (dt_minute t) (String ":" (Text.pad2 (dt_second t) "")))))))))).

(** MySQL [DATE_FORMAT(t, '%Y%m%d%H%i%s')], followed by the text [k]. *)
Definition date_format14 (t : datetime) (k : string) : string :=
  Text.pad4 (dt_year t) (Text.pad2 (dt_month t) (Text.pad2 (dt_day t)
    (Text.pad2 (dt_hour t) (Text.pad2 (dt_minute t) (Text.pad2 (dt_second t) k))))).

End Calendar.

(** ** The SQL scalar functions used by the resample statements *)

Module Sql.
Import Calendar.

(** [CONCAT(DATE(t), ' 09:30:00')] read as a [DATETIME]: session open of
    the calendar date of [t]. *)
Definition session_open (t : datetime) : datetime :=
  DateTime (dt_year t) (dt_month t) (dt_day t) 9 30 0.

(** [TIME(t) BETWEEN '09:30:00' AND '15:59:00']. *)
Definition in_session (t : datetime) : bool :=
  (34200 <=? time_of_day t) && (time_of_day t <=? 57540).

(** [TIMESTAMPDIFF(MINUTE, a, b)]: whole minutes from [a] to [b],
    truncated toward zero. *)
Definition timestampdiff_minute (a b : datetime) : Z :=
  Z.quot (epoch_seconds b - epoch_seconds a) 60.

(** [n / d] on two integers: an exact-value [DECIMAL] with four
    fractional digits (returned scaled by [10^4]), rounded half away
    from zero; [NULL] when [d] is zero. *)
Definition div (n d : Z) : option Z :=
  if d =? 0 then None
  else Some (Z.sgn n * Z.sgn d *
             ((2 * Z.abs n * 10000 + Z.abs d) / (2 * Z.abs d))).

(** [FLOOR(x)] of a scale-four decimal. *)
Definition floor (x : option Z) : option Z :=
  match x with Some v => Some (v / 10000) | None => None end.

(** [DATE_ADD(t, INTERVAL k MINUTE)]. *)
Definition date_add_minute (t : datetime) (k : option Z) : option datetime :=
  match k with
  | None => None
  | Some k =>
      let total := dt_hour t * 60 + dt_minute t + k in
      let '(y, m, d) :=
        add_days (dt_year t, dt_month t, dt_day t) (total / 1440) in
      Some (DateTime y m d (total mod 1440 / 60) (total mod 1440 mod 60)
              (dt_second t))
  end.

(** [a * b] with [NULL] propagation. *)
Definition mul (a : option Z) (b : Z) : option Z :=
  match a with Some v => Some (v * b) | None => None end.

End Sql.

(** ** [DECIMAL(10,4)] values and their text *)

Module Decimal.

(** The decimal digits of [n >= 0], most significant first; [fuel]
    bounds the number of digits after the first. *)
Fixpoint digits (fuel : nat) (n : Z) : string :=
  match fuel with
  | O => String (Text.digit_char (n mod 10)) ""
  | S f =>
      if n <? 10 then String (Text.digit_char (n mod 10)) ""
      else digits f (n / 10) ++ String (Text.digit_char (n mod 10)) ""
  end.

Definition nat_text (n : Z) : string := digits (Z.to_nat (Z.log2 n)) n.

(** Text of a [DECIMAL(10,4)] value, as MySQL converts it to a string:
    optional sign, integer part without leading zeros, a point and
    exactly four fractional digits. *)
Definition to_text (v : Z) : string :=
  let a := Z.abs v in
  let body :=
    nat_text (a / 10000) ++ String "." (Text.pad4 (a mod 10000) "") in
  if v <? 0 then String "-" body else body.

Definition digit_val (c : ascii) : option Z :=
  let n := Text.code c in
  if (48 <=? n) && (n <=? 57) then Some (n - 48) else None.

(** The number written by a text of digits, read after [acc]. *)
Fixpoint value_from (acc : Z) (s : string) : option Z :=
  match s with
  | EmptyString => Some acc
  | String c r =>
      match digit_val c with
      | Some d => value_from (acc * 10 + d) r
      | None => None
      end
  end.

Definition nat_of_text (s : string) : option Z :=
  match s with
  | EmptyString => None
  | _ => value_from 0 s
  end.

(** Text after the first [sep], when there is one. *)
Fixpoint split_tail (sep : ascii) (s : string) : option string :=
  match s with
  | EmptyString => None
  | String c r => if Ascii.eqb c sep then Some r else split_tail sep r
  end.

Definition frac4 (s : string) : option Z :=
  match s with
  | String _ (String _ (String _ (String _ EmptyString))) => value_from 0 s
  | _ => None
  end.

Definition of_text_unsigned (s : string) : option Z :=
  match nat_of_text (Text.split_head "." s), split_tail "." s with
  | Some ip, Some fs =>
      match frac4 fs with
      | Some f => Some (ip * 10000 + f)
      | None => None
      end
  | _, _ => None
  end.

(** Conversion of a text to [DECIMAL(10,4)], as done by
    [CAST(... AS DECIMAL(10,4))] and by storing a text into a
    [DECIMAL(10,4)] column.  Only texts of the form written by
    [to_text] are covered; any other text gives [None]. *)
Definition of_text (s : string) : option Z :=
  match s with
  | String c r =>
      if Ascii.eqb c "-" then
        match of_text_unsigned r with
        | Some v => Some (- v)
        | None => None
        end
      else of_text_unsigned s
  | EmptyString => None
  end.

(** The range of a [DECIMAL(10,4)] column. *)
Definition in_range (v : Z) : Prop := Z.abs v < 10 ^ 10.

End Decimal.

(** ** Rows of the 1-minute tables *)

(** The columns shared by every table ([create_base_table]). *)
Record Bar := mkBar {
  Timestamp : datetime;
  Open : option Z; Close : option Z; High : option Z; Low : option Z;
  Volume : option Z
}.

(** The contract columns of an option table. *)
Record Contract := mkContract {
  StrikePrice : Z; ContractType : string; ExpiryDate : datetime
}.

Record OptionRow := mkOptionRow { contract : Contract; bar : Bar }.

#[global] Instance Bar_eq_dec : EqDecision Bar.
Proof. solve_decision. Defined.
#[global] Instance Contract_eq_dec : EqDecision Contract.
Proof. solve_decision. Defined.
#[global] Instance OptionRow_eq_dec : EqDecision OptionRow.
Proof. solve_decision. Defined.

(** One row of a resampled table; [K] is the instrument part of the
    key ([Contract] for options, [unit] for stock and VIX). *)
Record Candle (K : Type) := mkCandle {
  c_key : K; c_ts : option datetime;
  c_open : option Z; c_close : option Z; c_high : option Z;
  c_low : option Z; c_volume : option Z
}.
Arguments mkCandle {K}.
Arguments c_key {K}.
Arguments c_ts {K}.
Arguments c_open {K}.
Arguments c_close {K}.
Arguments c_high {K}.
Arguments c_low {K}.
Arguments c_volume {K}.

(** [TIMEFRAMES] of [resample.py]. *)
Definition TIMEFRAMES : list (string * Z) :=
  [("3min", 3); ("5min", 5); ("15min", 15); ("1hr", 60)].

(** ** SQL aggregates and text functions *)

Module Agg.

Definition not_null {A} (x : option A) : bool :=
  match x with Some _ => true | None => false end.

(** [MAX], [MIN] and [SUM] over a numeric column: [NULL]s are skipped,
    and the result is [NULL] when no value is left. *)
Definition max (l : list (option Z)) : option Z :=
  foldr (fun x acc =>
           match x, acc with
           | Some a, Some b => Some (Z.max a b)
           | Some a, None => Some a
           | None, _ => acc
           end) None l.

Definition min (l : list (option Z)) : option Z :=
  foldr (fun x acc =>
           match x, acc with
           | Some a, Some b => Some (Z.min a b)
           | Some a, None => Some a
           | None, _ => acc
           end) None l.

Definition sum (l : list (option Z)) : option Z :=
  foldr (fun x acc =>
           match x, acc with
           | Some a, Some b => Some (a + b)
           | Some a, None => Some a
           | None, _ => acc
           end) None l.

(** [MIN] and [MAX] over a text column, comparing code points. *)
Definition str_min (l : list (option string)) : option string :=
  foldr (fun x acc =>
           match x, acc with
           | Some a, Some b => Some (if String.leb a b then a else b)
           | Some a, None => Some a
           | None, _ => acc
           end) None l.

Definition str_max (l : list (option string)) : option string :=
  foldr (fun x acc =>
           match x, acc with
           | Some a, Some b => Some (if String.leb a b then b else a)
           | Some a, None => Some a
           | None, _ => acc
           end) None l.

(** [group_concat_max_len], at the server default. *)
Definition group_concat_max_len : nat := 1024.

Fixpoint take_chars (n : nat) (s : string) : string :=
  match n, s with
  | S n', String c r => String c (take_chars n' r)
  | _, _ => EmptyString
  end.

Fixpoint join_comma (l : list string) : string :=
  match l with
  | [] => EmptyString
  | [t] => t
  | t :: r => t ++ String "," (join_comma r)
  end.

(** [GROUP_CONCAT(x ORDER BY ...)] over the values [l], given in the
    requested order: the non-[NULL] values as text, separated by
    commas and cut at [group_concat_max_len]. *)
Definition group_concat (l : list (option Z)) : option string :=
  match omap (fun x => Decimal.to_text <$> x) l with
  | [] => None
  | ts => Some (take_chars group_concat_max_len (join_comma ts))
  end.

Fixpoint contains (sep : ascii) (s : string) : bool :=
  match s with
  | EmptyString => false
  | String c r => Ascii.eqb c sep || contains sep r
  end.

(** [SUBSTRING_INDEX(s, sep, 1)]: the text before the first [sep]. *)
Definition substring_index_first (sep : ascii) (s : option string)
  : option string := Text.split_head sep <$> s.

(** [SUBSTRING_INDEX(s, sep, -1)]: the text after the last [sep]. *)
Fixpoint after_last (sep : ascii) (s : string) : string :=
  match s with
  | EmptyString => EmptyString
  | String c r =>
      if contains sep r then after_last sep r
      else if Ascii.eqb c sep then r else s
  end.

Definition substring_index_last (sep : ascii) (s : option string)
  : option string := after_last sep <$> s.

(** [CONCAT(DATE_FORMAT(t, '%Y%m%d%H%i%s'), '|', x)]. *)
Definition stamp (t : datetime) (x : option Z) : option string :=
  (fun v => Calendar.date_format14 t (String "|" (Decimal.to_text v))) <$> x.

(** [GROUP BY]: one group per distinct key, holding the rows of that
    key in table order. *)
Definition group_by {K A} `{EqDecision K} (key : A -> K) (l : list A)
  : list (K * list A) :=
  (fun k => (k, filter (fun x => key x = k) l)) <$> remove_dups (key <$> l).

End Agg.

(** ** The resample statements of [resample.py] *)

Module Resample.
Import Calendar.

(** The [WHERE] clause shared by both statements. *)
Definition where_clause (b : Bar) : bool :=
  Sql.in_session (Timestamp b)
  && Agg.not_null (Open b) && Agg.not_null (Close b)
  && Agg.not_null (High b) && Agg.not_null (Low b).

(** [FLOOR(TIMESTAMPDIFF(MINUTE, CONCAT(DATE(Timestamp), ' 09:30:00'),
    Timestamp) / tf_minutes)]. *)
Definition bucket_id (tf_minutes : Z) (t : datetime) : option Z :=
  Sql.floor (Sql.div (Sql.timestampdiff_minute (Sql.session_open t) t)
               tf_minutes).

(** Rows in the order of [ORDER BY Timestamp] and of
    [ORDER BY Timestamp DESC]. *)
Definition ts_asc (a b : Bar) : Prop := dt_le (Timestamp a) (Timestamp b).
Definition ts_desc (a b : Bar) : Prop := dt_le (Timestamp b) (Timestamp a).

#[global] Instance ts_asc_dec : RelDecision ts_asc.
Proof. intros a b. unfold ts_asc, dt_le. apply _. Defined.
#[global] Instance ts_desc_dec : RelDecision ts_desc.
Proof. intros a b. unfold ts_desc, dt_le. apply _. Defined.

(** Comparison of two nullable [DATETIME]s; [NULL] sorts first. *)
Definition ots_compare (a b : option datetime) : comparison :=
  match a, b with
  | None, None => Eq
  | None, Some _ => Lt
  | Some _, None => Gt
  | Some x, Some y => dt_compare x y
  end.

(** *** Option tables: [execute_resample_option] *)

(** CTE [base]: the eligible rows, each with its [bucket_id]. *)
Definition base (tf_minutes : Z) (src : list OptionRow)
  : list (OptionRow * option Z) :=
  (fun r => (r, bucket_id tf_minutes (Timestamp (bar r))))
  <$> filter (fun r => where_clause (bar r)) src.

(** CTE [bucketed]: contract, [candle_ts] and the bar of every row of
    [base]. *)
Definition bucketed (tf_minutes : Z) (b : list (OptionRow * option Z))
  : list (Contract * option datetime * Bar) :=
  (fun x =>
     (contract x.1,
      Sql.date_add_minute (Sql.session_open (Timestamp (bar x.1)))
        (Sql.mul x.2 tf_minutes),
      bar x.1)) <$> b.

(** [SUBSTRING_INDEX(GROUP_CONCAT(Open ORDER BY Timestamp), ',', 1)] and
    [SUBSTRING_INDEX(GROUP_CONCAT(Close ORDER BY Timestamp DESC), ',', 1)],
    each stored into its [DECIMAL(10,4)] column. *)
Definition first_open (g : list Bar) : option Z :=
  Agg.substring_index_first ","
    (Agg.group_concat (Open <$> merge_sort ts_asc g))
  ≫= Decimal.of_text.

Definition last_close (g : list Bar) : option Z :=
  Agg.substring_index_first ","
    (Agg.group_concat (Close <$> merge_sort ts_desc g))
  ≫= Decimal.of_text.

Definition option_candle (grp : Contract * option datetime * list Bar)
  : Candle Contract :=
  let g := grp.2 in
  mkCandle grp.1.1 grp.1.2 (first_open g) (last_close g)
    (Agg.max (High <$> g)) (Agg.min (Low <$> g)) (Agg.sum (Volume <$> g)).

(** [ORDER BY StrikePrice, ContractType, ExpiryDate, candle_ts]. *)
Definition option_order (a b : Candle Contract) : Prop :=
  match StrikePrice (c_key a) ?= StrikePrice (c_key b) with
  | Eq =>
    match String.compare (ContractType (c_key a)) (ContractType (c_key b)) with
    | Eq =>
      match dt_compare (ExpiryDate (c_key a)) (ExpiryDate (c_key b)) with
      | Eq => ots_compare (c_ts a) (c_ts b)
      | c => c
      end
    | c => c
    end
  | c => c
  end <> Gt.

#[global] Instance option_order_dec : RelDecision option_order.
Proof. intros a b. unfold option_order. apply _. Defined.

(** The final [SELECT] of [execute_resample_option]: the rows handed
    to [INSERT INTO dest_table]. *)
Definition select_option (tf_minutes : Z) (src : list OptionRow)
  : list (Candle Contract) :=
  merge_sort option_order
    ((fun grp => option_candle (grp.1.1, grp.1.2, snd <$> grp.2))
     <$> Agg.group_by (fun x => (x.1.1, x.1.2))
           (bucketed tf_minutes (base tf_minutes src))).

(** *** Stock and VIX tables: [execute_resample_stock] *)

(** [DATE_ADD(CONCAT(DATE(Timestamp), ' 09:30:00'), INTERVAL
    FLOOR(TIMESTAMPDIFF(...) / tf_minutes) * tf_minutes MINUTE)]. *)
Definition candle_ts (tf_minutes : Z) (t : datetime) : option datetime :=
  Sql.date_add_minute (Sql.session_open t)
    (Sql.mul
       (Sql.floor (Sql.div (Sql.timestampdiff_minute (Sql.session_open t) t)
                     tf_minutes))
       tf_minutes).

(** CTE [bucketed] of the stock statement. *)
Definition bucketed_stock (tf_minutes : Z) (src : list Bar)
  : list (option datetime * Bar) :=
  (fun b => (candle_ts tf_minutes (Timestamp b), b))
  <$> filter (fun b => where_clause b) src.

(** [CAST(SUBSTRING_INDEX(MIN(CONCAT(DATE_FORMAT(orig_ts,
    '%Y%m%d%H%i%s'), '|', Open)), '|', -1) AS DECIMAL(10,4))] and the
    same with [MAX] and [Close]. *)
Definition min_stamp_open (g : list Bar) : option Z :=
  Agg.substring_index_last "|"
    (Agg.str_min ((fun b => Agg.stamp (Timestamp b) (Open b)) <$> g))
  ≫= Decimal.of_text.

Definition max_stamp_close (g : list Bar) : option Z :=
  Agg.substring_index_last "|"
    (Agg.str_max ((fun b => Agg.stamp (Timestamp b) (Close b)) <$> g))
  ≫= Decimal.of_text.

Definition stock_candle (grp : option datetime * list Bar) : Candle unit :=
  let g := grp.2 in
  mkCandle tt grp.1 (min_stamp_open g) (max_stamp_close g)
    (Agg.max (High <$> g)) (Agg.min (Low <$> g)) (Agg.sum (Volume <$> g)).

(** [ORDER BY candle_ts]. *)
Definition stock_order (a b : Candle unit) : Prop :=
  ots_compare (c_ts a) (c_ts b) <> Gt.

#[global] Instance stock_order_dec : RelDecision stock_order.
Proof. intros a b. unfold stock_order. apply _. Defined.

(** The final [SELECT] of [execute_resample_stock]. *)
Definition select_stock (tf_minutes : Z) (src : list Bar)
  : list (Candle unit) :=
  merge_sort stock_order
    ((fun grp => stock_candle (grp.1, snd <$> grp.2))
     <$> Agg.group_by fst (bucketed_stock tf_minutes src)).

(** *** The group behind a candle *)

(** The eligible rows of [src] that fall into the bucket [k]: the
    rows the stock statement aggregates into the candle of timestamp
    [k], and the rows the option statement aggregates into the candle
    of contract [k.1] and timestamp [k.2]. *)
Definition stock_group (tf_minutes : Z) (src : list Bar)
    (k : option datetime) : list Bar :=
  filter (fun b => candle_ts tf_minutes (Timestamp b) = k)
    (filter (fun b => where_clause b) src).

Definition option_group (tf_minutes : Z) (src : list OptionRow)
    (k : Contract * option datetime) : list Bar :=
  bar <$> filter (fun r => (contract r,
                            candle_ts tf_minutes (Timestamp (bar r))) = k)
            (filter (fun r => where_clause (bar r)) src).

(** The row of a group with the smallest, and with the largest,
    timestamp. *)
Definition earliest (r : Bar) (g : list Bar) : Prop :=
  r ∈ g /\ forall r', r' ∈ g -> dt_le (Timestamp r) (Timestamp r').

Definition latest (r : Bar) (g : list Bar) : Prop :=
  r ∈ g /\ forall r', r' ∈ g -> dt_le (Timestamp r') (Timestamp r).

End Resample.

(** ** The database, as far as the routes use it *)

(** A table has one of the two shapes of [create_base_table]. *)
Inductive Table :=
| OptionTable (rows : list OptionRow)
| StockTable (rows : list Bar).

(** The server: its tables, keyed by schema and table name, and the
    tables on which it refuses [DROP TABLE] and [CREATE TABLE] (for
    want of privileges, say).  Connections are taken to succeed. *)
Record world := mkWorld {
  tables : gmap (string * string) Table;
  ddl_denied : gset (string * string)
}.

Definition set_table (w : world) (k : string * string) (t : Table) : world :=
  mkWorld (<[k := t]> (tables w)) (ddl_denied w).

Module Database.

(** [BASE_TABLES] of [database.py] (its keys). *)
Definition BASE_TABLES : list string :=
  ["ib_2w_call_1min"; "ib_2w_put_1min"; "ib_stock_1min"].

(** [create_base_table(schema, table_name)]:
    [CREATE TABLE IF NOT EXISTS]; [False] when the statement fails. *)
Definition create_base_table (schema table_name : string) (w : world)
  : bool * world :=
  match tables w !! (schema, table_name) with
  | Some _ => (true, w)
  | None =>
      if decide ((schema, table_name) ∈ ddl_denied w) then (false, w)
      else if String.eqb table_name "ib_stock_1min"
      then (true, set_table w (schema, table_name) (StockTable []))
      else (true, set_table w (schema, table_name) (OptionTable []))
  end.

(** [create_resampled_table(schema, dest_table)]: [DROP TABLE IF
    EXISTS], then [CREATE TABLE] with the option columns; [False] when
    a statement fails. *)
Definition create_resampled_table (schema dest_table : string) (w : world)
  : bool * world :=
  if decide ((schema, dest_table) ∈ ddl_denied w) then (false, w)
  else (true, set_table w (schema, dest_table) (OptionTable [])).

(** What the column types and the primary key of [create_base_table]
    guarantee of the rows of a table. *)
Definition column_ok (x : option Z) : Prop :=
  forall v, x = Some v -> Decimal.in_range v.

Definition bar_ok (b : Bar) : Prop :=
  Calendar.dt_valid (Timestamp b)
  /\ column_ok (Open b) /\ column_ok (Close b)
  /\ column_ok (High b) /\ column_ok (Low b).

Definition stock_table_ok (rows : list Bar) : Prop :=
  NoDup (Timestamp <$> rows) /\ Forall bar_ok rows.

Definition option_table_ok (rows : list OptionRow) : Prop :=
  NoDup ((fun r => (contract r, Timestamp (bar r))) <$> rows)
  /\ Forall (fun r => bar_ok (bar r)) rows.

End Database.

(** ** Listing the tables of a schema *)

Module Catalog.

(** The [type] field of the entries of [BASE_TABLES]; [display] is the
    name itself. *)
Definition BASE_TABLE_TYPES : list (string * string) :=
  [("ib_2w_call_1min", "call"); ("ib_2w_put_1min", "put");
   ("ib_stock_1min", "stock")].

Definition name_order (a b : string) : Prop := Is_true (String.leb a b).

#[global] Instance name_order_dec : RelDecision name_order.
Proof. intros a b. unfold name_order. apply _. Defined.

(** [SHOW TABLES] on a connection to [schema]: the names of its
    tables, in the order of the names. *)
Definition show_tables (schema : string) (w : world) : list string :=
  merge_sort name_order
    (snd <$> filter (fun k : string * string => k.1 = schema)
               ((map_to_list (tables w)).*1)).

(** [get_tables(schema, pattern)]. *)
Definition get_tables (schema pattern : string) (w : world) : list string :=
  filter (fun name => Text.is_in pattern name) (show_tables schema w).

(** [api_get_tables(schema)] of [resample.py]: the tables offered as
    sources of a resample. *)
Definition api_get_tables (schema : string) (w : world) : list string :=
  get_tables schema "_1min" w.

(** One value of the dictionary of [get_base_tables_status]. *)
Record table_status := mkStatus {
  st_exists : bool; st_display : string; st_type : string
}.

(** [get_base_tables_status(schema)], as the list of its items. *)
Definition get_base_tables_status (schema : string) (w : world)
  : list (string * table_status) :=
  (fun info : string * string =>
     (info.1,
      mkStatus (bool_decide (info.1 ∈ get_tables schema "" w)) info.1 info.2))
  <$> BASE_TABLE_TYPES.

End Catalog.

(** ** Running the resample statements *)

Module Execute.

(** The range of a [BIGINT] column. *)
Definition bigint_ok (v : option Z) : bool :=
  match v with
  | Some x => (- 2 ^ 63 <=? x) && (x <? 2 ^ 63)
  | None => true
  end.

(** The row stored for a candle: [Timestamp] is [NOT NULL] and
    [Volume] is a [BIGINT]. *)
Definition candle_bar {K} (c : Candle K) : option Bar :=
  match c_ts c with
  | Some t =>
      if bigint_ok (c_volume c)
      then Some (mkBar t (c_open c) (c_close c) (c_high c) (c_low c)
                   (c_volume c))
      else None
  | None => None
  end.

(** [INSERT INTO dest (...) SELECT ...] on an option table: all rows
    or none; the primary key must stay unique. *)
Definition insert_option (cs : list (Candle Contract)) (old : list OptionRow)
  : option (list OptionRow) :=
  rows ← mapM (fun c => mkOptionRow (c_key c) <$> candle_bar c) cs;
  let all := (old ++ rows)%list in
  if decide (NoDup ((fun r => (contract r, Timestamp (bar r))) <$> all))
  then Some all else None.

(** [execute_resample_option(schema, src_table, dest_table, tf_minutes)]:
    [True] when the statement ran, [False] when it raised. *)
Definition execute_resample_option (schema src_table dest_table : string)
    (tf_minutes : Z) (w : world) : bool * world :=
  match tables w !! (schema, src_table), tables w !! (schema, dest_table) with
  | Some (OptionTable src), Some (OptionTable old) =>
      match insert_option (Resample.select_option tf_minutes src) old with
      | Some rows => (true, set_table w (schema, dest_table) (OptionTable rows))
      | None => (false, w)
      end
  | _, _ => (false, w)
  end.

(** [INSERT INTO dest (Timestamp, Open, Close, High, Low, Volume)
    SELECT ...] on a stock table.  On an option-shaped destination the
    statement leaves the [NOT NULL] contract columns without a value
    and is rejected. *)
Definition insert_stock (cs : list (Candle unit)) (old : list Bar)
  : option (list Bar) :=
  rows ← mapM candle_bar cs;
  let all := (old ++ rows)%list in
  if decide (NoDup (Timestamp <$> all)) then Some all else None.

Definition source_bars (t : Table) : list Bar :=
  match t with
  | OptionTable rows => bar <$> rows
  | StockTable rows => rows
  end.

(** [execute_resample_stock(schema, src_table, dest_table, tf_minutes)]. *)
Definition execute_resample_stock (schema src_table dest_table : string)
    (tf_minutes : Z) (w : world) : bool * world :=
  match tables w !! (schema, src_table), tables w !! (schema, dest_table) with
  | Some src, Some (StockTable old) =>
      match insert_stock (Resample.select_stock tf_minutes (source_bars src))
              old with
      | Some rows => (true, set_table w (schema, dest_table) (StockTable rows))
      | None => (false, w)
      end
  | _, _ => (false, w)
  end.

End Execute.

(** ** [api_resample] *)

(** One element of the [results] list of the JSON response. *)
Record entry := mkEntry {
  e_timeframe : string;
  e_table : option string;
  e_success : bool;
  e_error : option string
}.

#[global] Instance entry_eq_dec : EqDecision entry.
Proof. solve_decision. Defined.

(** The request body: [schema], [table] and [timeframes]. *)
Record request := mkRequest {
  r_schema : option string;
  r_table : option string;
  r_timeframes : list string
}.

Inductive exn := TypeError.

(** What the route returns: status 400, status 200 with the
    per-timeframe results, or an exception that leaves the view
    (status 500). *)
Inductive response :=
| BadRequest
| Results (results : list entry)
| Raised (e : exn).

(** Python truth of an optional string: [None] and [''] are false. *)
Definition truthy (x : option string) : option string :=
  match x with
  | Some EmptyString => None
  | _ => x
  end.

Definition failure (tf_name msg : string) : entry :=
  mkEntry tf_name None false (Some msg).

Definition success (tf_name dest_table : string) : entry :=
  mkEntry tf_name (Some dest_table) true None.

(** [TIMEFRAMES.get(tf_name)]. *)
Definition timeframe_minutes (tf_name : string) : option Z :=
  snd <$> List.find (fun kv => String.eqb (fst kv) tf_name) TIMEFRAMES.

(** [src_table.replace('_1min', f'_{tf_name}')]. *)
Definition dest_name (src_table tf_name : string) : string :=
  Text.replace "_1min" (String "_" tf_name) src_table.

(** *** The blueprint route of [app/routes/resample.py] *)

Module ApiResample.

(** [get_table_type(src_table)]. *)
Definition get_table_type (src_table : string) : string :=
  if Text.is_in "stock" (Text.lower src_table) then "stock"
  else if Text.is_in "vix" (Text.lower src_table) then "vix"
  else "option".

(** A call of [create_resampled_table] with the positional arguments
    [args]: the function of [database.py] has the two parameters
    [schema] and [dest_table], and any other number of arguments
    raises [TypeError] before its body runs. *)
Definition call_create_resampled_table (args : list string) (w : world)
  : (exn + bool) * world :=
  match args with
  | [schema; dest_table] =>
      let '(ok, w') := Database.create_resampled_table schema dest_table w in
      (inr ok, w')
  | _ => (inl TypeError, w)
  end.

(** The [for tf_name in timeframes] loop; [results] is the list built
    so far. *)
Fixpoint loop (schema src_table table_type : string) (timeframes : list string)
    (results : list entry) (w : world) : (exn + list entry) * world :=
  match timeframes with
  | [] => (inr results, w)
  | tf_name :: rest =>
      match timeframe_minutes tf_name with
      | None => loop schema src_table table_type rest results w
      | Some tf_minutes =>
          let dest_table := dest_name src_table tf_name in
          match call_create_resampled_table [schema; dest_table; table_type] w
          with
          | (inl e, w1) => (inl e, w1)
          | (inr false, w1) =>
              loop schema src_table table_type rest
                (results ++ [failure tf_name "Failed to create destination table"])%list
                w1
          | (inr true, w1) =>
              let '(ok, w2) :=
                if String.eqb table_type "stock" || String.eqb table_type "vix"
                then Execute.execute_resample_stock schema src_table dest_table
                       tf_minutes w1
                else Execute.execute_resample_option schema src_table dest_table
                       tf_minutes w1 in
              loop schema src_table table_type rest
                (results ++
                 [if ok then success tf_name dest_table
                  else failure tf_name "Failed to execute resampling"])%list
                w2
          end
      end
  end.

Definition api_resample (req : request) (w : world) : response * world :=
  match truthy (r_schema req), truthy (r_table req), r_timeframes req with
  | Some schema, Some src_table, _ :: _ =>
      match loop schema src_table (get_table_type src_table)
              (r_timeframes req) [] w with
      | (inr results, w') => (Results results, w')
      | (inl e, w') => (Raised e, w')
      end
  | _, _, _ => (BadRequest, w)
  end.

End ApiResample.

(** *** The route of the single-file application [app.py] *)

Module App.

(** [create_dest_table(schema, dest_table)]. *)
Definition create_dest_table (schema dest_table : string) (w : world)
  : bool * world :=
  if decide ((schema, dest_table) ∈ ddl_denied w) then (false, w)
  else (true, set_table w (schema, dest_table) (OptionTable [])).

(** [execute_resample]: the statement of [execute_resample_option]. *)
Definition execute_resample := Execute.execute_resample_option.

Fixpoint loop (schema src_table : string) (timeframes : list string)
    (results : list entry) (w : world) : list entry * world :=
  match timeframes with
  | [] => (results, w)
  | tf_name :: rest =>
      match timeframe_minutes tf_name with
      | None => loop schema src_table rest results w
      | Some tf_minutes =>
          let dest_table := dest_name src_table tf_name in
          match create_dest_table schema dest_table w with
          | (false, w1) =>
              loop schema src_table rest
                (results ++ [failure tf_name "Failed to create destination table"])%list
                w1
          | (true, w1) =>
              let '(ok, w2) :=
                execute_resample schema src_table dest_table tf_minutes w1 in
              loop schema src_table rest
                (results ++
                 [if ok then success tf_name dest_table
                  else failure tf_name "Failed to execute resampling"])%list
                w2
          end
      end
  end.

Definition api_resample (req : request) (w : world) : response * world :=
  match truthy (r_schema req), truthy (r_table req), r_timeframes req with
  | Some schema, Some src_table, _ :: _ =>
      let '(results, w') := loop schema src_table (r_timeframes req) [] w in
      (Results results, w')
  | _, _, _ => (BadRequest, w)
  end.

End App.

(** ** The merge route of [app/routes/merge.py] *)

(** A Python value reaching [normalize_dt]: [None], an object with
    [strftime] (the [datetime] of a [DATETIME] column), or any other
    value, given by its [str()]. *)
Inductive pyval :=
| PyNone
| PyDatetime (t : datetime)
| PyStr (s : string).

(** One row of an uploaded CSV file, as read by [pd.read_csv]: the
    key columns as they stand in the file ([StrikePrice] is an [INT]
    column, the other three are text), and the bar values.  A stock
    file has no contract columns; they are not looked at for it. *)
Record CsvRow := mkCsvRow {
  csv_StrikePrice : Z;
  csv_ContractType : string;
  csv_ExpiryDate : string;
  csv_Timestamp : string;
  csv_Open : option Z; csv_Close : option Z; csv_High : option Z;
  csv_Low : option Z; csv_Volume : option Z
}.

#[global] Instance CsvRow_eq_dec : EqDecision CsvRow.
Proof. solve_decision. Defined.

(** An element of [existing_keys]: the normalized [Timestamp] text
    for the stock and VIX tables, the 4-tuple for the option tables.
    The same shape holds the raw values of the [subset] columns that
    [drop_duplicates] compares. *)
Inductive Key :=
| StockKey (ts : string)
| OptionKey (strike : Z) (ctype expiry ts : string).

#[global] Instance Key_eq_dec : EqDecision Key.
Proof. solve_decision. Defined.

#[global] Instance Key_countable : Countable Key.
Proof.
  refine (inj_countable'
    (fun k => match k with
              | StockKey ts => inl ts
              | OptionKey a b c d => inr (a, b, c, d)
              end)
    (fun x => match x with
              | inl ts => StockKey ts
              | inr (a, b, c, d) => OptionKey a b c d
              end) _).
  intros []; reflexivity.
Defined.

(** An uploaded file: its name and, when [pd.read_csv] succeeds, its
    rows. *)
Record upload := mkUpload {
  filename : string;
  content : option (list CsvRow)
}.

(** The groups of a file name matched by [parse_filename]. *)
Record parsed := mkParsed {
  p_symbol : string; p_type : string; p_tf : string
}.

Module Filename.

Definition newline : ascii := ascii_of_N 10.

Definition is_letter (c : ascii) : bool :=
  let n := Text.code c in
  ((97 <=? n) && (n <=? 122)) || ((65 <=? n) && (n <=? 90)).

Definition is_digit (c : ascii) : bool :=
  let n := Text.code c in (48 <=? n) && (n <=? 57).

(** [\.csv$] at the start of [r]: [$] matches at the end and before a
    final newline. *)
Definition dot_csv_end (r : string) : bool :=
  String.eqb r ".csv" || String.eqb r (".csv" ++ String newline "").

(** [.*\.csv$] at the start of [r]; [.] matches no newline. *)
Fixpoint any_dot_csv_end (r : string) : bool :=
  dot_csv_end r
  || match r with
     | EmptyString => false
     | String c r' => negb (Ascii.eqb c newline) && any_dot_csv_end r'
     end.

(** [(?P<tf>\d+\s*min)]: the group and the rest. *)
Definition tf_group (s : string) : option (string * string) :=
  let '(ds, r1) := Text.span is_digit s in
  let '(ws, r2) := Text.span Text.is_space r1 in
  match ds, Text.strip_prefix "min" r2 with
  | String _ _, Some r3 => Some (ds ++ ws ++ "min", r3)
  | _, _ => None
  end.

(** [(?P<symbol>[a-zA-Z]+)_(?P<type>call|put)_(?P<tf>\d+\s*min)_.*\.csv$]. *)
Definition option_tail (s : string) : option parsed :=
  let '(sym, r0) := Text.span is_letter s in
  match sym with
  | EmptyString => None
  | _ =>
      r1 ← Text.strip_prefix "_" r0;
      tr ← match Text.strip_prefix "call" r1 with
           | Some r2 => Some ("call", r2)
           | None => (fun r2 => ("put", r2)) <$> Text.strip_prefix "put" r1
           end;
      r3 ← Text.strip_prefix "_" tr.2;
      tf ← tf_group r3;
      r7 ← Text.strip_prefix "_" tf.2;
      if any_dot_csv_end r7 then Some (mkParsed sym tr.1 tf.1) else None
  end.

(** [(?P<symbol>[a-zA-Z]+)_(?P<tf>\d+\s*min)\.csv$]. *)
Definition stock_tail (s : string) : option parsed :=
  let '(sym, r0) := Text.span is_letter s in
  match sym with
  | EmptyString => None
  | _ =>
      r1 ← Text.strip_prefix "_" r0;
      tf ← tf_group r1;
      if dot_csv_end tf.2 then Some (mkParsed sym "stock" tf.1) else None
  end.

(** [re.match(r".*_" + tail, s)]: the greedy [.*] settles on the last
    underscore after which [tail] matches, with no newline before it. *)
Fixpoint after_last_underscore (tail : string -> option parsed) (s : string)
  : option parsed :=
  match s with
  | EmptyString => None
  | String c r =>
      match (if Ascii.eqb c newline then None
             else after_last_underscore tail r) with
      | Some p => Some p
      | None => if Ascii.eqb c "_" then tail r else None
      end
  end.

(** [s.replace(' ', '')]. *)
Fixpoint remove_spaces (s : string) : string :=
  match s with
  | EmptyString => EmptyString
  | String c r =>
      if Ascii.eqb c " " then remove_spaces r else String c (remove_spaces r)
  end.

(** [parse_filename(filename)]. *)
Definition parse_filename (filename : string) : option parsed :=
  let s := Text.lower filename in
  match after_last_underscore option_tail s with
  | Some p => Some (mkParsed (p_symbol p) (p_type p) (remove_spaces (p_tf p)))
  | None =>
      (fun p => mkParsed (p_symbol p) "stock" (remove_spaces (p_tf p)))
      <$> after_last_underscore stock_tail s
  end.

End Filename.

(** The 400 responses of [merge_option_data]. *)
Inductive rejection :=
| MissingSchemaOrTable
| NoFilesUploaded
| InvalidTable
| InvalidFilenameFormat (f : string)
| SymbolNotSchema (f : string)
| OptionFileForStockTable (f : string)
| VixFileForStockTable (f : string)
| OptionFileForVixTable (f : string)
| NotVixFileForVixTable (f : string)
| StockFileForOptionTable (f : string)
| TypeOrTimeframeNotTable (f : string).

(** The 500 responses. *)
Inductive failure_kind :=
| ErrorReading (f : string)
| DatabaseError.

(** The values handed to [merge_result.html]. *)
Record merge_result := mkMergeResult {
  total_rows : nat;
  rows_inserted : nat;
  duplicates_skipped : nat;
  csv_dupes : nat;
  skipped_rows : list CsvRow
}.

Inductive merge_response :=
| Rejected (r : rejection)
| Failed (k : failure_kind)
| Merged (r : merge_result).

Module Merge.

(** [normalize_dt(val)]. *)
Definition normalize_dt (val : pyval) : string :=
  match val with
  | PyNone => ""
  | PyDatetime t => Calendar.strftime t
  | PyStr s =>
      Text.strip
        (Text.split_head "+" (Text.split_head "." (Text.replace_char "T" " " s)))
  end.

(** [table in ('ib_stock_1min', 'ib_vix_1min')]. *)
Definition timestamp_keyed (table : string) : bool :=
  String.eqb table "ib_stock_1min" || String.eqb table "ib_vix_1min".

(** The values of the [key_cols] of a row, as [drop_duplicates]
    compares them. *)
Definition subset_values (table : string) (row : CsvRow) : Key :=
  if timestamp_keyed table then StockKey (csv_Timestamp row)
  else OptionKey (csv_StrikePrice row) (csv_ContractType row)
         (csv_ExpiryDate row) (csv_Timestamp row).

(** [df.drop_duplicates(subset=key_cols)]: the first row of every
    combination of values stays. *)
Fixpoint drop_duplicates_from (table : string) (seen : gset Key)
    (rows : list CsvRow) : list CsvRow :=
  match rows with
  | [] => []
  | r :: rest =>
      if decide (subset_values table r ∈ seen)
      then drop_duplicates_from table seen rest
      else r :: drop_duplicates_from table ({[subset_values table r]} ∪ seen)
                  rest
  end.

Definition drop_duplicates (table : string) (rows : list CsvRow)
  : list CsvRow := drop_duplicates_from table ∅ rows.

(** The key computed in [row_exists] for a CSV row. *)
Definition csv_key (table : string) (row : CsvRow) : Key :=
  if timestamp_keyed table
  then StockKey (normalize_dt (PyStr (csv_Timestamp row)))
  else OptionKey (csv_StrikePrice row)
         (Text.strip (csv_ContractType row))
         (normalize_dt (PyStr (csv_ExpiryDate row)))
         (normalize_dt (PyStr (csv_Timestamp row))).

(** The key added to [existing_keys] for a fetched row. *)
Definition stock_db_key (t : datetime) : Key :=
  StockKey (normalize_dt (PyDatetime t)).

Definition option_db_key (r : OptionRow) : Key :=
  OptionKey (StrikePrice (contract r))
    (Text.strip (ContractType (contract r)))
    (normalize_dt (PyDatetime (ExpiryDate (contract r))))
    (normalize_dt (PyDatetime (Timestamp (bar r)))).

(** [SELECT key_cols FROM table] and the loop that fills
    [existing_keys]; [None] when the statement raises (no such table,
    or no such column). *)
Definition fetch_existing_keys (schema table : string) (w : world)
  : option (gset Key) :=
  match tables w !! (schema, table) with
  | None => None
  | Some (StockTable rows) =>
      if timestamp_keyed table
      then Some (list_to_set (stock_db_key <$> (Timestamp <$> rows)))
      else None
  | Some (OptionTable rows) =>
      if timestamp_keyed table
      then Some (list_to_set (stock_db_key <$> (Timestamp <$> (bar <$> rows))))
      else Some (list_to_set (option_db_key <$> rows))
  end.

(** [row_exists(row)]. *)
Definition row_exists (table : string) (existing_keys : gset Key)
    (row : CsvRow) : bool :=
  bool_decide (csv_key table row ∈ existing_keys).

(** [merged_data[mask]] and [merged_data[~mask]]. *)
Definition duplicate_rows (table : string) (existing_keys : gset Key)
    (merged_data : list CsvRow) : list CsvRow :=
  filter (fun r => row_exists table existing_keys r) merged_data.

Definition new_data (table : string) (existing_keys : gset Key)
    (merged_data : list CsvRow) : list CsvRow :=
  filter (fun r => ¬ row_exists table existing_keys r) merged_data.

(** The checks made on one file name. *)
Definition check_file (schema table : string) (f : string)
  : option rejection :=
  match Filename.parse_filename f with
  | None => Some (InvalidFilenameFormat f)
  | Some p =>
      if negb (Text.startswith (p_symbol p ++ "_") (Text.lower schema))
      then Some (SymbolNotSchema f)
      else if String.eqb table "ib_stock_1min" then
        if negb (String.eqb (p_type p) "stock")
        then Some (OptionFileForStockTable f)
        else if String.eqb (p_symbol p) "vix"
        then Some (VixFileForStockTable f)
        else None
      else if String.eqb table "ib_vix_1min" then
        if negb (String.eqb (p_type p) "stock")
        then Some (OptionFileForVixTable f)
        else if negb (String.eqb (p_symbol p) "vix")
        then Some (NotVixFileForVixTable f)
        else None
      else
        if String.eqb (p_type p) "stock"
        then Some (StockFileForOptionTable f)
        else if negb (Text.is_in (p_type p) (Text.lower table))
                || negb (Text.is_in (p_tf p) (Text.lower table))
        then Some (TypeOrTimeframeNotTable f)
        else None
  end.

(** The validation loop over the files. *)
Fixpoint validate_files (schema table : string) (files : list upload)
  : option rejection :=
  match files with
  | [] => None
  | f :: rest =>
      if String.eqb (filename f) "" then validate_files schema table rest
      else match check_file schema table (filename f) with
           | Some r => Some r
           | None => validate_files schema table rest
           end
  end.

(** The reading loop: the rows of all files, or the first file that
    [pd.read_csv] cannot read. *)
Fixpoint read_files (files : list upload) : failure_kind + list CsvRow :=
  match files with
  | [] => inr []
  | f :: rest =>
      if String.eqb (filename f) "" then read_files rest
      else match content f with
           | None => inl (ErrorReading (filename f))
           | Some df =>
               match read_files rest with
               | inl e => inl e
               | inr rows => inr (df ++ rows)%list
               end
           end
  end.

Section with_store.

(** The [DATETIME] the server stores for a text, if it accepts it. *)
Variable store_datetime : string -> option datetime.

Definition stored_bar (r : CsvRow) : option Bar :=
  (fun t => mkBar t (csv_Open r) (csv_Close r) (csv_High r) (csv_Low r)
              (csv_Volume r)) <$> store_datetime (csv_Timestamp r).

(** [ContractType] is a [VARCHAR(10)]. *)
Definition stored_option_row (r : CsvRow) : option OptionRow :=
  if (String.length (csv_ContractType r) <=? 10)%nat then
    e ← store_datetime (csv_ExpiryDate r);
    b ← stored_bar r;
    Some (mkOptionRow (mkContract (csv_StrikePrice r) (csv_ContractType r) e) b)
  else None.

(** [new_data.to_sql(table, ..., if_exists='append', index=False)]:
    every row is stored or none is; the primary key stays unique.
    [None] when the insert raises. *)
Definition to_sql (schema table : string) (rows : list CsvRow) (w : world)
  : option world :=
  match tables w !! (schema, table) with
  | Some (StockTable old) =>
      if timestamp_keyed table then
        new ← mapM stored_bar rows;
        let all := (old ++ new)%list in
        if decide (NoDup (Timestamp <$> all))
        then Some (set_table w (schema, table) (StockTable all)) else None
      else None
  | Some (OptionTable old) =>
      if timestamp_keyed table then None
      else
        new ← mapM stored_option_row rows;
        let all := (old ++ new)%list in
        if decide (NoDup ((fun r => (contract r, Timestamp (bar r))) <$> all))
        then Some (set_table w (schema, table) (OptionTable all)) else None
  | None => None
  end.

(** The texts of a row for which the key computed from the CSV file
    is the key computed from the stored row. *)
Definition canonical (table : string) (row : CsvRow) : Prop :=
  (forall t, store_datetime (csv_Timestamp row) = Some t ->
             Calendar.strftime t = normalize_dt (PyStr (csv_Timestamp row)))
  /\ (timestamp_keyed table = false ->
      forall e, store_datetime (csv_ExpiryDate row) = Some e ->
                Calendar.strftime e = normalize_dt (PyStr (csv_ExpiryDate row))).

(** The body of the route after the files have been read. *)
Definition merge_rows (schema table : string) (merged : list CsvRow)
    (w : world) : merge_response * world :=
  let merged_data := drop_duplicates table merged in
  let csv_dupes_count := (length merged - length merged_data)%nat in
  match fetch_existing_keys schema table w with
  | None => (Failed DatabaseError, w)
  | Some existing_keys =>
      let rows_before_filter := length merged_data in
      let dups := duplicate_rows table existing_keys merged_data in
      let new := new_data table existing_keys merged_data in
      let duplicates := (rows_before_filter - length new)%nat in
      let result n :=
        mkMergeResult (length merged) n duplicates csv_dupes_count
          (take 100 dups) in
      match new with
      | [] => (Merged (result O), w)
      | _ =>
          match to_sql schema table new w with
          | Some w' => (Merged (result (length new)), w')
          | None => (Failed DatabaseError, w)
          end
      end
  end.

(** [merge_option_data] for a [POST]. *)
Definition merge_option_data (schema table : option string)
    (files : list upload) (w : world) : merge_response * world :=
  match truthy schema, truthy table with
  | Some schema, Some table =>
      if forallb (fun f => String.eqb (filename f) "") files
      then (Rejected NoFilesUploaded, w)
      else if negb (bool_decide (table ∈ Database.BASE_TABLES))
      then (Rejected InvalidTable, w)
      else
        let w1 := (Database.create_base_table schema table w).2 in
        match validate_files schema table files with
        | Some r => (Rejected r, w1)
        | None =>
            match read_files files with
            | inl e => (Failed e, w1)
            | inr merged => merge_rows schema table merged w1
            end
        end
  | _, _ => (Rejected MissingSchemaOrTable, w)
  end.

End with_store.

End Merge.


(** ** The merge route of the single-file application [app.py] *)

(** The values of the answer of its [merge_option_data]. *)
Record app_merge_result := mkAppMergeResult {
  a_total_rows : Z;
  a_rows_inserted : Z;
  a_duplicates_skipped : Z
}.

Inductive app_merge_response :=
| AppRejected (r : rejection)
| AppFailed (k : failure_kind)
| AppMerged (r : app_merge_result).

Module AppMerge.

(** [(?P<tf>\d+min)]: the group and the rest. *)
Definition tf_group (s : string) : option (string * string) :=
  let '(ds, r1) := Text.span Filename.is_digit s in
  match ds, Text.strip_prefix "min" r1 with
  | String _ _, Some r2 => Some (ds ++ "min", r2)
  | _, _ => None
  end.

(** [(?P<symbol>[a-zA-Z]+)_(?P<type>call|put)_(?P<tf>\d+min)_.*\.csv$]. *)
Definition option_tail (s : string) : option parsed :=
  let '(sym, r0) := Text.span Filename.is_letter s in
  match sym with
  | EmptyString => None
  | _ =>
      r1 ← Text.strip_prefix "_" r0;
      tr ← match Text.strip_prefix "call" r1 with
           | Some r2 => Some ("call", r2)
           | None => (fun r2 => ("put", r2)) <$> Text.strip_prefix "put" r1
           end;
      r3 ← Text.strip_prefix "_" tr.2;
      tf ← tf_group r3;
      r7 ← Text.strip_prefix "_" tf.2;
      if Filename.any_dot_csv_end r7 then Some (mkParsed sym tr.1 tf.1)
      else None
  end.

(** [parse_filename(filename)] of [app.py]. *)
Definition parse_filename (filename : string) : option parsed :=
  Filename.after_last_underscore option_tail (Text.lower filename).

(** The checks made on one file. *)
Definition check_file (schema table : string) (f : string)
  : option rejection :=
  match parse_filename f with
  | None => Some (InvalidFilenameFormat f)
  | Some p =>
      if negb (Text.startswith (p_symbol p ++ "_") (Text.lower schema))
      then Some (SymbolNotSchema f)
      else if negb (Text.is_in (p_type p) (Text.lower table))
              || negb (Text.is_in (p_tf p) (Text.lower table))
      then Some (TypeOrTimeframeNotTable f)
      else None
  end.

Fixpoint validate_files (schema table : string) (files : list upload)
  : option rejection :=
  match files with
  | [] => None
  | f :: rest =>
      match check_file schema table (filename f) with
      | Some r => Some r
      | None => validate_files schema table rest
      end
  end.

Fixpoint read_files (files : list upload) : failure_kind + list CsvRow :=
  match files with
  | [] => inr []
  | f :: rest =>
      match content f with
      | None => inl (ErrorReading (filename f))
      | Some df =>
          match read_files rest with
          | inl e => inl e
          | inr rows => inr (df ++ rows)%list
          end
      end
  end.

(** The values of the four [subset] columns of a row. *)
Definition subset_values (row : CsvRow) : Key :=
  OptionKey (csv_StrikePrice row) (csv_ContractType row)
    (csv_ExpiryDate row) (csv_Timestamp row).

(** [df.drop_duplicates(subset=['StrikePrice', 'ContractType',
    'ExpiryDate', 'Timestamp'])]. *)
Fixpoint drop_duplicates_from (seen : gset Key) (rows : list CsvRow)
  : list CsvRow :=
  match rows with
  | [] => []
  | r :: rest =>
      if decide (subset_values r ∈ seen) then drop_duplicates_from seen rest
      else r :: drop_duplicates_from ({[subset_values r]} ∪ seen) rest
  end.

Definition drop_duplicates (rows : list CsvRow) : list CsvRow :=
  drop_duplicates_from ∅ rows.

(** [SELECT COUNT( * ) FROM table]; [None] when there is no such
    table. *)
Definition count_rows (schema table : string) (w : world) : option Z :=
  match tables w !! (schema, table) with
  | Some (OptionTable rows) => Some (Z.of_nat (length rows))
  | Some (StockTable rows) => Some (Z.of_nat (length rows))
  | None => None
  end.

Section with_store.

Variable store_datetime : string -> option datetime.

(** [merge_option_data] of [app.py] for a [POST]: every row left by
    [drop_duplicates] is handed to [to_sql], and the counts come from
    the number of rows of the table before and after. *)
Definition merge_option_data (schema table : option string)
    (files : list upload) (w : world) : app_merge_response * world :=
  match truthy schema, truthy table with
  | Some schema, Some table =>
      match files with
      | [] => (AppRejected NoFilesUploaded, w)
      | _ =>
          match validate_files schema table files with
          | Some r => (AppRejected r, w)
          | None =>
              match read_files files with
              | inl e => (AppFailed e, w)
              | inr merged =>
                  let merged_options := drop_duplicates merged in
                  match count_rows schema table w with
                  | None => (AppFailed DatabaseError, w)
                  | Some before_count =>
                      match Merge.to_sql store_datetime schema table
                              merged_options w with
                      | None => (AppFailed DatabaseError, w)
                      | Some w' =>
                          match count_rows schema table w' with
                          | None => (AppFailed DatabaseError, w')
                          | Some after_count =>
                              let rows_inserted := after_count - before_count in
                              (AppMerged
                                 (mkAppMergeResult (Z.of_nat (length merged))
                                    rows_inserted
                                    (Z.of_nat (length merged_options)
                                     - rows_inserted)),
                               w')
                          end
                      end
                  end
              end
          end
      end
  | _, _ => (AppRejected MissingSchemaOrTable, w)
  end.

End with_store.

End AppMerge.

(** ** A store and sample data *)

Module Store.

Definition two_digits (a b : ascii) : option Z :=
  x ← Decimal.digit_val a; y ← Decimal.digit_val b; Some (10 * x + y).

Definition valid (t : datetime) : bool :=
  (1000 <=? dt_year t) && (dt_year t <=? 9999)
  && (1 <=? dt_month t) && (dt_month t <=? 12)
  && (1 <=? dt_day t)
  && (dt_day t <=? Calendar.days_in_month (dt_year t) (dt_month t))
  && (dt_hour t <=? 23) && (dt_minute t <=? 59) && (dt_second t <=? 59).

(** The [DATETIME] MySQL stores for a literal of one of the forms
    [YYYY-MM-DD hh:mm:ss], [YYYY-MM-DD hh:mm] and the same with [T]
    between date and time; other literals are left out (not stored). *)
Definition datetime_of_text (s : string) : option datetime :=
  match s with
  | String y1 (String y2 (String y3 (String y4 (String "-"
    (String m1 (String m2 (String "-" (String d1 (String d2
    (String sep (String h1 (String h2 (String ":"
    (String n1 (String n2 rest))))))))))))))) =>
      if Ascii.eqb sep " " || Ascii.eqb sep "T" then
        yh ← two_digits y1 y2; yl ← two_digits y3 y4;
        m ← two_digits m1 m2; d ← two_digits d1 d2;
        h ← two_digits h1 h2; n ← two_digits n1 n2;
        sec ← match rest with
              | EmptyString => Some 0
              | String ":" (String s1 (String s2 EmptyString)) =>
                  two_digits s1 s2
              | _ => None
              end;
        let t := DateTime (100 * yh + yl) m d h n sec in
        if valid t then Some t else None
      else None
  | _ => None
  end.

End Store.

Module Examples.

Definition day (h m : Z) : datetime := DateTime 2026 1 2 h m 0.

Definition bar_at (h m : Z) (o c hi lo v : Z) : Bar :=
  mkBar (day h m) (Some o) (Some c) (Some hi) (Some lo) (Some v).

(** Three minutes of one stock, as in the spec's bucketing scenario,
    and a row at the close and one after it. *)
Definition b0930 := bar_at 9 30 1000000 1005000 1010000 995000 5.
Definition b0931 := bar_at 9 31 1005000 1002500 1020000 1001000 7.
Definition b0932 := bar_at 9 32 1002500 1012500 1015000 990000 11.
Definition b1559 := bar_at 15 59 1100000 1101000 1102000 1099000 3.
Definition b1600 := bar_at 16 0 1101000 1101000 1101000 1101000 2.

Definition stock_rows : list Bar := [b0930; b0931; b0932].

Definition call450 : Contract := mkContract 450 "call" (DateTime 2026 1 16 0 0 0).

Definition option_rows : list OptionRow :=
  mkOptionRow call450 <$> stock_rows.

(** A database with one option table, on which the 3-minute table
    may not be created. *)
Definition resample_world : world :=
  mkWorld {[ ("qqq_db", "ib_2w_call_1min") := OptionTable option_rows ]}
          {[ ("qqq_db", "ib_2w_call_3min") ]}.

Definition resample_request : request :=
  mkRequest (Some "qqq_db") (Some "ib_2w_call_1min") ["3min"; "5min"].

Definition empty_world : world := mkWorld ∅ ∅.

Definition stock_csv (ts : string) : CsvRow :=
  mkCsvRow 0 "" "" ts (Some 1000000) (Some 1005000) (Some 1010000)
    (Some 995000) (Some 5).

Definition stock_file (rows : list CsvRow) : upload :=
  mkUpload "ib_data_01202026_qqq_1min.csv" (Some rows).

End Examples.

(** * Properties *)

(** ** Text of numbers *)

Section text_facts.

Lemma code_digit_char d : 0 <= d <= 9 -> Text.code (Text.digit_char d) = 48 + d.
Proof.
  intros Hd. unfold Text.code, Text.digit_char.
  rewrite N_ascii_embedding by lia. lia.
Qed.

Lemma digit_val_digit_char d :
  0 <= d <= 9 -> Decimal.digit_val (Text.digit_char d) = Some d.
Proof.
  intros Hd. unfold Decimal.digit_val. rewrite code_digit_char by done.
  replace ((48 <=? 48 + d) && (48 + d <=? 57)) with true
    by (symmetry; apply andb_true_intro; split; lia).
  f_equal. lia.
Qed.

Lemma digit_char_neq d c :
  0 <= d <= 9 -> Decimal.digit_val c = None -> Ascii.eqb (Text.digit_char d) c = false.
Proof.
  intros Hd Hc. apply Ascii.eqb_neq. intros <-.
  rewrite digit_val_digit_char in Hc by done. discriminate.
Qed.

Lemma contains_app sep a b :
  Agg.contains sep (a ++ b) = Agg.contains sep a || Agg.contains sep b.
Proof.
  induction a as [|c a IH]; simpl; [done|]. rewrite IH. by rewrite orb_assoc.
Qed.

Lemma contains_digits sep f n :
  Decimal.digit_val sep = None -> Agg.contains sep (Decimal.digits f n) = false.
Proof.
  intros Hsep. revert n.
  assert (Hone : forall n, Agg.contains sep (String (Text.digit_char (n mod 10)) "") = false).
  { intros n. simpl. rewrite digit_char_neq; [done| |done].
    pose proof (Z.mod_pos_bound n 10). lia. }
  induction f as [|f IH]; intros n; simpl; [apply Hone|].
  destruct (n <? 10); [apply Hone|].
  rewrite contains_app, IH. apply Hone.
Qed.

Lemma contains_pad2 sep n k :
  Decimal.digit_val sep = None ->
  Agg.contains sep (Text.pad2 n k) = Agg.contains sep k.
Proof.
  intros Hsep. unfold Text.pad2. simpl.
  rewrite !digit_char_neq; try done.
  - pose proof (Z.mod_pos_bound n 10). lia.
  - pose proof (Z.mod_pos_bound (n / 10) 10). lia.
Qed.

Lemma contains_pad4 sep n k :
  Decimal.digit_val sep = None ->
  Agg.contains sep (Text.pad4 n k) = Agg.contains sep k.
Proof.
  intros Hsep. unfold Text.pad4. cbn [Agg.contains].
  rewrite contains_pad2 by done.
  rewrite !digit_char_neq; try done.
  - pose proof (Z.mod_pos_bound (n / 100) 10). lia.
  - pose proof (Z.mod_pos_bound (n / 1000) 10). lia.
Qed.

Lemma split_head_app sep s k :
  Agg.contains sep s = false -> Text.split_head sep (s ++ String sep k) = s.
Proof.
  induction s as [|c s IH]; simpl.
  - by rewrite Ascii.eqb_refl.
  - intros H. apply orb_false_elim in H as [H1 H2].
    rewrite H1. f_equal. by apply IH.
Qed.

Lemma split_head_none sep s :
  Agg.contains sep s = false -> Text.split_head sep s = s.
Proof.
  induction s as [|c s IH]; simpl; [done|].
  intros H. apply orb_false_elim in H as [H1 H2].
  rewrite H1. f_equal. by apply IH.
Qed.

Lemma split_tail_app sep s k :
  Agg.contains sep s = false ->
  Decimal.split_tail sep (s ++ String sep k) = Some k.
Proof.
  induction s as [|c s IH]; simpl.
  - by rewrite Ascii.eqb_refl.
  - intros H. apply orb_false_elim in H as [H1 H2].
    rewrite H1. by apply IH.
Qed.

Lemma after_last_app sep a b :
  Agg.contains sep b = false -> Agg.after_last sep (a ++ String sep b) = b.
Proof.
  intros Hb. induction a as [|c a IH]; simpl.
  - by rewrite Hb, Ascii.eqb_refl.
  - rewrite contains_app. simpl. rewrite Ascii.eqb_refl, orb_true_r. done.
Qed.

Lemma value_from_snoc s : forall acc c,
  Decimal.value_from acc (s ++ String c "") =
  match Decimal.value_from acc s, Decimal.digit_val c with
  | Some v, Some d => Some (v * 10 + d)
  | _, _ => None
  end.
Proof.
  induction s as [|x s IH]; intros acc c; simpl.
  - by destruct (Decimal.digit_val c).
  - destruct (Decimal.digit_val x); [apply IH|done].
Qed.

Lemma value_from_digits f : forall n,
  0 <= n < 10 ^ Z.of_nat (S f) ->
  Decimal.value_from 0 (Decimal.digits f n) = Some n.
Proof.
  assert (Hone : forall n, 0 <= n < 10 ->
    Decimal.value_from 0 (String (Text.digit_char (n mod 10)) "") = Some n).
  { intros n Hn. simpl. rewrite digit_val_digit_char.
    - f_equal. rewrite Z.mod_small; lia.
    - pose proof (Z.mod_pos_bound n 10). lia. }
  induction f as [|f IH]; intros n Hn.
  - simpl. apply Hone. simpl in Hn. lia.
  - simpl Decimal.digits. destruct (Z.ltb_spec n 10) as [Hlt|Hge].
    + apply Hone. lia.
    + rewrite value_from_snoc, IH, digit_val_digit_char.
      * f_equal. pose proof (Z.div_mod n 10). lia.
      * pose proof (Z.mod_pos_bound n 10). lia.
      * split; [apply Z.div_pos; lia|].
        apply Z.div_lt_upper_bound; [lia|].
        rewrite <- Z.pow_succ_r by lia.
        replace (Z.succ (Z.of_nat (S f))) with (Z.of_nat (S (S f))) by lia.
        lia.
Qed.

Lemma digits_nonempty f n : Decimal.digits f n <> "".
Proof.
  destruct f; simpl; [done|]. destruct (n <? 10); [done|].
  destruct (Decimal.digits f (n / 10)); done.
Qed.

Lemma nat_of_text_nat_text n :
  0 <= n -> Decimal.nat_of_text (Decimal.nat_text n) = Some n.
Proof.
  intros Hn. unfold Decimal.nat_of_text, Decimal.nat_text.
  pose proof (digits_nonempty (Z.to_nat (Z.log2 n)) n) as Hne.
  destruct (Decimal.digits (Z.to_nat (Z.log2 n)) n) eqn:E; [done|].
  rewrite <- E. apply value_from_digits. split; [done|].
  rewrite Nat2Z.inj_succ, Z2Nat.id by apply Z.log2_nonneg.
  destruct (Z.eq_dec n 0) as [->|Hnz]; [done|].
  pose proof (Z.log2_spec n ltac:(lia)) as [_ Hlt].
  eapply Z.lt_le_trans; [exact Hlt|].
  apply Z.pow_le_mono_l. lia.
Qed.

Lemma frac4_pad4 n :
  0 <= n < 10000 -> Decimal.frac4 (Text.pad4 n "") = Some n.
Proof.
  intros Hn. unfold Text.pad4, Text.pad2, Decimal.frac4. simpl.
  rewrite !digit_val_digit_char.
  - f_equal. Z.div_mod_to_equations. lia.
  - pose proof (Z.mod_pos_bound n 10). lia.
  - pose proof (Z.mod_pos_bound (n / 10) 10). lia.
  - pose proof (Z.mod_pos_bound (n / 100) 10). lia.
  - pose proof (Z.mod_pos_bound (n / 1000) 10). lia.
Qed.

Lemma of_text_unsigned_body a :
  0 <= a ->
  Decimal.of_text_unsigned
    (Decimal.nat_text (a / 10000) ++ String "." (Text.pad4 (a mod 10000) ""))
  = Some a.
Proof.
  intros Ha. unfold Decimal.of_text_unsigned.
  assert (Hc : Agg.contains "." (Decimal.nat_text (a / 10000)) = false)
    by (by apply contains_digits).
  rewrite split_head_app, split_tail_app by done.
  rewrite nat_of_text_nat_text by (apply Z.div_pos; lia).
  rewrite frac4_pad4 by (apply Z.mod_pos_bound; lia).
  f_equal. pose proof (Z.div_mod a 10000). lia.
Qed.

(** Reading back the text of a decimal gives the decimal. *)
Lemma of_text_to_text v : Decimal.of_text (Decimal.to_text v) = Some v.
Proof.
  unfold Decimal.to_text. destruct (Z.ltb_spec v 0) as [Hneg|Hpos].
  - simpl. rewrite of_text_unsigned_body by lia. f_equal. lia.
  - assert (Hb := of_text_unsigned_body (Z.abs v) ltac:(lia)).
    unfold Decimal.of_text.
    destruct (Decimal.nat_text (Z.abs v / 10000) ++ _) as [|c r] eqn:E.
    + discriminate Hb.
    + destruct (Ascii.eqb_spec c "-") as [->|_].
      * exfalso. unfold Decimal.of_text_unsigned in Hb. simpl in Hb. discriminate.
      * rewrite Hb. f_equal. lia.
Qed.

End text_facts.

Section text_order.

Lemma length_app_string a b :
  String.length (a ++ b) = (String.length a + String.length b)%nat.
Proof. induction a as [|c a IH]; simpl; [done|]. by rewrite IH. Qed.

Lemma length_digits (k : nat) : forall f n,
  (1 <= k)%nat -> 0 <= n < 10 ^ Z.of_nat k ->
  (String.length (Decimal.digits f n) <= k)%nat.
Proof.
  induction k as [|k IH]; intros f n Hk Hn; [lia|].
  destruct f as [|f]; simpl; [lia|].
  destruct (Z.ltb_spec n 10) as [Hlt|Hge]; simpl; [lia|].
  rewrite length_app_string. simpl.
  assert (Hk' : (1 <= k)%nat).
  { destruct k; [|lia]. simpl in Hn. lia. }
  specialize (IH f (n / 10) Hk').
  assert (0 <= n / 10 < 10 ^ Z.of_nat k).
  { split; [apply Z.div_pos; lia|].
    apply Z.div_lt_upper_bound; [lia|].
    rewrite <- Z.pow_succ_r by lia.
    replace (Z.succ (Z.of_nat k)) with (Z.of_nat (S k)) by lia. lia. }
  specialize (IH H). lia.
Qed.

Lemma length_to_text v :
  Decimal.in_range v -> (String.length (Decimal.to_text v) <= 12)%nat.
Proof.
  unfold Decimal.in_range, Decimal.to_text. intros Hv.
  assert (Hip : 0 <= Z.abs v / 10000 < 10 ^ Z.of_nat 6).
  { split; [apply Z.div_pos; lia|].
    apply Z.div_lt_upper_bound; [lia|]. simpl. lia. }
  pose proof (length_digits 6 (Z.to_nat (Z.log2 (Z.abs v / 10000)))
                (Z.abs v / 10000) ltac:(lia) Hip) as Hlen.
  fold (Decimal.nat_text (Z.abs v / 10000)) in Hlen.
  destruct (v <? 0); simpl; rewrite length_app_string; simpl; lia.
Qed.

Lemma contains_to_text sep v :
  Decimal.digit_val sep = None ->
  Ascii.eqb "-" sep = false -> Ascii.eqb "." sep = false ->
  Agg.contains sep (Decimal.to_text v) = false.
Proof.
  intros Hd Hm Hp. unfold Decimal.to_text.
  assert (Hb : Agg.contains sep
                 (Decimal.nat_text (Z.abs v / 10000)
                  ++ String "." (Text.pad4 (Z.abs v mod 10000) "")) = false).
  { rewrite contains_app. unfold Decimal.nat_text.
    rewrite contains_digits by done. cbn [Agg.contains orb].
    rewrite Hp, contains_pad4 by done. done. }
  destruct (v <? 0); [|done]. cbn [Agg.contains]. by rewrite Hm, Hb.
Qed.

Lemma split_head_take sep t : forall n k,
  Agg.contains sep t = false ->
  (String.length t <= n)%nat ->
  (k = "" \/ exists k', k = String sep k') ->
  Text.split_head sep (Agg.take_chars n (t ++ k)) = t.
Proof.
  induction t as [|c t IH]; intros n k Hc Hn Hk; simpl.
  - destruct Hk as [->|[k' ->]]; destruct n; simpl; try done.
    by rewrite Ascii.eqb_refl.
  - simpl in Hc, Hn. apply orb_false_elim in Hc as [Hc1 Hc2].
    destruct n as [|n]; [lia|]. simpl. rewrite Hc1. f_equal.
    apply IH; [done|lia|done].
Qed.

Lemma ascii_compare_digit a b :
  0 <= a <= 9 -> 0 <= b <= 9 ->
  Ascii.compare (Text.digit_char a) (Text.digit_char b) = (a ?= b).
Proof.
  intros Ha Hb. unfold Ascii.compare, Text.digit_char.
  rewrite !N_ascii_embedding by lia.
  rewrite Z2N.inj_compare by lia.
  apply Z.add_compare_mono_l.
Qed.

Lemma compare_pad2 n m x y :
  0 <= n < 100 -> 0 <= m < 100 ->
  String.compare (Text.pad2 n x) (Text.pad2 m y) =
  match n ?= m with Eq => String.compare x y | c => c end.
Proof.
  intros Hn Hm. unfold Text.pad2. cbn [String.compare].
  rewrite !ascii_compare_digit
    by (try apply Z.mod_pos_bound; Z.div_mod_to_equations; lia).
  destruct (Z.compare_spec (n / 10 mod 10) (m / 10 mod 10)) as [E1|L1|G1].
  - destruct (Z.compare_spec (n mod 10) (m mod 10)) as [E2|L2|G2].
    + replace (n ?= m) with Eq; [done|].
      symmetry. apply Z.compare_eq_iff. Z.div_mod_to_equations. lia.
    + replace (n ?= m) with Lt; [done|].
      symmetry. apply Z.compare_lt_iff. Z.div_mod_to_equations. lia.
    + replace (n ?= m) with Gt; [done|].
      symmetry. apply Z.compare_gt_iff. Z.div_mod_to_equations. lia.
  - replace (n ?= m) with Lt; [done|].
    symmetry. apply Z.compare_lt_iff. Z.div_mod_to_equations. lia.
  - replace (n ?= m) with Gt; [done|].
    symmetry. apply Z.compare_gt_iff. Z.div_mod_to_equations. lia.
Qed.

Lemma compare_pad4 n m x y :
  0 <= n < 10000 -> 0 <= m < 10000 ->
  String.compare (Text.pad4 n x) (Text.pad4 m y) =
  match n ?= m with Eq => String.compare x y | c => c end.
Proof.
  intros Hn Hm.
  assert (Hsplit : forall k z, Text.pad4 k z =
            Text.pad2 (k / 100) (Text.pad2 (k mod 100) z)).
  { intros k z. unfold Text.pad4, Text.pad2.
    replace (k / 100 / 10 mod 10) with (k / 1000 mod 10)
      by (Z.div_mod_to_equations; lia).
    replace (k mod 100 / 10 mod 10) with (k / 10 mod 10)
      by (Z.div_mod_to_equations; lia).
    replace (k mod 100 mod 10) with (k mod 10)
      by (Z.div_mod_to_equations; lia).
    done. }
  rewrite !Hsplit.
  rewrite compare_pad2 by (Z.div_mod_to_equations; lia).
  rewrite compare_pad2 by (Z.div_mod_to_equations; lia).
  destruct (Z.compare_spec (n / 100) (m / 100)) as [E1|L1|G1].
  - destruct (Z.compare_spec (n mod 100) (m mod 100)) as [E2|L2|G2].
    + replace (n ?= m) with Eq; [done|].
      symmetry. apply Z.compare_eq_iff. Z.div_mod_to_equations. lia.
    + replace (n ?= m) with Lt; [done|].
      symmetry. apply Z.compare_lt_iff. Z.div_mod_to_equations. lia.
    + replace (n ?= m) with Gt; [done|].
      symmetry. apply Z.compare_gt_iff. Z.div_mod_to_equations. lia.
  - replace (n ?= m) with Lt; [done|].
    symmetry. apply Z.compare_lt_iff. Z.div_mod_to_equations. lia.
  - replace (n ?= m) with Gt; [done|].
    symmetry. apply Z.compare_gt_iff. Z.div_mod_to_equations. lia.
Qed.

(** On valid [DATETIME]s the order of the 14-digit stamps is the
    chronological order. *)
Lemma compare_date_format14 a b x y :
  Calendar.dt_valid a -> Calendar.dt_valid b ->
  String.compare (Calendar.date_format14 a x) (Calendar.date_format14 b y) =
  match Calendar.dt_compare a b with Eq => String.compare x y | c => c end.
Proof.
  unfold Calendar.dt_valid. intros Ha Hb.
  assert (Hda : Calendar.days_in_month (dt_year a) (dt_month a) <= 31).
  { unfold Calendar.days_in_month. repeat case_match; lia. }
  assert (Hdb : Calendar.days_in_month (dt_year b) (dt_month b) <= 31).
  { unfold Calendar.days_in_month. repeat case_match; lia. }
  unfold Calendar.date_format14, Calendar.dt_compare.
  rewrite compare_pad4 by lia.
  destruct (dt_year a ?= dt_year b); try done.
  rewrite compare_pad2 by lia.
  destruct (dt_month a ?= dt_month b); try done.
  rewrite compare_pad2 by lia.
  destruct (dt_day a ?= dt_day b); try done.
  rewrite compare_pad2 by lia.
  destruct (dt_hour a ?= dt_hour b); try done.
  rewrite compare_pad2 by lia.
  destruct (dt_minute a ?= dt_minute b); try done.
  rewrite compare_pad2 by lia.
  destruct (dt_second a ?= dt_second b); done.
Qed.

End text_order.

(** ** Bucket assignment *)

Section bucket_facts.
Import Calendar.

Lemma timeframes_cases name tf :
  (name, tf) ∈ TIMEFRAMES -> tf = 3 \/ tf = 5 \/ tf = 15 \/ tf = 60.
Proof.
  unfold TIMEFRAMES. rewrite !elem_of_cons, elem_of_nil.
  intros [H|[H|[H|[H|H] ] ] ]; [| | | |done]; inversion H; auto.
Qed.

(** For the supported timeframes the decimal quotient followed by
    [FLOOR] is the integer floor quotient. *)
Lemma floor_div_supported n tf :
  0 <= n -> tf = 3 \/ tf = 5 \/ tf = 15 \/ tf = 60 ->
  Sql.floor (Sql.div n tf) = Some (n / tf).
Proof.
  intros Hn Htf. unfold Sql.floor, Sql.div.
  destruct Htf as [-> | [-> | [-> | ->] ] ]; simpl Z.eqb; cbv iota; f_equal;
    (destruct (Z.eq_dec n 0) as [->|Hnz]; [done|]);
    rewrite Z.sgn_pos by lia; rewrite Z.abs_eq by lia;
    simpl Z.sgn; simpl Z.abs; Z.div_mod_to_equations; lia.
Qed.

Lemma timestampdiff_session_open t :
  Sql.timestampdiff_minute (Sql.session_open t) t =
  Z.quot (time_of_day t - 34200) 60.
Proof.
  unfold Sql.timestampdiff_minute, epoch_seconds, Sql.session_open,
    time_of_day. simpl. f_equal. lia.
Qed.

Lemma date_add_session_open t k :
  0 <= 570 + k < 1440 ->
  Sql.date_add_minute (Sql.session_open t) (Some k) =
  Some (DateTime (dt_year t) (dt_month t) (dt_day t)
          ((570 + k) / 60) ((570 + k) mod 60) 0).
Proof.
  intros Hk. unfold Sql.date_add_minute, Sql.session_open. simpl.
  replace (9 * 60 + 30 + k) with (570 + k) by lia.
  rewrite (Z.div_small (570 + k) 1440) by lia.
  rewrite (Z.mod_small (570 + k) 1440) by lia.
  done.
Qed.

Lemma candle_ts_in_session t tf :
  tf = 3 \/ tf = 5 \/ tf = 15 \/ tf = 60 ->
  34200 <= time_of_day t <= 57540 ->
  Resample.candle_ts tf t =
  Some (DateTime (dt_year t) (dt_month t) (dt_day t)
          ((570 + (time_of_day t - 34200) / 60 / tf * tf) / 60)
          ((570 + (time_of_day t - 34200) / 60 / tf * tf) mod 60) 0).
Proof.
  intros Htf Hs. unfold Resample.candle_ts.
  rewrite timestampdiff_session_open.
  rewrite Z.quot_div_nonneg by lia.
  assert (He : 0 <= (time_of_day t - 34200) / 60 <= 389)
    by (Z.div_mod_to_equations; lia).
  rewrite floor_div_supported by (done || lia).
  simpl Sql.mul. apply date_add_session_open.
  destruct Htf as [-> | [-> | [-> | ->] ] ]; Z.div_mod_to_equations; lia.
Qed.

End bucket_facts.

(** ** What the final [SELECT] returns *)

Local Open Scope list_scope.

Section select_facts.
Import Calendar Resample.

Lemma filter_fmap_key {A K} `{EqDecision K} (f : A -> K) (k : K) (l : list A) :
  snd <$> filter (fun x : K * A => x.1 = k) ((fun a => (f a, a)) <$> l)
  = filter (fun a => f a = k) l.
Proof.
  induction l as [|a l IH]; [done|].
  rewrite fmap_cons, !filter_cons. simpl.
  destruct (decide (f a = k)); [|exact IH].
  rewrite fmap_cons. simpl. f_equal. exact IH.
Qed.

Lemma elem_of_group_by {K A} `{EqDecision K} (key : A -> K) (l : list A) kg :
  kg ∈ Agg.group_by key l <->
  kg.1 ∈ key <$> l /\ kg.2 = filter (fun x => key x = kg.1) l.
Proof.
  unfold Agg.group_by. rewrite list_elem_of_fmap. split.
  - intros (k & -> & Hk). rewrite elem_of_remove_dups in Hk. by split.
  - intros [Hk Hg]. exists kg.1. split.
    + destruct kg; simpl in *; by subst.
    + by apply elem_of_remove_dups.
Qed.

Lemma bucketed_base tf (src : list OptionRow) :
  bucketed tf (base tf src) =
  (fun r => (contract r, candle_ts tf (Timestamp (bar r)), bar r))
  <$> filter (fun r => where_clause (bar r)) src.
Proof.
  unfold bucketed, base. rewrite <- list_fmap_compose. done.
Qed.

(** The candles of the stock statement: one per bucket that holds an
    eligible row, computed from the group of that bucket. *)
Lemma elem_of_select_stock tf src c :
  c ∈ select_stock tf src <->
  exists b, b ∈ src /\ where_clause b = true /\
    c = stock_candle (candle_ts tf (Timestamp b),
                      stock_group tf src (candle_ts tf (Timestamp b))).
Proof.
  unfold select_stock. rewrite merge_sort_Permutation, list_elem_of_fmap.
  split.
  - intros (kg & -> & Hkg). apply elem_of_group_by in Hkg as [Hk Hg].
    unfold bucketed_stock in Hk. rewrite <- list_fmap_compose in Hk.
    apply list_elem_of_fmap in Hk as (b & Hkb & Hb).
    apply list_elem_of_filter in Hb as [Hw Hb].
    exists b. split; [done|]. split; [by apply Is_true_true|].
    simpl in Hkb. rewrite Hg, <- Hkb. unfold bucketed_stock.
    by rewrite filter_fmap_key.
  - intros (b & Hb & Hw & ->).
    exists (candle_ts tf (Timestamp b),
            filter (fun x : option datetime * Bar =>
                      x.1 = candle_ts tf (Timestamp b)) (bucketed_stock tf src)).
    split.
    + simpl. unfold bucketed_stock. by rewrite filter_fmap_key.
    + apply elem_of_group_by. split; [|done]. simpl.
      unfold bucketed_stock. rewrite <- list_fmap_compose.
      apply list_elem_of_fmap. exists b. split; [done|].
      apply list_elem_of_filter. split; [by apply Is_true_true|done].
Qed.

Lemma filter_fmap_key3 {A K1 K2 B} `{EqDecision K1, EqDecision K2}
    (f : A -> K1) (g : A -> K2) (h : A -> B) (k : K1 * K2) (l : list A) :
  snd <$> filter (fun x : K1 * K2 * B => (x.1.1, x.1.2) = k)
            ((fun a => (f a, g a, h a)) <$> l)
  = h <$> filter (fun a => (f a, g a) = k) l.
Proof.
  induction l as [|a l IH]; [done|].
  rewrite fmap_cons, !filter_cons. simpl.
  destruct (decide ((f a, g a) = k)); [|exact IH].
  rewrite !fmap_cons. simpl. f_equal. exact IH.
Qed.

(** The candles of the option statement. *)
Lemma elem_of_select_option tf src c :
  c ∈ select_option tf src <->
  exists r, r ∈ src /\ where_clause (bar r) = true /\
    let k := (contract r, candle_ts tf (Timestamp (bar r))) in
    c = option_candle (k, option_group tf src k).
Proof.
  unfold select_option. rewrite merge_sort_Permutation, list_elem_of_fmap.
  rewrite bucketed_base. split.
  - intros (kg & -> & Hkg). apply elem_of_group_by in Hkg as [Hk Hg].
    rewrite <- list_fmap_compose in Hk.
    apply list_elem_of_fmap in Hk as (r & Hkr & Hr).
    apply list_elem_of_filter in Hr as [Hw Hr].
    exists r. split; [done|]. split; [by apply Is_true_true|].
    simpl in Hkr. simpl. rewrite Hg, Hkr. simpl.
    rewrite filter_fmap_key3. done.
  - intros (r & Hr & Hw & ->).
    set (k := (contract r, candle_ts tf (Timestamp (bar r)))).
    exists (k, filter (fun x : Contract * option datetime * Bar =>
                         (x.1.1, x.1.2) = k)
                 ((fun r => (contract r, candle_ts tf (Timestamp (bar r)), bar r))
                  <$> filter (fun r => where_clause (bar r)) src)).
    split.
    + simpl. rewrite filter_fmap_key3. done.
    + apply elem_of_group_by. split; [|done]. simpl.
      rewrite <- list_fmap_compose.
      apply list_elem_of_fmap. exists r. split; [done|].
      apply list_elem_of_filter. split; [by apply Is_true_true|done].
Qed.

Lemma where_clause_spec b :
  where_clause b = true <->
  34200 <= time_of_day (Timestamp b) <= 57540
  /\ Open b <> None /\ Close b <> None /\ High b <> None /\ Low b <> None.
Proof.
  unfold where_clause, Sql.in_session.
  rewrite !andb_true_iff, !Z.leb_le.
  destruct (Open b), (Close b), (High b), (Low b); simpl; intuition congruence.
Qed.

Lemma filter_drop_mid {A} (P : A -> Prop) `{forall x, Decision (P x)}
    (l1 l2 : list A) (r : A) :
  ~ P r -> filter P (l1 ++ r :: l2) = filter P (l1 ++ l2).
Proof.
  intros Hr. rewrite !filter_app, filter_cons_False by done. done.
Qed.

Lemma select_stock_filter tf src :
  select_stock tf src = select_stock tf (filter (fun b => where_clause b) src).
Proof.
  unfold select_stock, bucketed_stock.
  by rewrite list_filter_filter_l by done.
Qed.

Lemma select_option_filter tf src :
  select_option tf src =
  select_option tf (filter (fun r => where_clause (bar r)) src).
Proof.
  unfold select_option, base.
  by rewrite list_filter_filter_l by done.
Qed.

(** C5.  Both statements work on exactly the rows whose time of day
    lies in [09:30:00, 15:59:00] and whose open, close, high and low
    are all present.  Such a row is a member of the group that the
    [GROUP BY] of the statement forms for its bucket, and the candle
    aggregated from that group is in the result; the groups hold no
    other rows, and every candle of the result is aggregated from one
    of them; a row that is not eligible is in no group, and it can be
    taken out of the table without changing the result. *)
Theorem session_and_null_filter tf :
  let eligible (b : Bar) :=
    34200 <= time_of_day (Timestamp b) <= 57540
    /\ Open b <> None /\ Close b <> None /\ High b <> None /\ Low b <> None in
  let stock_groups (src : list Bar) :=
    Agg.group_by fst (bucketed_stock tf src) in
  let option_groups (src : list OptionRow) :=
    Agg.group_by (fun x : Contract * option datetime * Bar => (x.1.1, x.1.2))
      (bucketed tf (base tf src)) in
  (forall (src : list Bar),
     (forall b, b ∈ src -> eligible b ->
        exists kg, kg ∈ stock_groups src
          /\ kg.1 = candle_ts tf (Timestamp b)
          /\ (kg.1, b) ∈ kg.2
          /\ stock_candle (kg.1, snd <$> kg.2) ∈ select_stock tf src)
     /\ (forall kg x, kg ∈ stock_groups src -> x ∈ kg.2 ->
           x.2 ∈ src /\ eligible x.2)
     /\ (forall c, c ∈ select_stock tf src ->
           exists kg, kg ∈ stock_groups src
                      /\ c = stock_candle (kg.1, snd <$> kg.2)))
  /\ (forall (l1 l2 : list Bar) (b : Bar),
        ~ eligible b ->
        (forall kg x, kg ∈ stock_groups (l1 ++ b :: l2) -> x ∈ kg.2 ->
                      x.2 <> b)
        /\ select_stock tf (l1 ++ b :: l2) = select_stock tf (l1 ++ l2))
  /\ (forall (src : list OptionRow),
        (forall r, r ∈ src -> eligible (bar r) ->
           exists kg, kg ∈ option_groups src
             /\ kg.1 = (contract r, candle_ts tf (Timestamp (bar r)))
             /\ (contract r, candle_ts tf (Timestamp (bar r)), bar r) ∈ kg.2
             /\ option_candle (kg.1, snd <$> kg.2) ∈ select_option tf src)
        /\ (forall kg x, kg ∈ option_groups src -> x ∈ kg.2 ->
              exists r, r ∈ src /\ eligible (bar r)
                        /\ x = (contract r, candle_ts tf (Timestamp (bar r)),
                                bar r))
        /\ (forall c, c ∈ select_option tf src ->
              exists kg, kg ∈ option_groups src
                         /\ c = option_candle (kg.1, snd <$> kg.2)))
  /\ (forall (l1 l2 : list OptionRow) (r : OptionRow),
        ~ eligible (bar r) ->
        (forall kg x, kg ∈ option_groups (l1 ++ r :: l2) -> x ∈ kg.2 ->
                      x.2 <> bar r)
        /\ select_option tf (l1 ++ r :: l2) = select_option tf (l1 ++ l2)).
Proof.
  intros eligible stock_groups option_groups.
  assert (Hstock_in : forall (src : list Bar) kg x,
            kg ∈ stock_groups src -> x ∈ kg.2 -> x.2 ∈ src /\ eligible x.2).
  { intros src kg x Hkg Hx. apply elem_of_group_by in Hkg as [_ Hg].
    rewrite Hg in Hx. apply list_elem_of_filter in Hx as [_ Hx].
    apply list_elem_of_fmap in Hx as (b & -> & Hb).
    apply list_elem_of_filter in Hb as [Hw Hb].
    split; [done|]. apply where_clause_spec. by apply Is_true_true. }
  assert (Hoption_in : forall (src : list OptionRow) kg x,
            kg ∈ option_groups src -> x ∈ kg.2 ->
            exists r, r ∈ src /\ eligible (bar r)
                      /\ x = (contract r, candle_ts tf (Timestamp (bar r)),
                              bar r)).
  { intros src kg x Hkg Hx. apply elem_of_group_by in Hkg as [_ Hg].
    rewrite Hg in Hx. apply list_elem_of_filter in Hx as [_ Hx].
    rewrite bucketed_base in Hx.
    apply list_elem_of_fmap in Hx as (r & -> & Hr).
    apply list_elem_of_filter in Hr as [Hw Hr].
    exists r. split; [done|]. split; [|done].
    apply where_clause_spec. by apply Is_true_true. }
  split; [|split; [|split] ].
  - intros src. split; [|split].
    + intros b Hb He. apply where_clause_spec in He.
      assert (Hin : (candle_ts tf (Timestamp b), b) ∈ bucketed_stock tf src).
      { apply list_elem_of_fmap. exists b. split; [done|].
        apply list_elem_of_filter. split; [by apply Is_true_true|done]. }
      exists (candle_ts tf (Timestamp b),
              filter (fun x : option datetime * Bar =>
                        x.1 = candle_ts tf (Timestamp b))
                (bucketed_stock tf src)).
      assert (Hkg : (candle_ts tf (Timestamp b),
                     filter (fun x : option datetime * Bar =>
                               x.1 = candle_ts tf (Timestamp b))
                       (bucketed_stock tf src)) ∈ stock_groups src).
      { apply elem_of_group_by. split; [|done]. cbn [fst].
        apply list_elem_of_fmap. by exists (candle_ts tf (Timestamp b), b). }
      split; [exact Hkg|]. split; [done|]. split.
      * cbn [fst snd]. apply list_elem_of_filter. by split.
      * unfold select_stock. rewrite merge_sort_Permutation.
        apply list_elem_of_fmap. eexists. split; [|exact Hkg]. done.
    + apply Hstock_in.
    + intros c Hc. unfold select_stock in Hc.
      rewrite merge_sort_Permutation in Hc.
      apply list_elem_of_fmap in Hc as (kg & -> & Hkg). by exists kg.
  - intros l1 l2 b He. split.
    + intros kg x Hkg Hx Heq.
      destruct (Hstock_in _ kg x Hkg Hx) as [_ Hel]. apply He.
      by rewrite <- Heq.
    + rewrite select_stock_filter.
      rewrite (select_stock_filter tf (l1 ++ l2)).
      rewrite filter_drop_mid; [done|].
      intros Hw. apply He, where_clause_spec. by apply Is_true_true.
  - intros src. split; [|split].
    + intros r Hr He. apply where_clause_spec in He.
      set (k := (contract r, candle_ts tf (Timestamp (bar r)))).
      assert (Hin : (contract r, candle_ts tf (Timestamp (bar r)), bar r)
                    ∈ bucketed tf (base tf src)).
      { rewrite bucketed_base. apply list_elem_of_fmap. exists r.
        split; [done|].
        apply list_elem_of_filter. split; [by apply Is_true_true|done]. }
      exists (k, filter (fun x : Contract * option datetime * Bar =>
                           (x.1.1, x.1.2) = k)
                   (bucketed tf (base tf src))).
      assert (Hkg : (k, filter (fun x : Contract * option datetime * Bar =>
                                  (x.1.1, x.1.2) = k)
                          (bucketed tf (base tf src))) ∈ option_groups src).
      { apply elem_of_group_by. split; [|done]. cbn [fst].
        apply list_elem_of_fmap.
        by exists (contract r, candle_ts tf (Timestamp (bar r)), bar r). }
      split; [exact Hkg|]. split; [done|]. split.
      * cbn [fst snd]. apply list_elem_of_filter. by split.
      * unfold select_option. rewrite merge_sort_Permutation.
        apply list_elem_of_fmap. eexists. split; [|exact Hkg]. done.
    + apply Hoption_in.
    + intros c Hc. unfold select_option in Hc.
      rewrite merge_sort_Permutation in Hc.
      apply list_elem_of_fmap in Hc as (kg & -> & Hkg). exists kg.
      split; [done|]. by destruct kg as [ [k1 k2] g].
  - intros l1 l2 r He. split.
    + intros kg x Hkg Hx Heq.
      destruct (Hoption_in _ kg x Hkg Hx) as (r' & _ & Hel & ->).
      apply He. by rewrite <- Heq.
    + rewrite select_option_filter.
      rewrite (select_option_filter tf (l1 ++ l2)).
      rewrite filter_drop_mid; [done|].
      intros Hw. apply He, where_clause_spec. by apply Is_true_true.
Qed.

End select_facts.

(** ** The bucket a statement gives a row *)

Section bucket_statement_facts.
Import Calendar Resample.

(** C2.  For a supported timeframe, the bucket start that either
    statement gives an in-session row is 09:30:00 of the row's own
    date plus [floor(elapsed / tf_minutes) * tf_minutes] minutes,
    where [elapsed] is the whole number of minutes since 09:30:00 and
    the quotient is the integer floor quotient.  This is the value of
    the expression of either statement at every in-session timestamp;
    it is the [candle_ts] that the CTE [bucketed] of the stock
    statement, and the CTEs [base] and [bucketed] of the option
    statement, hold for every row they keep; and the candle of such a
    row in the result has it as its timestamp.  The bucket start keeps
    the date of the row, so rows of different calendar dates never
    share a bucket. *)
Theorem bucket_start_formula name tf :
  (name, tf) ∈ TIMEFRAMES ->
  let start (t : datetime) :=
    let elapsed := (time_of_day t - 34200) / 60 in
    let offset := elapsed / tf * tf in
    DateTime (dt_year t) (dt_month t) (dt_day t)
      ((9 * 60 + 30 + offset) / 60) ((9 * 60 + 30 + offset) mod 60) 0 in
  (forall t,
     34200 <= time_of_day t <= 57540 ->
     candle_ts tf t = Some (start t)
     /\ Sql.date_add_minute (Sql.session_open t)
          (Sql.mul (bucket_id tf t) tf) = Some (start t))
  /\ (forall src : list Bar,
        bucketed_stock tf src
        = (fun b => (Some (start (Timestamp b)), b))
          <$> filter (fun b => where_clause b) src)
  /\ (forall src : list OptionRow,
        bucketed tf (base tf src)
        = (fun r => (contract r, Some (start (Timestamp (bar r))), bar r))
          <$> filter (fun r => where_clause (bar r)) src)
  /\ (forall (src : list Bar) b,
        b ∈ src -> where_clause b = true ->
        exists c, c ∈ select_stock tf src
                  /\ c_ts c = Some (start (Timestamp b)))
  /\ (forall (src : list OptionRow) r,
        r ∈ src -> where_clause (bar r) = true ->
        exists c, c ∈ select_option tf src
                  /\ c_key c = contract r
                  /\ c_ts c = Some (start (Timestamp (bar r))))
  /\ (forall t t',
        (dt_year t, dt_month t, dt_day t)
        <> (dt_year t', dt_month t', dt_day t') ->
        start t <> start t')
  /\ (forall t t',
        34200 <= time_of_day t <= 57540 ->
        34200 <= time_of_day t' <= 57540 ->
        (dt_year t, dt_month t, dt_day t)
        <> (dt_year t', dt_month t', dt_day t') ->
        candle_ts tf t <> candle_ts tf t').
Proof.
  intros Hin start. apply timeframes_cases in Hin.
  assert (Hts : forall t, 34200 <= time_of_day t <= 57540 ->
                          candle_ts tf t = Some (start t)).
  { intros t Hs. by rewrite candle_ts_in_session. }
  assert (Hw : forall b, where_clause b = true ->
                         candle_ts tf (Timestamp b) = Some (start (Timestamp b))).
  { intros b Hb. apply Hts. by apply where_clause_spec in Hb as [Hs _]. }
  assert (Hdate : forall t t',
            (dt_year t, dt_month t, dt_day t)
            <> (dt_year t', dt_month t', dt_day t') -> start t <> start t').
  { intros t t' Hd [= Hy Hm Hday _ _]. apply Hd. congruence. }
  split; [|split; [|split; [|split; [|split; [|split] ] ] ] ].
  - intros t Hs. split; [by apply Hts|].
    change (candle_ts tf t = Some (start t)). by apply Hts.
  - intros src. unfold bucketed_stock. apply list_fmap_ext.
    intros i b Hb. apply list_elem_of_lookup_2 in Hb.
    apply list_elem_of_filter in Hb as [Hb _].
    by rewrite Hw by (by apply Is_true_true).
  - intros src. rewrite bucketed_base. apply list_fmap_ext.
    intros i r Hr. apply list_elem_of_lookup_2 in Hr.
    apply list_elem_of_filter in Hr as [Hr _].
    by rewrite Hw by (by apply Is_true_true).
  - intros src b Hb Hwb. eexists. split.
    + apply elem_of_select_stock. by exists b.
    + cbn [c_ts stock_candle fst]. by apply Hw.
  - intros src r Hr Hwr. eexists. split; [|split].
    + apply elem_of_select_option. by exists r.
    + done.
    + cbn [c_ts option_candle fst snd]. by apply Hw.
  - exact Hdate.
  - intros t t' Hs Hs' Hd. rewrite !Hts by done.
    intros H. apply (Hdate t t' Hd). congruence.
Qed.

(** The cross-day scenario: 15:59 on one day and 09:30 on the next,
    with the one-hour timeframe, in the stock and in the option
    statement. *)
Lemma bucket_start_formula_witness :
  let d1 := mkBar (DateTime 2026 1 2 15 59 0)
              (Some 1) (Some 1) (Some 1) (Some 1) (Some 1) in
  let d2 := mkBar (DateTime 2026 1 3 9 30 0)
              (Some 1) (Some 1) (Some 1) (Some 1) (Some 1) in
  fst <$> bucketed_stock 60 [d1; d2]
  = [Some (DateTime 2026 1 2 15 30 0); Some (DateTime 2026 1 3 9 30 0)]
  /\ (fun x : Contract * option datetime * Bar => x.1.2)
     <$> bucketed 60 (base 60 [mkOptionRow Examples.call450 d1;
                                mkOptionRow Examples.call450 d2])
     = [Some (DateTime 2026 1 2 15 30 0); Some (DateTime 2026 1 3 9 30 0)].
Proof.
  intros d1 d2.
  assert (Htf : ("1hr", 60) ∈ TIMEFRAMES) by (unfold TIMEFRAMES; set_solver).
  pose proof (bucket_start_formula "1hr" 60 Htf) as H. cbv zeta in H.
  destruct H as (_ & H1 & H2 & _).
  rewrite H1, H2. split; by vm_compute.
Defined.

End bucket_statement_facts.

(** ** Order of timestamps *)

Section order_facts.
Import Calendar Resample.

Lemma dt_le_spec a b :
  dt_le a b <->
  dt_year a < dt_year b \/ (dt_year a = dt_year b /\
  (dt_month a < dt_month b \/ (dt_month a = dt_month b /\
  (dt_day a < dt_day b \/ (dt_day a = dt_day b /\
  (dt_hour a < dt_hour b \/ (dt_hour a = dt_hour b /\
  (dt_minute a < dt_minute b \/ (dt_minute a = dt_minute b /\
   dt_second a <= dt_second b))))))))).
Proof.
  unfold dt_le, dt_compare.
  destruct (Z.compare_spec (dt_year a) (dt_year b)); [|split; [lia|done]|split; [done|lia] ].
  destruct (Z.compare_spec (dt_month a) (dt_month b)); [|split; [lia|done]|split; [done|lia] ].
  destruct (Z.compare_spec (dt_day a) (dt_day b)); [|split; [lia|done]|split; [done|lia] ].
  destruct (Z.compare_spec (dt_hour a) (dt_hour b)); [|split; [lia|done]|split; [done|lia] ].
  destruct (Z.compare_spec (dt_minute a) (dt_minute b)); [|split; [lia|done]|split; [done|lia] ].
  destruct (Z.compare_spec (dt_second a) (dt_second b)); split; (lia || done).
Qed.

Lemma dt_compare_eq a b : dt_compare a b = Eq -> a = b.
Proof.
  destruct a, b. unfold dt_compare. simpl.
  repeat (match goal with
          | |- context [?x ?= ?y] =>
              destruct (Z.compare_spec x y); try discriminate
          end).
  intros _. congruence.
Qed.

Lemma dt_le_antisym a b : dt_le a b -> dt_le b a -> a = b.
Proof.
  rewrite !dt_le_spec. intros H1 H2. destruct a, b; simpl in *.
  f_equal; lia.
Qed.

Lemma dt_le_lt a b : dt_le a b -> a <> b -> dt_compare a b = Lt.
Proof.
  intros Hle Hne. unfold dt_le in Hle.
  destruct (dt_compare a b) eqn:E; [|done|done].
  by apply dt_compare_eq in E.
Qed.

Lemma dt_compare_antisym a b : dt_compare b a = CompOpp (dt_compare a b).
Proof.
  unfold dt_compare.
  rewrite (Z.compare_antisym (dt_year a) (dt_year b)).
  destruct (dt_year a ?= dt_year b); simpl; try done.
  rewrite (Z.compare_antisym (dt_month a) (dt_month b)).
  destruct (dt_month a ?= dt_month b); simpl; try done.
  rewrite (Z.compare_antisym (dt_day a) (dt_day b)).
  destruct (dt_day a ?= dt_day b); simpl; try done.
  rewrite (Z.compare_antisym (dt_hour a) (dt_hour b)).
  destruct (dt_hour a ?= dt_hour b); simpl; try done.
  rewrite (Z.compare_antisym (dt_minute a) (dt_minute b)).
  destruct (dt_minute a ?= dt_minute b); simpl; try done.
  apply Z.compare_antisym.
Qed.

#[local] Instance ts_asc_total : Total ts_asc.
Proof. intros a b. unfold ts_asc. rewrite !dt_le_spec. lia. Qed.

#[local] Instance ts_asc_trans : Transitive ts_asc.
Proof. intros a b c. unfold ts_asc. rewrite !dt_le_spec. lia. Qed.

#[local] Instance ts_desc_total : Total ts_desc.
Proof. intros a b. unfold ts_desc. rewrite !dt_le_spec. lia. Qed.

#[local] Instance ts_desc_trans : Transitive ts_desc.
Proof. intros a b c. unfold ts_desc. rewrite !dt_le_spec. lia. Qed.

(** The head of a list sorted by a total preorder is below every
    element of the list that was sorted. *)
Lemma merge_sort_head (R : relation Bar) `{!RelDecision R}
    `{!Total R} `{!Transitive R} (g : list Bar) h t :
  merge_sort R g = h :: t -> forall x, x ∈ g -> R h x.
Proof.
  intros Hs x Hx.
  pose proof (StronglySorted_merge_sort R g) as Hsorted.
  rewrite <- (merge_sort_Permutation R g), Hs in Hx.
  rewrite Hs in Hsorted. apply StronglySorted_inv in Hsorted as [_ Hall].
  apply elem_of_cons in Hx as [->|Hx].
  - destruct (total R h h); done.
  - eapply Forall_forall in Hall; done.
Qed.

Lemma merge_sort_nonempty (R : relation Bar) `{!RelDecision R} (g : list Bar) :
  g <> [] -> exists h t, merge_sort R g = h :: t /\ h ∈ g.
Proof.
  intros Hg. destruct (merge_sort R g) as [|h t] eqn:E.
  - exfalso. apply Hg. apply Permutation_nil_r.
    rewrite <- E. symmetry. apply merge_sort_Permutation.
  - exists h, t. split; [done|].
    rewrite <- (merge_sort_Permutation R g), E. apply elem_of_cons. by left.
Qed.

Lemma same_timestamp_same_row (g : list Bar) a b :
  NoDup (Timestamp <$> g) -> a ∈ g -> b ∈ g ->
  Timestamp a = Timestamp b -> a = b.
Proof.
  induction g as [|x g IH]; intros Hnd Ha Hb Heq.
  - by apply elem_of_nil in Ha.
  - rewrite fmap_cons in Hnd. apply NoDup_cons in Hnd as [Hx Hnd].
    apply elem_of_cons in Ha as [->|Ha]; apply elem_of_cons in Hb as [->|Hb].
    + done.
    + exfalso. apply Hx. rewrite Heq. by apply list_elem_of_fmap_2.
    + exfalso. apply Hx. rewrite <- Heq. by apply list_elem_of_fmap_2.
    + by apply IH.
Qed.

End order_facts.

(** ** Aggregates *)

Section aggregate_facts.
Import Calendar Resample.

Lemma NoDup_fmap_eq {A B} (f : A -> B) (l : list A) x y :
  NoDup (f <$> l) -> x ∈ l -> y ∈ l -> f x = f y -> x = y.
Proof.
  induction l as [|a l IH]; intros Hnd Hx Hy Heq.
  - by apply elem_of_nil in Hx.
  - rewrite fmap_cons in Hnd. apply NoDup_cons in Hnd as [Ha Hnd].
    apply elem_of_cons in Hx as [->|Hx]; apply elem_of_cons in Hy as [->|Hy].
    + done.
    + exfalso. apply Ha. rewrite Heq. by apply list_elem_of_fmap_2.
    + exfalso. apply Ha. rewrite <- Heq. by apply list_elem_of_fmap_2.
    + by apply IH.
Qed.

Lemma append_empty_r t : (t ++ "")%string = t.
Proof.
  induction t as [|c t IH]; [done|].
  change (String c (t ++ "")%string = String c t). by rewrite IH.
Qed.

Lemma join_comma_cons t r :
  exists k, Agg.join_comma (t :: r) = (t ++ k)%string
            /\ (k = "" \/ exists k', k = String "," k').
Proof.
  destruct r as [|t' r].
  - exists "". split; [|by left]. simpl. by rewrite append_empty_r.
  - exists (String "," (Agg.join_comma (t' :: r))). split; [done|].
    right. by eexists.
Qed.

(** The first field of a [GROUP_CONCAT] is the text of the first
    value. *)
Lemma first_field_of_group_concat o rest :
  Decimal.in_range o ->
  Agg.substring_index_first "," (Agg.group_concat (Some o :: rest))
    ≫= Decimal.of_text = Some o.
Proof.
  intros Hr. unfold Agg.group_concat. simpl omap.
  cbn [Agg.substring_index_first fmap option_fmap option_map mbind option_bind].
  match goal with
  | |- context [Agg.join_comma (?t :: ?r)] =>
      destruct (join_comma_cons t r) as (k & Hj & Hk)
  end.
  rewrite Hj, split_head_take.
  - apply of_text_to_text.
  - by apply contains_to_text.
  - pose proof (length_to_text o Hr). unfold Agg.group_concat_max_len. lia.
  - done.
Qed.

Lemma str_min_elem l b : Agg.str_min l = Some b -> Some b ∈ l.
Proof.
  revert b. induction l as [|x l IH]; intros b; [done|].
  unfold Agg.str_min. simpl. fold (Agg.str_min l).
  destruct x as [a|].
  - destruct (Agg.str_min l) as [b'|] eqn:E.
    + intros [= <-]. destruct (String.leb a b').
      * apply elem_of_cons. by left.
      * apply elem_of_cons. right. by apply IH.
    + intros [= <-]. apply elem_of_cons. by left.
  - intros H. apply elem_of_cons. right. by apply IH.
Qed.

Lemma str_max_elem l b : Agg.str_max l = Some b -> Some b ∈ l.
Proof.
  revert b. induction l as [|x l IH]; intros b; [done|].
  unfold Agg.str_max. simpl. fold (Agg.str_max l).
  destruct x as [a|].
  - destruct (Agg.str_max l) as [b'|] eqn:E.
    + intros [= <-]. destruct (String.leb a b').
      * apply elem_of_cons. right. by apply IH.
      * apply elem_of_cons. by left.
    + intros [= <-]. apply elem_of_cons. by left.
  - intros H. apply elem_of_cons. right. by apply IH.
Qed.

Lemma leb_of_compare_lt a b : String.compare a b = Lt -> String.leb a b = true.
Proof. unfold String.leb. by intros ->. Qed.

Lemma leb_of_compare_gt a b : String.compare a b = Gt -> String.leb a b = false.
Proof. unfold String.leb. by intros ->. Qed.

Lemma compare_flip a b c :
  String.compare a b = c -> String.compare b a = CompOpp c.
Proof. intros <-. apply String.compare_antisym. Qed.

Lemma leb_refl_if a : (if String.leb a a then a else a) = a.
Proof. by destruct (String.leb a a). Qed.

(** A text strictly below every other text of the column is its
    [MIN]; one strictly above every other is its [MAX]. *)
Lemma str_min_least l s :
  Some s ∈ l ->
  (forall s', Some s' ∈ l -> s' <> s -> String.compare s s' = Lt) ->
  Agg.str_min l = Some s.
Proof.
  induction l as [|x l IH]; intros Hs Hlt; [by apply elem_of_nil in Hs|].
  unfold Agg.str_min. simpl. fold (Agg.str_min l).
  assert (Hlt' : forall s', Some s' ∈ l -> s' <> s -> String.compare s s' = Lt).
  { intros s' Hs'. apply Hlt, elem_of_cons. by right. }
  destruct x as [a|].
  - destruct (decide (a = s)) as [->|Hne].
    + destruct (Agg.str_min l) as [b|] eqn:E; [|done]. f_equal.
      destruct (decide (b = s)) as [->|Hb]; [apply leb_refl_if|].
      rewrite leb_of_compare_lt; [done|].
      apply Hlt'; [by apply str_min_elem|done].
    + apply elem_of_cons in Hs as [[= ->]|Hs]; [done|].
      rewrite (IH Hs Hlt'). f_equal.
      rewrite leb_of_compare_gt; [done|].
      apply (compare_flip s a Lt). apply Hlt; [|done].
      apply elem_of_cons. by left.
  - apply elem_of_cons in Hs as [?|Hs]; [done|]. by apply IH.
Qed.

Lemma str_max_greatest l s :
  Some s ∈ l ->
  (forall s', Some s' ∈ l -> s' <> s -> String.compare s s' = Gt) ->
  Agg.str_max l = Some s.
Proof.
  induction l as [|x l IH]; intros Hs Hgt; [by apply elem_of_nil in Hs|].
  unfold Agg.str_max. simpl. fold (Agg.str_max l).
  assert (Hgt' : forall s', Some s' ∈ l -> s' <> s -> String.compare s s' = Gt).
  { intros s' Hs'. apply Hgt, elem_of_cons. by right. }
  destruct x as [a|].
  - destruct (decide (a = s)) as [->|Hne].
    + destruct (Agg.str_max l) as [b|] eqn:E; [|done]. f_equal.
      destruct (decide (b = s)) as [->|Hb]; [apply leb_refl_if|].
      rewrite leb_of_compare_gt; [done|].
      apply Hgt'; [by apply str_max_elem|done].
    + apply elem_of_cons in Hs as [[= ->]|Hs]; [done|].
      rewrite (IH Hs Hgt'). f_equal.
      rewrite leb_of_compare_lt; [done|].
      apply (compare_flip s a Gt). apply Hgt; [|done].
      apply elem_of_cons. by left.
  - apply elem_of_cons in Hs as [?|Hs]; [done|]. by apply IH.
Qed.

Lemma date_format14_app t k :
  date_format14 t k = (date_format14 t "" ++ k)%string.
Proof. done. Qed.

Lemma stamp_value t o :
  Agg.substring_index_last "|" (Agg.stamp t (Some o)) ≫= Decimal.of_text
  = Some o.
Proof.
  cbn [Agg.stamp Agg.substring_index_last fmap option_fmap option_map
       mbind option_bind].
  rewrite date_format14_app, after_last_app.
  - apply of_text_to_text.
  - by apply contains_to_text.
Qed.

Lemma max_elem l m :
  Agg.max l = Some m -> Some m ∈ l /\ forall x, Some x ∈ l -> x <= m.
Proof.
  revert m. induction l as [|x l IH]; intros m; [done|].
  unfold Agg.max. simpl. fold (Agg.max l).
  destruct x as [a|].
  - destruct (Agg.max l) as [b|] eqn:E.
    + intros [= <-]. destruct (IH b eq_refl) as [Hb Hle]. split.
      * destruct (Z.max_spec a b) as [[_ ->]|[_ ->]];
          apply elem_of_cons; [by right|by left].
      * intros x Hx. apply elem_of_cons in Hx as [[= ->]|Hx]; [lia|].
        specialize (Hle x Hx). lia.
    + intros [= <-]. split; [apply elem_of_cons; by left|].
      intros x Hx. apply elem_of_cons in Hx as [[= ->]|Hx]; [lia|].
      exfalso. clear IH. induction l as [|y l IHl]; [by apply elem_of_nil in Hx|].
      unfold Agg.max in E. simpl in E. fold (Agg.max l) in E.
      destruct y; [destruct (Agg.max l); discriminate|].
      apply elem_of_cons in Hx as [?|Hx]; [done|]. by apply IHl.
  - intros H. destruct (IH m H) as [Hm Hle]. split.
    + apply elem_of_cons. by right.
    + intros x Hx. apply elem_of_cons in Hx as [?|Hx]; [done|]. by apply Hle.
Qed.

Lemma min_elem l m :
  Agg.min l = Some m -> Some m ∈ l /\ forall x, Some x ∈ l -> m <= x.
Proof.
  revert m. induction l as [|x l IH]; intros m; [done|].
  unfold Agg.min. simpl. fold (Agg.min l).
  destruct x as [a|].
  - destruct (Agg.min l) as [b|] eqn:E.
    + intros [= <-]. destruct (IH b eq_refl) as [Hb Hle]. split.
      * destruct (Z.min_spec a b) as [[_ ->]|[_ ->]];
          apply elem_of_cons; [by left|by right].
      * intros x Hx. apply elem_of_cons in Hx as [[= ->]|Hx]; [lia|].
        specialize (Hle x Hx). lia.
    + intros [= <-]. split; [apply elem_of_cons; by left|].
      intros x Hx. apply elem_of_cons in Hx as [[= ->]|Hx]; [lia|].
      exfalso. clear IH. induction l as [|y l IHl]; [by apply elem_of_nil in Hx|].
      unfold Agg.min in E. simpl in E. fold (Agg.min l) in E.
      destruct y; [destruct (Agg.min l); discriminate|].
      apply elem_of_cons in Hx as [?|Hx]; [done|]. by apply IHl.
  - intros H. destruct (IH m H) as [Hm Hle]. split.
    + apply elem_of_cons. by right.
    + intros x Hx. apply elem_of_cons in Hx as [?|Hx]; [done|]. by apply Hle.
Qed.

Lemma max_exists l x : Some x ∈ l -> exists m, Agg.max l = Some m.
Proof.
  induction l as [|y l IH]; intros Hx; [by apply elem_of_nil in Hx|].
  unfold Agg.max. simpl. fold (Agg.max l).
  destruct y as [a|].
  - destruct (Agg.max l); by eexists.
  - apply elem_of_cons in Hx as [?|Hx]; [done|]. by apply IH.
Qed.

Lemma min_exists l x : Some x ∈ l -> exists m, Agg.min l = Some m.
Proof.
  induction l as [|y l IH]; intros Hx; [by apply elem_of_nil in Hx|].
  unfold Agg.min. simpl. fold (Agg.min l).
  destruct y as [a|].
  - destruct (Agg.min l); by eexists.
  - apply elem_of_cons in Hx as [?|Hx]; [done|]. by apply IH.
Qed.

Lemma sum_all_present vs :
  vs <> [] -> Agg.sum (Some <$> vs) = Some (foldr Z.add 0 vs).
Proof.
  induction vs as [|v vs IH]; intros Hne; [done|].
  unfold Agg.sum. rewrite fmap_cons. simpl. fold (Agg.sum (Some <$> vs)).
  destruct vs as [|v' vs].
  - simpl. f_equal. lia.
  - rewrite IH by done. done.
Qed.

End aggregate_facts.

(** ** Candles and their groups *)

Section candle_facts.
Import Calendar Resample Database.

#[local] Existing Instances ts_asc_total ts_asc_trans ts_desc_total ts_desc_trans.

Lemma dt_le_refl t : dt_le t t.
Proof. rewrite dt_le_spec. lia. Qed.

Lemma exists_earliest (g : list Bar) : g <> [] -> exists r, earliest r g.
Proof.
  intros Hg. destruct (merge_sort_nonempty ts_asc g Hg) as (h & t & Hs & Hh).
  exists h. split; [done|]. intros r' Hr'.
  apply (merge_sort_head ts_asc g h t Hs r' Hr').
Qed.

Lemma exists_latest (g : list Bar) : g <> [] -> exists r, latest r g.
Proof.
  intros Hg. destruct (merge_sort_nonempty ts_desc g Hg) as (h & t & Hs & Hh).
  exists h. split; [done|]. intros r' Hr'.
  apply (merge_sort_head ts_desc g h t Hs r' Hr').
Qed.

Lemma earliest_unique (g : list Bar) r r' :
  NoDup (Timestamp <$> g) -> earliest r g -> earliest r' g -> r = r'.
Proof.
  intros Hnd [Hr Hmin] [Hr' Hmin'].
  apply (same_timestamp_same_row g); try done.
  apply dt_le_antisym; auto.
Qed.

Lemma latest_unique (g : list Bar) r r' :
  NoDup (Timestamp <$> g) -> latest r g -> latest r' g -> r = r'.
Proof.
  intros Hnd [Hr Hmax] [Hr' Hmax'].
  apply (same_timestamp_same_row g); try done.
  apply dt_le_antisym; auto.
Qed.

(** The option statement: the first field of the concatenation in
    timestamp order is the open of the earliest row, and the first in
    descending order is the close of the latest row. *)
Lemma first_open_earliest (g : list Bar) r o :
  NoDup (Timestamp <$> g) -> earliest r g ->
  Open r = Some o -> Decimal.in_range o ->
  first_open g = Some o.
Proof.
  intros Hnd Hr Ho Hrange.
  assert (Hg : g <> []) by (destruct Hr as [Hr _]; by destruct g; [apply elem_of_nil in Hr|]).
  destruct (merge_sort_nonempty ts_asc g Hg) as (h & t & Hs & Hh).
  assert (h = r) as ->.
  { apply (earliest_unique g); [done| |done]. split; [done|].
    intros r' Hr'. apply (merge_sort_head ts_asc g h t Hs r' Hr'). }
  unfold first_open. rewrite Hs, fmap_cons, Ho.
  by apply first_field_of_group_concat.
Qed.

Lemma last_close_latest (g : list Bar) r o :
  NoDup (Timestamp <$> g) -> latest r g ->
  Close r = Some o -> Decimal.in_range o ->
  last_close g = Some o.
Proof.
  intros Hnd Hr Ho Hrange.
  assert (Hg : g <> []) by (destruct Hr as [Hr _]; by destruct g; [apply elem_of_nil in Hr|]).
  destruct (merge_sort_nonempty ts_desc g Hg) as (h & t & Hs & Hh).
  assert (h = r) as ->.
  { apply (latest_unique g); [done| |done]. split; [done|].
    intros r' Hr'. apply (merge_sort_head ts_desc g h t Hs r' Hr'). }
  unfold last_close. rewrite Hs, fmap_cons, Ho.
  by apply first_field_of_group_concat.
Qed.

(** The stock statement: the least stamped text carries the open of
    the earliest row, the greatest the close of the latest row. *)
Lemma min_stamp_open_earliest (g : list Bar) r o :
  NoDup (Timestamp <$> g) -> Forall (fun b => dt_valid (Timestamp b)) g ->
  earliest r g -> Open r = Some o ->
  min_stamp_open g = Some o.
Proof.
  intros Hnd Hval [Hr Hmin] Ho. unfold min_stamp_open.
  rewrite (str_min_least _
             (date_format14 (Timestamp r) (String "|" (Decimal.to_text o)))).
  - apply (stamp_value (Timestamp r) o).
  - apply list_elem_of_fmap. exists r. split; [|done]. by rewrite Ho.
  - intros s' Hs' Hne.
    apply list_elem_of_fmap in Hs' as (r' & Hs' & Hr').
    destruct (Open r') as [o'|] eqn:Ho'; [|done].
    simpl in Hs'. injection Hs' as ->.
    rewrite compare_date_format14.
    + rewrite dt_le_lt; [done|by apply Hmin|].
      intros Heq. apply Hne.
      assert (r = r') as <- by (by apply (same_timestamp_same_row g)).
      congruence.
    + eapply Forall_forall in Hval; done.
    + eapply Forall_forall in Hval; done.
Qed.

Lemma max_stamp_close_latest (g : list Bar) r o :
  NoDup (Timestamp <$> g) -> Forall (fun b => dt_valid (Timestamp b)) g ->
  latest r g -> Close r = Some o ->
  max_stamp_close g = Some o.
Proof.
  intros Hnd Hval [Hr Hmax] Ho. unfold max_stamp_close.
  rewrite (str_max_greatest _
             (date_format14 (Timestamp r) (String "|" (Decimal.to_text o)))).
  - apply (stamp_value (Timestamp r) o).
  - apply list_elem_of_fmap. exists r. split; [|done]. by rewrite Ho.
  - intros s' Hs' Hne.
    apply list_elem_of_fmap in Hs' as (r' & Hs' & Hr').
    destruct (Close r') as [o'|] eqn:Ho'; [|done].
    simpl in Hs'. injection Hs' as ->.
    rewrite compare_date_format14.
    + rewrite dt_compare_antisym, dt_le_lt; [done|by apply Hmax|].
      intros Heq. apply Hne.
      assert (r' = r) as -> by (by apply (same_timestamp_same_row g)).
      congruence.
    + eapply Forall_forall in Hval; done.
    + eapply Forall_forall in Hval; done.
Qed.

(** What a group of either statement looks like, given the table. *)
Lemma stock_group_facts tf src k :
  stock_table_ok src ->
  NoDup (Timestamp <$> stock_group tf src k)
  /\ Forall (fun b => where_clause b = true /\ bar_ok b) (stock_group tf src k).
Proof.
  intros [Hnd Hok]. unfold stock_group. split.
  - apply NoDup_fmap_2_strong.
    + intros x y Hx Hy Heq.
      apply list_elem_of_filter in Hx as [_ Hx].
      apply list_elem_of_filter in Hy as [_ Hy].
      apply list_elem_of_filter in Hx as [_ Hx].
      apply list_elem_of_filter in Hy as [_ Hy].
      by apply (NoDup_fmap_eq _ src x y Hnd Hx Hy).
    + do 2 apply NoDup_filter. by apply NoDup_fmap_1 in Hnd.
  - apply Forall_forall. intros b Hb.
    apply list_elem_of_filter in Hb as [_ Hb].
    apply list_elem_of_filter in Hb as [Hw Hb].
    split; [by apply Is_true_true|]. eapply Forall_forall in Hok; done.
Qed.

Lemma option_group_facts tf src k :
  option_table_ok src ->
  NoDup (Timestamp <$> option_group tf src k)
  /\ Forall (fun b => where_clause b = true /\ bar_ok b) (option_group tf src k).
Proof.
  intros [Hnd Hok]. unfold option_group. split.
  - rewrite <- list_fmap_compose. apply NoDup_fmap_2_strong.
    + intros x y Hx Hy Heq.
      apply list_elem_of_filter in Hx as [Hkx Hx].
      apply list_elem_of_filter in Hy as [Hky Hy].
      apply list_elem_of_filter in Hx as [_ Hx].
      apply list_elem_of_filter in Hy as [_ Hy].
      apply (NoDup_fmap_eq _ src x y Hnd Hx Hy). simpl in Heq.
      f_equal; [congruence|done].
    + do 2 apply NoDup_filter. by apply NoDup_fmap_1 in Hnd.
  - apply Forall_forall. intros b Hb.
    apply list_elem_of_fmap in Hb as (r & -> & Hr).
    apply list_elem_of_filter in Hr as [_ Hr].
    apply list_elem_of_filter in Hr as [Hw Hr].
    split; [by apply Is_true_true|].
    eapply Forall_forall in Hok; [|done]. done.
Qed.

End candle_facts.

Section aggregation.
Import Calendar Resample Database.

Lemma group_row_values (g : list Bar) r :
  Forall (fun b => where_clause b = true /\ bar_ok b) g -> r ∈ g ->
  exists o c h l,
    Open r = Some o /\ Close r = Some c /\ High r = Some h /\ Low r = Some l
    /\ Decimal.in_range o /\ Decimal.in_range c /\ dt_valid (Timestamp r).
Proof.
  intros Hall Hr. eapply Forall_forall in Hall as [Hw Hok]; [|done].
  apply where_clause_spec in Hw as (_ & Ho & Hc & Hh & Hl).
  destruct Hok as (Hv & Hro & Hrc & _ & _).
  destruct (Open r) as [o|] eqn:Eo; [|done].
  destruct (Close r) as [c|] eqn:Ec; [|done].
  destruct (High r) as [h|] eqn:Eh; [|done].
  destruct (Low r) as [l|] eqn:El; [|done].
  exists o, c, h, l.
  split; [done|]. split; [done|]. split; [done|]. split; [done|].
  split; [by apply Hro|]. split; [by apply Hrc|done].
Qed.

Lemma group_valid_timestamps (g : list Bar) :
  Forall (fun b => where_clause b = true /\ bar_ok b) g ->
  Forall (fun b => dt_valid (Timestamp b)) g.
Proof.
  intros H. eapply Forall_impl; [exact H|]. intros b [_ [Hv _] ]. exact Hv.
Qed.

Lemma sum_default (l : list (option Z)) :
  default 0 (Agg.sum l) = foldr Z.add 0 (default 0 <$> l).
Proof.
  induction l as [|x l IH]; [done|].
  rewrite fmap_cons. cbn [foldr]. rewrite <- IH.
  unfold Agg.sum. cbn [foldr].
  destruct x as [a|]; [|done].
  destruct (foldr _ None l); simpl; lia.
Qed.

Lemma sum_is_Some (l : list (option Z)) :
  (exists x, Some x ∈ l) -> is_Some (Agg.sum l).
Proof.
  induction l as [|y l IH]; intros [x Hx]; [by apply elem_of_nil in Hx|].
  unfold Agg.sum. cbn [foldr]. fold (Agg.sum l).
  destruct y as [a|].
  - destruct (Agg.sum l); by eexists.
  - apply elem_of_cons in Hx as [Hx|Hx]; [done|]. apply IH. by exists x.
Qed.

Lemma sum_all_null (l : list (option Z)) :
  (forall x, x ∈ l -> x = None) -> Agg.sum l = None.
Proof.
  induction l as [|y l IH]; intros H; [done|].
  unfold Agg.sum. cbn [foldr]. fold (Agg.sum l).
  rewrite (H y) by (apply elem_of_cons; by left).
  apply IH. intros x Hx. apply H. apply elem_of_cons. by right.
Qed.

(** [SUM(Volume)] over a group: the sum of the volumes that are
    present, and [NULL] when none is. *)
Lemma sum_of_group (g : list Bar) :
  ((exists r, r ∈ g /\ Volume r <> None) ->
   Agg.sum (Volume <$> g)
   = Some (foldr Z.add 0 ((fun r => default 0 (Volume r)) <$> g)))
  /\ ((forall r, r ∈ g -> Volume r = None) -> Agg.sum (Volume <$> g) = None).
Proof.
  split.
  - intros (r & Hr & Hv).
    destruct (sum_is_Some (Volume <$> g)) as [v Hs].
    { destruct (Volume r) as [x|] eqn:E; [|done]. exists x.
      rewrite <- E. by apply list_elem_of_fmap_2. }
    rewrite Hs. f_equal.
    change v with (default 0 (Some v)). rewrite <- Hs, sum_default.
    by rewrite <- list_fmap_compose.
  - intros H. apply sum_all_null. intros x Hx.
    apply list_elem_of_fmap in Hx as (r & -> & Hr). by apply H.
Qed.

(** The aggregation rules on one group, for either way of computing
    open and close. *)
Lemma candle_of_group {K} (g : list Bar) (c : Candle K) :
  g <> [] -> NoDup (Timestamp <$> g) ->
  Forall (fun b => where_clause b = true /\ bar_ok b) g ->
  (forall r x, earliest r g -> Open r = Some x -> Decimal.in_range x ->
               c_open c = Some x) ->
  (forall r x, latest r g -> Close r = Some x -> Decimal.in_range x ->
               c_close c = Some x) ->
  c_high c = Agg.max (High <$> g) ->
  c_low c = Agg.min (Low <$> g) ->
  c_volume c = Agg.sum (Volume <$> g) ->
  (exists r, earliest r g)
  /\ (forall r, earliest r g -> c_open c = Open r)
  /\ (exists r, latest r g)
  /\ (forall r, latest r g -> c_close c = Close r)
  /\ (exists h, c_high c = Some h /\ Some h ∈ High <$> g
                /\ forall x, Some x ∈ High <$> g -> x <= h)
  /\ (exists l, c_low c = Some l /\ Some l ∈ Low <$> g
                /\ forall x, Some x ∈ Low <$> g -> l <= x)
  /\ ((exists r, r ∈ g /\ Volume r <> None) ->
      c_volume c
      = Some (foldr Z.add 0 ((fun r => default 0 (Volume r)) <$> g)))
  /\ ((forall r, r ∈ g -> Volume r = None) -> c_volume c = None)
  /\ (forall vs, Volume <$> g = Some <$> vs ->
                 c_volume c = Some (foldr Z.add 0 vs))
  /\ (forall r, g = [r] ->
        c_open c = Open r /\ c_close c = Close r /\ c_high c = High r
        /\ c_low c = Low r /\ c_volume c = Volume r).
Proof.
  intros Hg Hnd Hall Hopen Hclose Hhigh Hlow Hvol.
  assert (Ho : forall r, earliest r g -> c_open c = Open r).
  { intros r Hr.
    destruct (group_row_values g r Hall (proj1 Hr))
      as (o & ? & ? & ? & Eo & _ & _ & _ & Hro & _ & _).
    rewrite Eo. by apply (Hopen r). }
  assert (Hc : forall r, latest r g -> c_close c = Close r).
  { intros r Hr.
    destruct (group_row_values g r Hall (proj1 Hr))
      as (? & x & ? & ? & _ & Ec & _ & _ & _ & Hrc & _).
    rewrite Ec. by apply (Hclose r). }
  split; [by apply exists_earliest|]. split; [exact Ho|].
  split; [by apply exists_latest|]. split; [exact Hc|].
  destruct (sum_of_group g) as [Hsome Hnone].
  destruct g as [|r0 g']; [done|].
  destruct (group_row_values (r0 :: g') r0 Hall ltac:(apply elem_of_cons; by left))
    as (? & ? & h0 & l0 & _ & _ & Eh & El & _).
  split; [|split; [|split; [|split; [|split] ] ] ].
  - destruct (max_exists (High <$> r0 :: g') h0) as [m Hm].
    { rewrite <- Eh. by apply list_elem_of_fmap_2, elem_of_cons; left. }
    exists m. rewrite Hhigh. split; [done|]. by apply max_elem.
  - destruct (min_exists (Low <$> r0 :: g') l0) as [m Hm].
    { rewrite <- El. by apply list_elem_of_fmap_2, elem_of_cons; left. }
    exists m. rewrite Hlow. split; [done|]. by apply min_elem.
  - intros Hex. rewrite Hvol. by apply Hsome.
  - intros Hno. rewrite Hvol. by apply Hnone.
  - intros vs Hvs. rewrite Hvol, Hvs. apply sum_all_present.
    intros ->. discriminate Hvs.
  - intros r [= -> ->].
    assert (He : earliest r [r]).
    { split; [apply elem_of_cons; by left|].
      intros r' Hr'. apply list_elem_of_singleton in Hr' as ->. apply dt_le_refl. }
    assert (Hl : latest r [r]).
    { split; [apply elem_of_cons; by left|].
      intros r' Hr'. apply list_elem_of_singleton in Hr' as ->. apply dt_le_refl. }
    split; [by apply Ho|]. split; [by apply Hc|].
    rewrite Hhigh, Hlow, Hvol. simpl.
    by destruct (High r), (Low r), (Volume r).
Qed.

(** C3, as the statements have it.  On a table with the primary key
    and the column types of [create_base_table], every non-empty
    group of eligible rows of one bucket (and one contract) has
    exactly one candle in the result, and every candle of the result
    is the aggregate of such a group: its open is the open of the row
    of the group with the least timestamp, its close the close of the
    row with the greatest timestamp, its high the greatest high, its
    low the least low; its volume is the sum of the volumes that are
    present in the group, and it is [NULL] when no row of the group
    has a volume; for a group of one row these are the values of that
    row. *)
Theorem candle_aggregates tf :
  (forall src,
     stock_table_ok src ->
     (forall k, stock_group tf src k <> [] ->
        exists c, c ∈ select_stock tf src /\ c_ts c = k
                  /\ forall c', c' ∈ select_stock tf src -> c_ts c' = k ->
                                 c' = c)
     /\ forall c, c ∈ select_stock tf src ->
          let g := stock_group tf src (c_ts c) in
          g <> []
          /\ (exists r, earliest r g)
          /\ (forall r, earliest r g -> c_open c = Open r)
          /\ (exists r, latest r g)
          /\ (forall r, latest r g -> c_close c = Close r)
          /\ (exists h, c_high c = Some h /\ Some h ∈ High <$> g
                        /\ forall x, Some x ∈ High <$> g -> x <= h)
          /\ (exists l, c_low c = Some l /\ Some l ∈ Low <$> g
                        /\ forall x, Some x ∈ Low <$> g -> l <= x)
          /\ ((exists r, r ∈ g /\ Volume r <> None) ->
              c_volume c
              = Some (foldr Z.add 0 ((fun r => default 0 (Volume r)) <$> g)))
          /\ ((forall r, r ∈ g -> Volume r = None) -> c_volume c = None)
          /\ (forall vs, Volume <$> g = Some <$> vs ->
                         c_volume c = Some (foldr Z.add 0 vs))
          /\ (forall r, g = [r] ->
                c_open c = Open r /\ c_close c = Close r /\ c_high c = High r
                /\ c_low c = Low r /\ c_volume c = Volume r))
  /\
  (forall src,
     option_table_ok src ->
     (forall k, option_group tf src k <> [] ->
        exists c, c ∈ select_option tf src /\ (c_key c, c_ts c) = k
                  /\ forall c', c' ∈ select_option tf src ->
                                 (c_key c', c_ts c') = k -> c' = c)
     /\ forall c, c ∈ select_option tf src ->
          let g := option_group tf src (c_key c, c_ts c) in
          g <> []
          /\ (exists r, earliest r g)
          /\ (forall r, earliest r g -> c_open c = Open r)
          /\ (exists r, latest r g)
          /\ (forall r, latest r g -> c_close c = Close r)
          /\ (exists h, c_high c = Some h /\ Some h ∈ High <$> g
                        /\ forall x, Some x ∈ High <$> g -> x <= h)
          /\ (exists l, c_low c = Some l /\ Some l ∈ Low <$> g
                        /\ forall x, Some x ∈ Low <$> g -> l <= x)
          /\ ((exists r, r ∈ g /\ Volume r <> None) ->
              c_volume c
              = Some (foldr Z.add 0 ((fun r => default 0 (Volume r)) <$> g)))
          /\ ((forall r, r ∈ g -> Volume r = None) -> c_volume c = None)
          /\ (forall vs, Volume <$> g = Some <$> vs ->
                         c_volume c = Some (foldr Z.add 0 vs))
          /\ (forall r, g = [r] ->
                c_open c = Open r /\ c_close c = Close r /\ c_high c = High r
                /\ c_low c = Low r /\ c_volume c = Volume r)).
Proof.
  split.
  - intros src Hok. split.
    + intros k Hk.
      destruct (stock_group tf src k) as [|b g'] eqn:Eg; [done|].
      assert (Hb : b ∈ stock_group tf src k)
        by (rewrite Eg; apply elem_of_cons; by left).
      apply list_elem_of_filter in Hb as [Hkb Hb].
      apply list_elem_of_filter in Hb as [Hw Hb].
      exists (stock_candle (k, stock_group tf src k)).
      split; [|split; [done|] ].
      * apply elem_of_select_stock. exists b. split; [done|].
        split; [by apply Is_true_true|]. by rewrite Hkb.
      * intros c' Hc' Hts.
        apply elem_of_select_stock in Hc' as (b' & _ & _ & ->).
        cbn [c_ts stock_candle fst] in Hts. by rewrite Hts.
    + intros c Hc g.
      apply elem_of_select_stock in Hc as (b & Hb & Hw & ->).
      simpl in g.
      destruct (stock_group_facts tf src (candle_ts tf (Timestamp b)) Hok)
        as [Hnd Hall].
      assert (Hg : g <> []).
      { assert (Hbg : b ∈ g).
        { apply list_elem_of_filter. split; [done|].
          apply list_elem_of_filter. split; [by apply Is_true_true|done]. }
        intros Hnil. rewrite Hnil in Hbg. by apply elem_of_nil in Hbg. }
      split; [done|].
      apply candle_of_group; try done.
      * intros r x Hr Ho _. simpl.
        apply (min_stamp_open_earliest g r x); try done.
        by apply group_valid_timestamps.
      * intros r x Hr Ho _. simpl.
        apply (max_stamp_close_latest g r x); try done.
        by apply group_valid_timestamps.
  - intros src Hok. split.
    + intros k Hk.
      destruct (option_group tf src k) as [|b g'] eqn:Eg; [done|].
      assert (Hb : b ∈ option_group tf src k)
        by (rewrite Eg; apply elem_of_cons; by left).
      apply list_elem_of_fmap in Hb as (r & -> & Hr).
      apply list_elem_of_filter in Hr as [Hkr Hr].
      apply list_elem_of_filter in Hr as [Hw Hr].
      exists (option_candle (k, option_group tf src k)).
      split; [|split; [by destruct k|] ].
      * apply elem_of_select_option. exists r. split; [done|].
        split; [by apply Is_true_true|]. cbv zeta. by rewrite Hkr.
      * intros c' Hc' Hts.
        apply elem_of_select_option in Hc' as (r' & _ & _ & Hc').
        cbv zeta in Hc'. subst c'.
        cbn [c_key c_ts option_candle fst snd] in Hts. by rewrite Hts.
    + intros c Hc g.
      apply elem_of_select_option in Hc as (r0 & Hr0 & Hw & ->).
      simpl in g.
      destruct (option_group_facts tf src
                  (contract r0, candle_ts tf (Timestamp (bar r0))) Hok)
        as [Hnd Hall].
      assert (Hg : g <> []).
      { assert (Hbg : bar r0 ∈ g).
        { apply list_elem_of_fmap_2.
          apply list_elem_of_filter. split; [done|].
          apply list_elem_of_filter. split; [by apply Is_true_true|done]. }
        intros Hnil. rewrite Hnil in Hbg. by apply elem_of_nil in Hbg. }
      split; [done|].
      apply candle_of_group; try done.
      * intros r x Hr Ho Hx. simpl. by apply (first_open_earliest g r x).
      * intros r x Hr Ho Hx. simpl. by apply (last_close_latest g r x).
Qed.

(** C10.  On a group of eligible rows with pairwise distinct
    timestamps, the stock computation (least and greatest stamped
    text, then the part after the bar) and the option computation
    (first field of the concatenation in ascending and in descending
    timestamp order) return the same values: the open of the earliest
    row and the close of the latest row. *)
Theorem open_close_paths_agree (g : list Bar) :
  g <> [] ->
  NoDup (Timestamp <$> g) ->
  Forall (fun b => where_clause b = true /\ bar_ok b) g ->
  exists r_first r_last,
    earliest r_first g /\ latest r_last g
    /\ min_stamp_open g = Open r_first /\ first_open g = Open r_first
    /\ max_stamp_close g = Close r_last /\ last_close g = Close r_last.
Proof.
  intros Hg Hnd Hall.
  destruct (exists_earliest g Hg) as [rf Hf].
  destruct (exists_latest g Hg) as [rl Hl].
  exists rf, rl.
  destruct (group_row_values g rf Hall (proj1 Hf))
    as (o & ? & ? & ? & Eo & _ & _ & _ & Hro & _ & _).
  destruct (group_row_values g rl Hall (proj1 Hl))
    as (? & c & ? & ? & _ & Ec & _ & _ & _ & Hrc & _).
  pose proof (group_valid_timestamps g Hall) as Hval.
  rewrite Eo, Ec. repeat split; try (by destruct Hf) || (by destruct Hl).
  - by apply (min_stamp_open_earliest g rf o).
  - by apply (first_open_earliest g rf o).
  - by apply (max_stamp_close_latest g rl c).
  - by apply (last_close_latest g rl c).
Qed.

End aggregation.

(** ** The resample routes *)

Section api_resample_facts.

Lemma timeframe_minutes_none name :
  timeframe_minutes name = None <-> name ∉ TIMEFRAMES.*1.
Proof.
  unfold timeframe_minutes, TIMEFRAMES.
  cbn [List.find fst fmap list_fmap].
  rewrite !not_elem_of_cons.
  destruct (String.eqb_spec "3min" name) as [<-|H1]; [cbn; intuition congruence|].
  destruct (String.eqb_spec "5min" name) as [<-|H2]; [cbn; intuition congruence|].
  destruct (String.eqb_spec "15min" name) as [<-|H3]; [cbn; intuition congruence|].
  destruct (String.eqb_spec "1hr" name) as [<-|H4]; [cbn; intuition congruence|].
  cbn. split; [|done]. intros _. repeat split; try congruence.
  apply not_elem_of_nil.
Qed.

Lemma timeframe_minutes_some name :
  is_Some (timeframe_minutes name) <-> name ∈ TIMEFRAMES.*1.
Proof.
  rewrite <- not_eq_None_Some, timeframe_minutes_none.
  split; [apply dec_stable|auto].
Qed.

(** An unsupported name is passed over by the loop of either route. *)
Lemma api_loop_skip schema src tt tfs res w :
  ApiResample.loop schema src tt tfs res w =
  ApiResample.loop schema src tt (filter (fun n => n ∈ TIMEFRAMES.*1) tfs) res w.
Proof.
  revert res w. induction tfs as [|n tfs IH]; intros res w; [done|].
  rewrite filter_cons. destruct (decide (n ∈ TIMEFRAMES.*1)) as [Hin|Hout].
  - apply timeframe_minutes_some in Hin as [m Hm].
    simpl. rewrite Hm. done.
  - apply timeframe_minutes_none in Hout. simpl. rewrite Hout. apply IH.
Qed.

Lemma app_loop_skip schema src tfs res w :
  App.loop schema src tfs res w =
  App.loop schema src (filter (fun n => n ∈ TIMEFRAMES.*1) tfs) res w.
Proof.
  revert res w. induction tfs as [|n tfs IH]; intros res w; [done|].
  rewrite filter_cons. destruct (decide (n ∈ TIMEFRAMES.*1)) as [Hin|Hout].
  - apply timeframe_minutes_some in Hin as [m Hm].
    simpl. rewrite Hm.
    destruct (App.create_dest_table schema _ w) as [ [|] w1]; [|apply IH].
    destruct (App.execute_resample schema src _ m w1) as [ok w2]. apply IH.
  - apply timeframe_minutes_none in Hout. simpl. rewrite Hout. apply IH.
Qed.

(** C8, as the routes have it.  A requested timeframe outside
    [3min, 5min, 15min, 1hr] is passed over: the request is handled
    exactly as if that name had not been sent, so no entry is reported
    for it; a request naming only such timeframes answers with an
    empty result list and leaves the database as it was. *)
Theorem unsupported_timeframes_skipped schema src_table tfs w :
  let req := mkRequest (Some schema) (Some src_table) tfs in
  let supported := filter (fun n => n ∈ TIMEFRAMES.*1) tfs in
  (supported <> [] ->
   ApiResample.api_resample req w =
     ApiResample.api_resample (mkRequest (Some schema) (Some src_table) supported) w
   /\ App.api_resample req w =
     App.api_resample (mkRequest (Some schema) (Some src_table) supported) w)
  /\ (supported = [] -> schema <> "" -> src_table <> "" -> tfs <> [] ->
      ApiResample.api_resample req w = (Results [], w)
      /\ App.api_resample req w = (Results [], w)).
Proof.
  intros req supported. subst req.
  remember supported as sup eqn:E. unfold supported in E. clear supported.
  unfold ApiResample.api_resample, App.api_resample. cbn [r_schema r_table r_timeframes truthy].
  split.
  - intros Hs.
    destruct schema as [|c s]; [by split|].
    destruct src_table as [|c' s']; [by split|].
    destruct tfs as [|n tfs]; [by subst|].
    rewrite api_loop_skip, app_loop_skip, <- E.
    destruct sup; done.
  - intros Hs Hschema Htable Htfs.
    destruct schema as [|c s]; [done|].
    destruct src_table as [|c' s']; [done|].
    destruct tfs as [|n tfs]; [done|].
    rewrite api_loop_skip, app_loop_skip, <- E, Hs. done.
Qed.

(** The blueprint route never gets past its first supported
    timeframe: the call of [create_resampled_table] with three
    arguments raises [TypeError], nothing has been done in the
    database, and no result is reported. *)
Lemma api_loop_raises schema src tt tfs res w :
  filter (fun n => n ∈ TIMEFRAMES.*1) tfs <> [] ->
  ApiResample.loop schema src tt tfs res w = (inl TypeError, w).
Proof.
  rewrite api_loop_skip.
  destruct (filter (fun n => n ∈ TIMEFRAMES.*1) tfs) as [|n l] eqn:E; [done|].
  intros _.
  assert (Hn : n ∈ TIMEFRAMES.*1).
  { assert (Hin : n ∈ n :: l) by (apply elem_of_cons; by left).
    rewrite <- E in Hin. by apply list_elem_of_filter in Hin as [? _]. }
  apply timeframe_minutes_some in Hn as [m Hm].
  simpl. rewrite Hm. done.
Qed.

(** The route of [app.py] reports every supported timeframe of the
    request, in order, whatever happens to the others. *)
Lemma app_loop_reports schema src tfs res w :
  e_timeframe <$> (App.loop schema src tfs res w).1 =
  (e_timeframe <$> res) ++ filter (fun n => n ∈ TIMEFRAMES.*1) tfs.
Proof.
  revert res w. induction tfs as [|n tfs IH]; intros res w.
  - simpl. by rewrite app_nil_r.
  - rewrite filter_cons. destruct (decide (n ∈ TIMEFRAMES.*1)) as [Hin|Hout].
    + apply timeframe_minutes_some in Hin as [m Hm].
      simpl. rewrite Hm.
      destruct (App.create_dest_table schema _ w) as [ [|] w1].
      * destruct (App.execute_resample schema src _ m w1) as [ [|] w2];
          rewrite IH, fmap_app; simpl; by rewrite <- app_assoc.
      * rewrite IH, fmap_app. simpl. by rewrite <- app_assoc.
    + apply timeframe_minutes_none in Hout. simpl. rewrite Hout. apply IH.
Qed.

End api_resample_facts.

(** ** The scenarios of the spec, run on the statements *)

Section scenarios.
Import Calendar Resample Database Examples.

Lemma sample_bar_ok h m o c hi lo v :
  0 <= h <= 23 -> 0 <= m <= 59 ->
  Z.abs o < 10 ^ 10 -> Z.abs c < 10 ^ 10 ->
  Z.abs hi < 10 ^ 10 -> Z.abs lo < 10 ^ 10 ->
  bar_ok (bar_at h m o c hi lo v).
Proof.
  intros Hh Hm Ho Hc Hhi Hlo. unfold bar_ok, column_ok, dt_valid. simpl.
  split; [change (days_in_month 2026 1) with 31; lia|].
  unfold Decimal.in_range.
  repeat split; intros x [= <-]; done.
Qed.

Lemma stock_rows_ok : stock_table_ok stock_rows.
Proof.
  split.
  - apply (bool_decide_unpack _). by vm_compute.
  - unfold stock_rows, b0930, b0931, b0932.
    repeat apply Forall_cons_2; try apply Forall_nil_2;
      apply sample_bar_ok; simpl; lia.
Qed.

Lemma option_rows_ok : option_table_ok option_rows.
Proof.
  split.
  - apply (bool_decide_unpack _). by vm_compute.
  - unfold option_rows, stock_rows, b0930, b0931, b0932. simpl.
    repeat apply Forall_cons_2; try apply Forall_nil_2;
      apply sample_bar_ok; simpl; lia.
Qed.

(** 09:30, 09:31 and 09:32 with the 3-minute timeframe: one candle,
    starting 09:30, with the open of 09:30 and the close of 09:32, in
    the stock and in the option statement. *)
Lemma candle_aggregates_witness :
  let c := mkCandle tt (Some (day 9 30)) (Some 1000000) (Some 1012500)
             (Some 1020000) (Some 990000) (Some 23) in
  select_stock 3 stock_rows = [c]
  /\ stock_group 3 stock_rows (c_ts c) = stock_rows
  /\ c_open c = Open b0930 /\ c_close c = Close b0932
  /\ c_volume c = Some (5 + (7 + (11 + 0)))
  /\ (exists c', c' ∈ select_stock 3 stock_rows /\ c_ts c' = Some (day 9 30))
  /\ (exists c', c' ∈ select_option 3 option_rows
                 /\ (c_key c', c_ts c') = (call450, Some (day 9 30))
                 /\ forall r,
                      earliest r (option_group 3 option_rows
                                    (c_key c', c_ts c')) ->
                      c_open c' = Open r).
Proof.
  intros c.
  assert (Hsel : select_stock 3 stock_rows = [c]) by (by vm_compute).
  assert (Hgrp : stock_group 3 stock_rows (c_ts c) = stock_rows) by (by vm_compute).
  destruct (candle_aggregates 3) as [Hstock Hoption].
  destruct (Hstock stock_rows stock_rows_ok) as [Hsx Hst].
  destruct (Hoption option_rows option_rows_ok) as [Hox Hot].
  specialize (Hst c).
  destruct Hst as (_ & _ & Ho & _ & Hc & _ & _ & _ & _ & Hv & _).
  { rewrite Hsel. apply elem_of_cons. by left. }
  rewrite Hgrp in Ho, Hc, Hv.
  split; [done|]. split; [done|].
  split; [|split; [|split; [|split] ] ].
  - apply Ho. split; [apply elem_of_cons; by left|].
    intros r' Hr'. unfold dt_le.
    repeat (apply elem_of_cons in Hr' as [->|Hr']; [by vm_compute|]).
    apply elem_of_nil in Hr'. destruct Hr'.
  - apply Hc. split; [do 2 (apply elem_of_cons; right); apply elem_of_cons; by left|].
    intros r' Hr'. unfold dt_le.
    repeat (apply elem_of_cons in Hr' as [->|Hr']; [by vm_compute|]).
    apply elem_of_nil in Hr'. destruct Hr'.
  - by apply (Hv [5; 7; 11]).
  - destruct (Hsx (Some (day 9 30))) as (c' & H1 & H2 & _).
    { by vm_compute. }
    exists c'. split; [exact H1|exact H2].
  - destruct (Hox (call450, Some (day 9 30))) as (c' & H1 & H2 & _).
    { by vm_compute. }
    exists c'. split; [exact H1|]. split; [exact H2|].
    destruct (Hot c' H1) as (_ & _ & Ho' & _). exact Ho'.
Defined.

(** C3 as stated fails for the volume: a group whose rows have no
    volume gives a candle whose volume is [NULL], not the sum [0] of
    the volumes with [NULL] counted as nothing. *)
Lemma null_volume_gives_null_candle_volume :
  let row := mkBar (day 9 30) (Some 1000000) (Some 1005000) (Some 1010000)
               (Some 995000) None in
  stock_group 3 [row] (Some (day 9 30)) = [row]
  /\ c_volume <$> select_stock 3 [row] = [None]
  /\ c_volume <$> select_option 3 [mkOptionRow call450 row] = [None]
  /\ foldr Z.add 0 ((fun r => default 0 (Volume r)) <$> [row]) = 0.
Proof. by vm_compute. Qed.

Lemma open_close_paths_agree_witness :
  min_stamp_open stock_rows = Some 1000000
  /\ first_open stock_rows = Some 1000000
  /\ max_stamp_close stock_rows = Some 1012500
  /\ last_close stock_rows = Some 1012500.
Proof.
  destruct (open_close_paths_agree stock_rows) as (rf & rl & _ & _ & H).
  - done.
  - apply stock_rows_ok.
  - unfold stock_rows, b0930, b0931, b0932.
    repeat apply Forall_cons_2; try apply Forall_nil_2;
      (split; [by vm_compute|apply sample_bar_ok; simpl; lia]).
  - by vm_compute.
Defined.

(** A row at 15:59:00 is in the group of its bucket; a row at
    16:00:00 is in none, in the stock and in the option statement. *)
Lemma session_and_null_filter_witness :
  (exists kg, kg ∈ Agg.group_by fst (bucketed_stock 60 [b1559; b1600])
     /\ kg.1 = Some (day 15 30)
     /\ (kg.1, b1559) ∈ kg.2
     /\ stock_candle (kg.1, snd <$> kg.2) ∈ select_stock 60 [b1559; b1600])
  /\ select_stock 60 [b1559; b1600] = select_stock 60 [b1559]
  /\ (exists kg,
        kg ∈ Agg.group_by
               (fun x : Contract * option datetime * Bar => (x.1.1, x.1.2))
               (bucketed 60 (base 60 [mkOptionRow call450 b1559;
                                      mkOptionRow call450 b1600]))
        /\ kg.1 = (call450, Some (day 15 30))
        /\ (call450, Some (day 15 30), b1559) ∈ kg.2)
  /\ select_option 60 [mkOptionRow call450 b1559; mkOptionRow call450 b1600]
     = select_option 60 [mkOptionRow call450 b1559].
Proof.
  pose proof (session_and_null_filter 60) as H. cbv zeta in H.
  destruct H as (Hs & Hsx & Ho & Hox).
  assert (He : 34200 <= time_of_day (Timestamp b1559) <= 57540
               /\ Open b1559 <> None /\ Close b1559 <> None
               /\ High b1559 <> None /\ Low b1559 <> None)
    by (vm_compute; repeat split; discriminate).
  assert (Hn : ~ (34200 <= time_of_day (Timestamp b1600) <= 57540
                  /\ Open b1600 <> None /\ Close b1600 <> None
                  /\ High b1600 <> None /\ Low b1600 <> None)).
  { intros [ [_ Hle] _]. vm_compute in Hle. by apply Hle. }
  split; [|split; [|split] ].
  - destruct (Hs [b1559; b1600]) as (Hin & _ & _).
    destruct (Hin b1559) as (kg & H1 & H2 & H3 & H4);
      [apply elem_of_cons; by left|exact He|].
    exists kg. split; [exact H1|]. split; [|by split].
    rewrite H2. by vm_compute.
  - by destruct (Hsx [b1559] [] b1600 Hn) as [_ Heq].
  - destruct (Ho [mkOptionRow call450 b1559; mkOptionRow call450 b1600])
      as (Hin & _ & _).
    destruct (Hin (mkOptionRow call450 b1559)) as (kg & H1 & H2 & H3 & _);
      [apply elem_of_cons; by left|exact He|].
    exists kg. split; [exact H1|]. split; [exact H2|exact H3].
  - by destruct (Hox [mkOptionRow call450 b1559] []
                   (mkOptionRow call450 b1600) Hn) as [_ Heq].
Defined.

(** C7, at a request for [3min] and [5min] where the 3-minute table
    cannot be created.  The blueprint route raises [TypeError] at its
    call of [create_resampled_table] and reports nothing, for neither
    timeframe; the route of [app.py], whose call has the two arguments
    of the function, reports the failure of [3min] and goes on to
    resample [5min]. *)
Theorem api_resample_aborts_request :
  ApiResample.api_resample resample_request resample_world
    = (Raised TypeError, resample_world)
  /\ (App.api_resample resample_request resample_world).1
     = Results [failure "3min" "Failed to create destination table";
                success "5min" "ib_2w_call_5min"].
Proof. split; by vm_compute. Qed.

(** C8 as stated fails: a request for the unsupported [2min] gets an
    empty result list, with no failure entry for [2min]. *)
Lemma unsupported_timeframe_not_reported :
  ApiResample.api_resample
    (mkRequest (Some "qqq_db") (Some "ib_2w_call_1min") ["2min"]) resample_world
    = (Results [], resample_world)
  /\ App.api_resample
       (mkRequest (Some "qqq_db") (Some "ib_2w_call_1min") ["2min"]) resample_world
     = (Results [], resample_world).
Proof. split; by vm_compute. Qed.

Lemma unsupported_timeframes_skipped_witness :
  App.api_resample
    (mkRequest (Some "qqq_db") (Some "ib_2w_call_1min") ["2min"; "5min"])
    resample_world
  = App.api_resample
      (mkRequest (Some "qqq_db") (Some "ib_2w_call_1min") ["5min"])
      resample_world
  /\ ApiResample.api_resample
       (mkRequest (Some "qqq_db") (Some "ib_2w_call_1min") ["2min"]) resample_world
     = (Results [], resample_world).
Proof.
  split.
  - destruct (unsupported_timeframes_skipped "qqq_db" "ib_2w_call_1min"
                ["2min"; "5min"] resample_world) as [H _].
    apply H. by vm_compute.
  - destruct (unsupported_timeframes_skipped "qqq_db" "ib_2w_call_1min"
                ["2min"] resample_world) as [_ H].
    apply H; by vm_compute.
Defined.

End scenarios.

(** ** Key normalisation *)

Section normalize_facts.
Import Merge.

Lemma string_app_assoc (a b c : string) :
  ((a ++ b) ++ c)%string = (a ++ (b ++ c))%string.
Proof.
  induction a as [|x a IH]; [done|].
  change (String x ((a ++ b) ++ c)%string = String x (a ++ (b ++ c))%string).
  by rewrite IH.
Qed.

Lemma replace_char_app a b s t :
  Text.replace_char a b (s ++ t)%string
  = (Text.replace_char a b s ++ Text.replace_char a b t)%string.
Proof.
  induction s as [|c s IH]; [done|].
  change (String (if Ascii.eqb c a then b else c)
            (Text.replace_char a b (s ++ t)%string)
          = String (if Ascii.eqb c a then b else c)
              (Text.replace_char a b s ++ Text.replace_char a b t)%string).
  by rewrite IH.
Qed.

Lemma contains_replace_char sep a b s :
  Ascii.eqb a sep = false -> Ascii.eqb b sep = false ->
  Agg.contains sep (Text.replace_char a b s) = Agg.contains sep s.
Proof.
  intros Ha Hb. induction s as [|c s IH]; [done|]. simpl. rewrite IH.
  destruct (Ascii.eqb_spec c a) as [->|Hc]; [by rewrite Ha, Hb|done].
Qed.

Lemma split_head_app_l sep s k :
  Agg.contains sep s = false ->
  Text.split_head sep (s ++ k)%string = (s ++ Text.split_head sep k)%string.
Proof.
  induction s as [|c s IH]; [done|]. simpl. intros H.
  apply orb_false_elim in H as [H1 H2].
  change (Text.split_head sep (String c (s ++ k)%string)
          = String c (s ++ Text.split_head sep k)%string).
  simpl. rewrite H1. f_equal. by apply IH.
Qed.

(** What [normalize_dt] does take away from a text: a fraction of
    seconds, an offset that starts with a plus sign, and [T] between
    date and time. *)
Lemma normalize_dt_fraction core x :
  Agg.contains "." core = false ->
  normalize_dt (PyStr (core ++ String "." x)) = normalize_dt (PyStr core).
Proof.
  intros Hc. unfold normalize_dt. do 2 f_equal.
  rewrite replace_char_app.
  change (Text.replace_char "T" " " (String "." x))
    with (String "." (Text.replace_char "T" " " x)).
  assert (Hc' : Agg.contains "." (Text.replace_char "T" " " core) = false)
    by (by rewrite contains_replace_char).
  by rewrite (split_head_app "." _ _ Hc'), (split_head_none "." _ Hc').
Qed.

Lemma normalize_dt_plus_offset core x :
  Agg.contains "." core = false -> Agg.contains "+" core = false ->
  normalize_dt (PyStr (core ++ String "+" x)) = normalize_dt (PyStr core).
Proof.
  intros Hd Hp. unfold normalize_dt. f_equal.
  rewrite replace_char_app.
  change (Text.replace_char "T" " " (String "+" x))
    with (String "+" (Text.replace_char "T" " " x)).
  assert (Hd' : Agg.contains "." (Text.replace_char "T" " " core) = false)
    by (by rewrite contains_replace_char).
  assert (Hp' : Agg.contains "+" (Text.replace_char "T" " " core) = false)
    by (by rewrite contains_replace_char).
  rewrite split_head_app_l by done.
  change (Text.split_head "." (String "+" (Text.replace_char "T" " " x)))
    with (String "+" (Text.split_head "." (Text.replace_char "T" " " x))).
  rewrite (split_head_app "+" _ _ Hp').
  by rewrite (split_head_none "." _ Hd'), (split_head_none "+" _ Hp').
Qed.

Lemma normalize_dt_separator d t :
  normalize_dt (PyStr (d ++ String "T" t))
  = normalize_dt (PyStr (d ++ String " " t)).
Proof.
  unfold normalize_dt. do 3 f_equal. by rewrite !replace_char_app.
Qed.

(** C6, at an offset west of Greenwich.  The two texts differ only in
    the presence of the offset suffix, yet [normalize_dt] keeps the
    suffix [-05:00]: the two normalised values differ, and a CSV row
    written with the suffix is not found among the keys of the very
    row the table holds for it.  With the suffix [+00:00], a fraction
    and [T] the same row is found. *)
Theorem normalize_dt_keeps_negative_offset :
  let stored :=
    mkOptionRow (mkContract 450 "call" (DateTime 2026 1 16 0 0 0))
      (Examples.bar_at 9 31 1000 1000 1000 1000 1) in
  let existing_keys : gset Key := {[ option_db_key stored ]} in
  let csv ts := mkCsvRow 450 "call" "2026-01-16 00:00:00" ts
                  None None None None None in
  normalize_dt (PyStr "2026-01-02 09:31:00-05:00") = "2026-01-02 09:31:00-05:00"
  /\ normalize_dt (PyStr "2026-01-02 09:31:00") = "2026-01-02 09:31:00"
  /\ row_exists "ib_2w_call_1min" existing_keys (csv "2026-01-02 09:31:00") = true
  /\ row_exists "ib_2w_call_1min" existing_keys
       (csv "2026-01-02T09:31:00.000+00:00") = true
  /\ row_exists "ib_2w_call_1min" existing_keys
       (csv "2026-01-02 09:31:00-05:00") = false.
Proof.
  intros stored existing_keys csv.
  split; [done|]. split; [done|].
  unfold row_exists, existing_keys.
  split; [|split].
  - apply bool_decide_eq_true. apply elem_of_singleton. by vm_compute.
  - apply bool_decide_eq_true. apply elem_of_singleton. by vm_compute.
  - apply bool_decide_eq_false. rewrite elem_of_singleton. by vm_compute.
Qed.

End normalize_facts.

(** ** Deduplication *)

Section partition_facts.
Import Merge.

Lemma drop_duplicates_from_spec table rows : forall seen,
  let md := drop_duplicates_from table seen rows in
  NoDup (subset_values table <$> md)
  /\ (forall r, r ∈ md -> r ∈ rows /\ subset_values table r ∉ seen)
  /\ (length md <= length rows)%nat
  /\ (forall r, r ∈ rows ->
        subset_values table r ∈ seen
        \/ subset_values table r ∈ subset_values table <$> md).
Proof.
  induction rows as [|r rows IH]; intros seen md.
  - subst md. simpl. split; [constructor|].
    split; [intros r Hr; by apply elem_of_nil in Hr|]. split; [done|].
    intros r Hr. by apply elem_of_nil in Hr.
  - subst md. simpl.
    destruct (decide (subset_values table r ∈ seen)) as [Hin|Hout].
    + destruct (IH seen) as (Hnd & Hsub & Hlen & Hcov).
      split; [done|]. split; [|split; [lia|] ].
      * intros x Hx. destruct (Hsub x Hx) as [H1 H2].
        split; [apply elem_of_cons; by right|done].
      * intros x Hx. apply elem_of_cons in Hx as [->|Hx]; [by left|by apply Hcov].
    + destruct (IH ({[subset_values table r]} ∪ seen)) as (Hnd & Hsub & Hlen & Hcov).
      split; [|split; [|split] ].
      * rewrite fmap_cons. apply NoDup_cons. split; [|done].
        intros Hr. apply list_elem_of_fmap in Hr as (x & Heq & Hx).
        destruct (Hsub x Hx) as [_ Hnot]. apply Hnot.
        apply elem_of_union. left. apply elem_of_singleton. done.
      * intros x Hx. apply elem_of_cons in Hx as [->|Hx].
        -- split; [apply elem_of_cons; by left|done].
        -- destruct (Hsub x Hx) as [H1 H2]. split; [apply elem_of_cons; by right|].
           intros Hs. apply H2. apply elem_of_union. by right.
      * simpl. lia.
      * intros x Hx. rewrite fmap_cons.
        apply elem_of_cons in Hx as [->|Hx]; [right; apply elem_of_cons; by left|].
        destruct (Hcov x Hx) as [Hs|Hm]; [|right; apply elem_of_cons; by right].
        apply elem_of_union in Hs as [Hs|Hs]; [|by left].
        apply elem_of_singleton in Hs. right. apply elem_of_cons. by left.
Qed.

Lemma partition_lengths table existing_keys (md : list CsvRow) :
  (length (new_data table existing_keys md)
   + length (duplicate_rows table existing_keys md) = length md)%nat.
Proof.
  unfold new_data, duplicate_rows.
  pose proof (filter_app_complement
                (fun r => row_exists table existing_keys r) md) as Hp.
  apply Permutation_length in Hp. rewrite length_app in Hp. lia.
Qed.

(** C1 as stated fails: two rows of one batch whose timestamps are
    written differently survive [drop_duplicates], both are new, and
    they have the same normalised key. *)
Lemma new_rows_share_a_key :
  let table := "ib_stock_1min" in
  let batch := [Examples.stock_csv "2026-01-02 09:31:00";
                Examples.stock_csv "2026-01-02T09:31:00"] in
  let new := new_data table ∅ (drop_duplicates table batch) in
  new = batch /\ ~ NoDup (csv_key table <$> new).
Proof.
  intros table batch new.
  assert (Hnew : new = batch) by (by vm_compute).
  split; [done|]. rewrite Hnew.
  assert (Hk : csv_key table <$> batch
               = [StockKey "2026-01-02 09:31:00"; StockKey "2026-01-02 09:31:00"])
    by (by vm_compute).
  rewrite Hk. intros Hnd. apply NoDup_cons in Hnd as [Hx _].
  apply Hx. apply elem_of_cons. by left.
Qed.

(** C1, as the route has it.  After [drop_duplicates] has taken
    [csv_dupes_count] rows out of the batch, the new rows and the
    duplicate rows add up to the rest; no normalised key occurs on
    both sides; no normalised key of a new row is among the existing
    keys; and the new rows are pairwise distinct in the values of the
    key columns as they stand in the file.  Their normalised keys are
    pairwise distinct as well when normalisation does not identify two
    different rows of the batch. *)
Theorem partition_guarantee table (existing_keys : gset Key) (batch : list CsvRow) :
  let merged_data := drop_duplicates table batch in
  let csv_dupes_count := (length batch - length merged_data)%nat in
  let new := new_data table existing_keys merged_data in
  let dup := duplicate_rows table existing_keys merged_data in
  (length new + length dup = length batch - csv_dupes_count)%nat
  /\ (forall r r', r ∈ new -> r' ∈ dup -> csv_key table r <> csv_key table r')
  /\ (forall r, r ∈ new -> csv_key table r ∉ existing_keys)
  /\ NoDup (subset_values table <$> new)
  /\ ((forall r r', r ∈ batch -> r' ∈ batch ->
         csv_key table r = csv_key table r' ->
         subset_values table r = subset_values table r') ->
      NoDup (csv_key table <$> new)).
Proof.
  intros merged_data csv_dupes_count new dup.
  destruct (drop_duplicates_from_spec table batch ∅)
    as (Hnd & Hsub & Hlen & _).
  fold (drop_duplicates table batch) in Hnd, Hsub, Hlen.
  fold merged_data in Hnd, Hsub, Hlen.
  assert (Hnew : forall r, r ∈ new ->
            r ∈ merged_data /\ csv_key table r ∉ existing_keys).
  { intros r Hr. apply list_elem_of_filter in Hr as [Hne Hr].
    split; [done|]. intros Hin. apply Hne. unfold row_exists.
    by apply bool_decide_pack. }
  assert (Hnd_new : NoDup (subset_values table <$> new)).
  { apply NoDup_fmap_2_strong.
    - intros x y Hx Hy Heq.
      apply (NoDup_fmap_eq _ merged_data x y Hnd); [by apply Hnew|by apply Hnew|done].
    - apply NoDup_filter. by apply NoDup_fmap_1 in Hnd. }
  split; [|split; [|split; [|split] ] ].
  - pose proof (partition_lengths table existing_keys merged_data).
    fold new dup in H. subst csv_dupes_count. lia.
  - intros r r' Hr Hr' Heq.
    destruct (Hnew r Hr) as [_ Hnot]. apply Hnot. rewrite Heq.
    apply list_elem_of_filter in Hr' as [He _].
    unfold row_exists in He. by apply bool_decide_unpack in He.
  - intros r Hr. by apply Hnew.
  - done.
  - intros Hinj. apply NoDup_fmap_2_strong.
    + intros x y Hx Hy Heq.
      destruct (Hnew x Hx) as [Hxm _]. destruct (Hnew y Hy) as [Hym _].
      apply (NoDup_fmap_eq _ merged_data x y Hnd); [done|done|].
      apply Hinj; [by apply Hsub|by apply Hsub|done].
    + apply NoDup_filter. by apply NoDup_fmap_1 in Hnd.
Qed.

Lemma partition_guarantee_witness :
  let table := "ib_stock_1min" in
  let batch := [Examples.stock_csv "2026-01-02 09:31:00";
                Examples.stock_csv "2026-01-02 09:32:00";
                Examples.stock_csv "2026-01-02 09:31:00"] in
  NoDup (csv_key table
         <$> new_data table ∅ (drop_duplicates table batch)).
Proof.
  intros table batch.
  destruct (partition_guarantee table ∅ batch) as (_ & _ & _ & _ & H).
  apply H. intros r r' Hr Hr' Heq.
  unfold batch in Hr, Hr'.
  repeat (apply elem_of_cons in Hr as [->|Hr]);
    try (apply elem_of_nil in Hr; destruct Hr);
    repeat (apply elem_of_cons in Hr' as [->|Hr']);
    try (apply elem_of_nil in Hr'; destruct Hr');
    try reflexivity; vm_compute in Heq; discriminate Heq.
Defined.

End partition_facts.

(** ** Rejected merge requests *)

Section rejection_facts.
Import Merge.

Variable store_datetime : string -> option datetime.

Lemma create_base_table_effect schema table w :
  let w1 := (Database.create_base_table schema table w).2 in
  (forall k t, tables w !! k = Some t -> tables w1 !! k = Some t)
  /\ (forall k t, tables w1 !! k = Some t -> tables w !! k = None ->
        k = (schema, table) /\ (t = StockTable [] \/ t = OptionTable [])).
Proof.
  unfold Database.create_base_table.
  destruct (tables w !! (schema, table)) as [t0|] eqn:E.
  { simpl. split; [done|]. intros k t H1 H2. congruence. }
  destruct (decide ((schema, table) ∈ ddl_denied w)).
  { simpl. split; [done|]. intros k t H1 H2. congruence. }
  destruct (String.eqb table "ib_stock_1min"); simpl; split.
  - intros k t Hk. rewrite lookup_insert_ne; [done|]. intros <-. congruence.
  - intros k t Hk Hnone. destruct (decide (k = (schema, table))) as [->|Hne].
    + rewrite lookup_insert_eq in Hk. injection Hk as <-. auto.
    + rewrite lookup_insert_ne in Hk by done. congruence.
  - intros k t Hk. rewrite lookup_insert_ne; [done|]. intros <-. congruence.
  - intros k t Hk Hnone. destruct (decide (k = (schema, table))) as [->|Hne].
    + rewrite lookup_insert_eq in Hk. injection Hk as <-. auto.
    + rewrite lookup_insert_ne in Hk by done. congruence.
Qed.

Lemma merge_rows_not_rejected schema table merged w r w' :
  merge_rows store_datetime schema table merged w <> (Rejected r, w').
Proof.
  unfold merge_rows.
  destruct (fetch_existing_keys schema table w); [|done].
  destruct (new_data table _ _); [done|].
  destruct (to_sql store_datetime schema table _ w); done.
Qed.

Lemma check_file_reason schema table f r :
  check_file schema table f = Some r ->
  r <> MissingSchemaOrTable /\ r <> NoFilesUploaded /\ r <> InvalidTable.
Proof.
  unfold check_file. intros H.
  repeat case_match; simplify_eq; done.
Qed.

Lemma validate_files_reason schema table files r :
  validate_files schema table files = Some r ->
  r <> MissingSchemaOrTable /\ r <> NoFilesUploaded /\ r <> InvalidTable.
Proof.
  induction files as [|f files IH]; simpl; [done|].
  destruct (String.eqb (filename f) ""); [done|].
  destruct (check_file schema table (filename f)) as [r0|] eqn:E; [|done].
  intros [= <-]. by apply check_file_reason in E.
Qed.

(** C9 as stated fails: a file name that does not parse is rejected
    after [create_base_table] has run, and the table it created
    stays. *)
Lemma rejection_after_table_creation :
  let res :=
    merge_option_data Store.datetime_of_text (Some "qqq_db")
      (Some "ib_stock_1min") [mkUpload "bad.csv" None] Examples.empty_world in
  res.1 = Rejected (InvalidFilenameFormat "bad.csv")
  /\ tables Examples.empty_world !! ("qqq_db", "ib_stock_1min") = None
  /\ tables res.2 !! ("qqq_db", "ib_stock_1min") = Some (StockTable []).
Proof. by vm_compute. Qed.

(** C9, as the route has it.  A request answered with status 400 has
    had no row processed: every table keeps the rows it had, and a
    table that was not there before is the destination table, newly
    created and empty.  When the reason is a missing field, the lack
    of files or an unknown table, nothing has changed at all; only a
    rejection of a file name comes after [create_base_table]. *)
Theorem rejection_keeps_rows schema table files w r w' :
  merge_option_data store_datetime schema table files w = (Rejected r, w') ->
  (forall k t, tables w !! k = Some t -> tables w' !! k = Some t)
  /\ (forall k t, tables w' !! k = Some t -> tables w !! k = None ->
        (Some k.1 = schema /\ Some k.2 = table)
        /\ (t = StockTable [] \/ t = OptionTable []))
  /\ (r = MissingSchemaOrTable \/ r = NoFilesUploaded \/ r = InvalidTable ->
      w' = w)
  /\ (w' <> w -> exists s t,
        schema = Some s /\ table = Some t
        /\ validate_files s t files = Some r
        /\ w' = (Database.create_base_table s t w).2).
Proof.
  unfold merge_option_data. intros H.
  assert (Hsame : w' = w ->
    (forall k t, tables w !! k = Some t -> tables w' !! k = Some t)
    /\ (forall k t, tables w' !! k = Some t -> tables w !! k = None ->
          (Some k.1 = schema /\ Some k.2 = table)
          /\ (t = StockTable [] \/ t = OptionTable []))
    /\ (r = MissingSchemaOrTable \/ r = NoFilesUploaded \/ r = InvalidTable ->
        w' = w)
    /\ (w' <> w -> exists s t,
          schema = Some s /\ table = Some t
          /\ validate_files s t files = Some r
          /\ w' = (Database.create_base_table s t w).2)).
  { intros ->. split; [done|]. split; [intros; congruence|]. split; done. }
  destruct schema as [ [|c s]|]; simpl in H;
    [injection H as <- <-; by apply Hsame| |injection H as <- <-; by apply Hsame].
  destruct table as [ [|c' t]|]; simpl in H;
    [injection H as <- <-; by apply Hsame| |injection H as <- <-; by apply Hsame].
  destruct (forallb _ files); [injection H as <- <-; by apply Hsame|].
  destruct (bool_decide _); simpl in H; [|injection H as <- <-; by apply Hsame].
  destruct (validate_files (String c s) (String c' t) files) as [r0|] eqn:Ev.
  - injection H as <- <-.
    destruct (create_base_table_effect (String c s) (String c' t) w) as [Hkeep Hnew].
    split; [exact Hkeep|]. split; [|split].
    + intros k x Hk Hnone. destruct (Hnew k x Hk Hnone) as [-> Hx]. done.
    + intros Hr. exfalso. apply validate_files_reason in Ev. tauto.
    + intros _. by exists (String c s), (String c' t).
  - destruct (read_files files); [discriminate|].
    by apply merge_rows_not_rejected in H.
Qed.

End rejection_facts.

Lemma rejection_keeps_rows_witness :
  let res :=
    Merge.merge_option_data Store.datetime_of_text (Some "qqq_db")
      (Some "ib_2w_call_1min") [mkUpload "bad.csv" None]
      Examples.resample_world in
  tables res.2 !! ("qqq_db", "ib_2w_call_1min")
  = Some (OptionTable Examples.option_rows).
Proof.
  intros res.
  destruct (rejection_keeps_rows Store.datetime_of_text (Some "qqq_db")
              (Some "ib_2w_call_1min") [mkUpload "bad.csv" None]
              Examples.resample_world (InvalidFilenameFormat "bad.csv") res.2)
    as [Hkeep _].
  - by vm_compute.
  - apply Hkeep. by vm_compute.
Defined.

(** ** Merging the same batch twice *)

Section repeat_facts.
Import Merge.

Variable store_datetime : string -> option datetime.

Lemma Forall2_elem {A B} (P : A -> B -> Prop) l k x :
  Forall2 P l k -> x ∈ l -> exists y, y ∈ k /\ P x y.
Proof.
  induction 1 as [|a b l k Hab _ IH]; intros Hx; [by apply elem_of_nil in Hx|].
  apply elem_of_cons in Hx as [->|Hx].
  - exists b. split; [apply elem_of_cons; by left|done].
  - destruct (IH Hx) as (y & Hy & HP). exists y.
    split; [apply elem_of_cons; by right|done].
Qed.

(** After a successful [to_sql] the keys read back from the table are
    the earlier ones and those of the rows just stored. *)
Lemma to_sql_keys schema table rows w w1 keys0 :
  to_sql store_datetime schema table rows w = Some w1 ->
  fetch_existing_keys schema table w = Some keys0 ->
  (forall r, r ∈ rows -> canonical store_datetime table r) ->
  exists keys1,
    fetch_existing_keys schema table w1 = Some keys1
    /\ keys0 ⊆ keys1
    /\ forall r, r ∈ rows -> csv_key table r ∈ keys1.
Proof.
  unfold to_sql, fetch_existing_keys. intros Hsql Hfetch Hcan.
  destruct (tables w !! (schema, table)) as [ [old|old]|] eqn:Et; [| |done].
  - (* option-shaped table *)
    destruct (timestamp_keyed table) eqn:Ek; [done|].
    destruct (mapM (stored_option_row store_datetime) rows) as [new|] eqn:Em;
      [|done].
    simpl in Hsql. destruct (decide (NoDup _)); [|done].
    injection Hsql as <-. injection Hfetch as <-.
    unfold set_table. simpl. rewrite lookup_insert_eq.
    eexists. split; [done|]. split.
    + intros k Hk. apply elem_of_list_to_set in Hk.
      apply elem_of_list_to_set. rewrite fmap_app. apply elem_of_app. by left.
    + intros r Hr. apply mapM_Some in Em.
      destruct (Forall2_elem _ _ _ r Em Hr) as (y & Hy & Hst).
      apply elem_of_list_to_set. apply list_elem_of_fmap.
      exists y. split; [|apply elem_of_app; by right].
      destruct (Hcan r Hr) as [Hts Hex]. specialize (Hex Ek).
      unfold stored_option_row, stored_bar in Hst.
      destruct (String.length (csv_ContractType r) <=? 10)%nat; [|done].
      destruct (store_datetime (csv_ExpiryDate r)) as [e|] eqn:Ee; [|done].
      destruct (store_datetime (csv_Timestamp r)) as [t|] eqn:Etm; [|done].
      simpl in Hst. injection Hst as <-.
      unfold csv_key, option_db_key. rewrite Ek. simpl.
      by rewrite (Hts t), (Hex e).
  - (* stock-shaped table *)
    destruct (timestamp_keyed table) eqn:Ek; [|done].
    destruct (mapM (stored_bar store_datetime) rows) as [new|] eqn:Em; [|done].
    simpl in Hsql. destruct (decide (NoDup _)); [|done].
    injection Hsql as <-. injection Hfetch as <-.
    unfold set_table. simpl. rewrite lookup_insert_eq.
    eexists. split; [done|]. split.
    + intros k Hk. apply elem_of_list_to_set in Hk.
      apply elem_of_list_to_set. rewrite !fmap_app. apply elem_of_app. by left.
    + intros r Hr. apply mapM_Some in Em.
      destruct (Forall2_elem _ _ _ r Em Hr) as (y & Hy & Hst).
      apply elem_of_list_to_set. rewrite <- list_fmap_compose.
      apply list_elem_of_fmap.
      exists y. split; [|apply elem_of_app; by right].
      destruct (Hcan r Hr) as [Hts _].
      unfold stored_bar in Hst.
      destruct (store_datetime (csv_Timestamp r)) as [t|] eqn:Etm; [|done].
      simpl in Hst. injection Hst as <-.
      unfold csv_key, stock_db_key. rewrite Ek. simpl.
      by rewrite (Hts t).
Qed.

Lemma new_data_nil table keys (md : list CsvRow) :
  (forall r, r ∈ md -> csv_key table r ∈ keys) -> new_data table keys md = [].
Proof.
  intros H. unfold new_data. induction md as [|r md IH]; [done|].
  rewrite filter_cons_False.
  - apply IH. intros x Hx. apply H. apply elem_of_cons. by right.
  - intros Hn. apply Hn. unfold row_exists. apply bool_decide_pack.
    apply H. apply elem_of_cons. by left.
Qed.

Lemma new_data_nil_inv table keys (md : list CsvRow) r :
  new_data table keys md = [] -> r ∈ md -> csv_key table r ∈ keys.
Proof.
  unfold new_data. intros Hnil Hr.
  destruct (decide (csv_key table r ∈ keys)) as [|Hout]; [done|].
  exfalso. assert (Hin : r ∈ filter (fun r => ¬ row_exists table keys r) md).
  { apply list_elem_of_filter. split; [|done].
    unfold row_exists. intros Hb. by apply bool_decide_unpack in Hb. }
  rewrite Hnil in Hin. by apply elem_of_nil in Hin.
Qed.

(** The table once merged into holds a key for every row of the
    batch that is left after [drop_duplicates]. *)
Lemma merge_rows_keys schema table merged w r1 w1 :
  merge_rows store_datetime schema table merged w = (Merged r1, w1) ->
  (forall r, r ∈ merged -> canonical store_datetime table r) ->
  exists keys1,
    fetch_existing_keys schema table w1 = Some keys1
    /\ forall r, r ∈ drop_duplicates table merged -> csv_key table r ∈ keys1.
Proof.
  unfold merge_rows. intros Hm Hcan.
  destruct (fetch_existing_keys schema table w) as [keys0|] eqn:Ef; [|done].
  destruct (new_data table keys0 (drop_duplicates table merged)) as [|n0 new0] eqn:En.
  - injection Hm as _ <-. exists keys0. split; [done|].
    intros r Hr. by apply (new_data_nil_inv table keys0 _ r En).
  - destruct (to_sql store_datetime schema table (n0 :: new0) w) as [w'|] eqn:Es;
      [|done].
    injection Hm as _ <-.
    assert (Hsub : forall r, r ∈ n0 :: new0 -> r ∈ drop_duplicates table merged).
    { intros r Hr. rewrite <- En in Hr.
      by apply list_elem_of_filter in Hr as [_ ?]. }
    assert (Hmd : forall r, r ∈ drop_duplicates table merged -> r ∈ merged).
    { intros r Hr.
      destruct (drop_duplicates_from_spec table merged ∅) as (_ & H & _).
      by apply H in Hr as [? _]. }
    destruct (to_sql_keys schema table (n0 :: new0) w w' keys0 Es Ef)
      as (keys1 & Hf1 & Hincl & Hnew).
    { intros r Hr. apply Hcan, Hmd, Hsub, Hr. }
    exists keys1. split; [done|].
    intros r Hr.
    destruct (decide (csv_key table r ∈ keys0)) as [Hin|Hout]; [by apply Hincl|].
    apply Hnew. rewrite <- En. apply list_elem_of_filter. split; [|done].
    unfold row_exists. intros Hb. by apply bool_decide_unpack in Hb.
Qed.

Lemma read_files_rows files merged row :
  read_files files = inr merged -> row ∈ merged ->
  exists f rows, f ∈ files /\ content f = Some rows /\ row ∈ rows.
Proof.
  revert merged. induction files as [|f files IH]; intros merged Hr Hrow.
  - injection Hr as <-. by apply elem_of_nil in Hrow.
  - simpl in Hr. destruct (String.eqb (filename f) "").
    + destruct (IH merged Hr Hrow) as (f' & rows & Hf & Hc & Hin).
      exists f', rows. split; [apply elem_of_cons; by right|done].
    + destruct (content f) as [df|] eqn:Ec; [|done].
      destruct (read_files files) as [|rest]; [done|].
      injection Hr as <-. apply elem_of_app in Hrow as [Hrow|Hrow].
      * exists f, df. split; [apply elem_of_cons; by left|done].
      * destruct (IH rest eq_refl Hrow) as (f' & rows & Hf & Hc & Hin).
        exists f', rows. split; [apply elem_of_cons; by right|done].
Qed.

Lemma create_base_table_present schema table w t :
  tables w !! (schema, table) = Some t ->
  Database.create_base_table schema table w = (true, w).
Proof. unfold Database.create_base_table. by intros ->. Qed.

(** C4, as the route has it.  When a batch has been merged, and the
    texts of its rows are such that the key of a CSV row is the key
    of the row the table stores for it, merging the same batch again
    at once inserts nothing, changes nothing, and counts as
    duplicates the rows of the batch less those already taken out as
    duplicates within the batch. *)
Theorem repeat_merge schema table files w r1 w1 :
  merge_option_data store_datetime (Some schema) (Some table) files w
    = (Merged r1, w1) ->
  (forall f rows row, f ∈ files -> content f = Some rows -> row ∈ rows ->
     canonical store_datetime table row) ->
  exists r2,
    merge_option_data store_datetime (Some schema) (Some table) files w1
      = (Merged r2, w1)
    /\ rows_inserted r2 = O
    /\ duplicates_skipped r2 = (total_rows r2 - csv_dupes r2)%nat
    /\ total_rows r2 = total_rows r1
    /\ csv_dupes r2 = csv_dupes r1.
Proof.
  unfold merge_option_data. intros H1 Hcan.
  destruct (truthy (Some schema)) as [s|] eqn:Es; [|done].
  destruct (truthy (Some table)) as [t|] eqn:Et; [|done].
  destruct (forallb _ files); [done|].
  destruct (negb (bool_decide (t ∈ Database.BASE_TABLES))); [done|].
  destruct (validate_files s t files); [done|].
  destruct (read_files files) as [|merged] eqn:Er; [done|].
  assert (table = t) as <-.
  { destruct table; simpl in Et; congruence. }
  assert (Hcan' : forall r, r ∈ merged -> canonical store_datetime table r).
  { intros r Hr. destruct (read_files_rows files merged r Er Hr)
      as (f & rows & Hf & Hc & Hin). by apply (Hcan f rows r). }
  destruct (merge_rows_keys s table merged _ r1 w1 H1 Hcan') as (keys1 & Hf1 & Hall).
  assert (Hpresent : exists tb, tables w1 !! (s, table) = Some tb).
  { unfold fetch_existing_keys in Hf1.
    destruct (tables w1 !! (s, table)); [by eexists|done]. }
  destruct Hpresent as [tb Htb].
  rewrite (create_base_table_present s table w1 tb Htb). simpl.
  unfold merge_rows. rewrite Hf1.
  rewrite (new_data_nil table keys1 _ Hall).
  eexists. split; [done|]. simpl.
  assert (Hlen : (length (drop_duplicates table merged) <= length merged)%nat).
  { destruct (drop_duplicates_from_spec table merged ∅) as (_ & _ & H & _). exact H. }
  assert (Hr1 : total_rows r1 = length merged
                /\ csv_dupes r1
                   = (length merged - length (drop_duplicates table merged))%nat).
  { unfold merge_rows in H1.
    destruct (fetch_existing_keys s table _); [|done].
    destruct (new_data table _ _); [by injection H1 as <- _|].
    destruct (to_sql _ _ _ _ _); [by injection H1 as <- _|done]. }
  destruct Hr1 as [-> ->]. repeat split; lia.
Qed.

End repeat_facts.

(** C4 as stated fails: a timestamp written without seconds is
    stored, but its normalised text is not that of the stored value;
    the second merge takes the row for new and the insert breaks the
    primary key. *)
Lemma repeat_merge_fails_without_seconds :
  let files := [Examples.stock_file [Examples.stock_csv "2026-01-02 09:31"] ] in
  let first :=
    Merge.merge_option_data Store.datetime_of_text (Some "qqq_db")
      (Some "ib_stock_1min") files Examples.empty_world in
  first.1 = Merged (mkMergeResult 1 1 0 0 [])
  /\ (Merge.merge_option_data Store.datetime_of_text (Some "qqq_db")
        (Some "ib_stock_1min") files first.2).1 = Failed DatabaseError.
Proof. by vm_compute. Qed.

Lemma repeat_merge_witness :
  let files :=
    [Examples.stock_file [Examples.stock_csv "2026-01-02 09:31:00";
                          Examples.stock_csv "2026-01-02T09:32:00";
                          Examples.stock_csv "2026-01-02 09:31:00"] ] in
  let first :=
    Merge.merge_option_data Store.datetime_of_text (Some "qqq_db")
      (Some "ib_stock_1min") files Examples.empty_world in
  first.1 = Merged (mkMergeResult 3 2 0 1 [])
  /\ exists r2,
       Merge.merge_option_data Store.datetime_of_text (Some "qqq_db")
         (Some "ib_stock_1min") files first.2 = (Merged r2, first.2)
       /\ rows_inserted r2 = O /\ duplicates_skipped r2 = 2%nat.
Proof.
  intros files first.
  assert (H1 : first.1 = Merged (mkMergeResult 3 2 0 1 [])) by (by vm_compute).
  split; [done|].
  destruct (repeat_merge Store.datetime_of_text "qqq_db" "ib_stock_1min" files
              Examples.empty_world (mkMergeResult 3 2 0 1 []) first.2)
    as (r2 & Hm & Hi & Hd & Ht & Hc).
  - change (first = (Merged (mkMergeResult 3 2 0 1 []), first.2)).
    rewrite <- H1. apply surjective_pairing.
  - intros f rows row Hf Hc Hrow. unfold files in Hf.
    apply list_elem_of_singleton in Hf as ->. injection Hc as <-.
    split; [|done].
    repeat (apply elem_of_cons in Hrow as [->|Hrow]);
      try (apply elem_of_nil in Hrow; destruct Hrow);
      intros t Ht; vm_compute in Ht; injection Ht as <-; by vm_compute.
  - exists r2. split; [done|]. split; [done|].
    rewrite Hd, Ht, Hc. done.
Defined.

(** * Further properties of the code *)

(** ** Rows and their buckets *)

Section bucket_interval_facts.
Import Calendar.

Lemma time_of_day_bucket y m d k :
  time_of_day (DateTime y m d ((570 + k) / 60) ((570 + k) mod 60) 0)
  = (570 + k) * 60.
Proof.
  unfold time_of_day. cbn [dt_hour dt_minute dt_second].
  Z.div_mod_to_equations; lia.
Qed.



End bucket_interval_facts.

(** ** Candles and the rows behind them *)

Section candle_count_facts.
Import Resample.

Lemma group_by_keys {K A} `{EqDecision K} (key : A -> K) (l : list A) :
  fst <$> Agg.group_by key l = remove_dups (key <$> l).
Proof.
  unfold Agg.group_by. rewrite <- list_fmap_compose.
  rewrite <- (list_fmap_id (remove_dups (key <$> l))) at 2.
  by apply list_fmap_ext.
Qed.

Lemma select_option_keys_NoDup tf src :
  NoDup ((fun c => (c_key c, c_ts c)) <$> select_option tf src).
Proof.
  unfold select_option. rewrite merge_sort_Permutation.
  rewrite <- list_fmap_compose.
  rewrite (list_fmap_ext _ fst
             (Agg.group_by (fun x : Contract * option datetime * Bar =>
                              (x.1.1, x.1.2))
                (bucketed tf (base tf src)))).
  - rewrite group_by_keys. apply NoDup_remove_dups.
  - intros i [ [k1 k2] g] _. done.
Qed.

Lemma select_stock_keys_NoDup tf src :
  NoDup (c_ts <$> select_stock tf src).
Proof.
  unfold select_stock. rewrite merge_sort_Permutation.
  rewrite <- list_fmap_compose.
  rewrite (list_fmap_ext _ fst (Agg.group_by fst (bucketed_stock tf src)))
    by done.
  rewrite group_by_keys. apply NoDup_remove_dups.
Qed.

(** X2.  Either statement returns at most one candle per bucket: the
    candle timestamps of the stock result are pairwise distinct, and
    so are the pairs of contract and candle timestamp of the option
    result. *)
Theorem one_candle_per_bucket tf :
  (forall src, NoDup (c_ts <$> select_stock tf src))
  /\ (forall src,
        NoDup ((fun c => (c_key c, c_ts c)) <$> select_option tf src)).
Proof.
  split; intros src;
    [apply select_stock_keys_NoDup|apply select_option_keys_NoDup].
Qed.

Lemma total_Permutation (l k : list Z) :
  l ≡ₚ k -> foldr Z.add 0 l = foldr Z.add 0 k.
Proof. induction 1; simpl; lia. Qed.

Lemma total_add {A} (g h : A -> Z) (l : list A) :
  foldr Z.add 0 ((fun x => g x + h x) <$> l)
  = foldr Z.add 0 (g <$> l) + foldr Z.add 0 (h <$> l).
Proof.
  induction l as [|x l IH]; [done|].
  rewrite !fmap_cons. cbn [foldr]. rewrite IH. lia.
Qed.

Lemma total_indicator {K} `{EqDecision K} (k0 : K) (v : Z) (ks : list K) :
  NoDup ks -> k0 ∈ ks ->
  foldr Z.add 0 ((fun k => if decide (k0 = k) then v else 0) <$> ks) = v.
Proof.
  induction 1 as [|k ks Hk Hnd IH]; intros Hin; [by apply elem_of_nil in Hin|].
  rewrite fmap_cons. cbn [foldr]. destruct (decide (k0 = k)) as [->|Hne].
  - assert (Hz : foldr Z.add 0
                   ((fun k' => if decide (k = k') then v else 0) <$> ks) = 0).
    { clear IH Hin Hnd. induction ks as [|k' ks IH]; [done|].
      rewrite fmap_cons. cbn [foldr].
      destruct (decide (k = k')) as [->|_].
      - exfalso. apply Hk. apply elem_of_cons. by left.
      - rewrite IH; [done|]. intros H'. apply Hk. apply elem_of_cons. by right. }
    rewrite Hz. lia.
  - apply elem_of_cons in Hin as [->|Hin]; [done|]. rewrite IH by done. lia.
Qed.

(** The groups of [GROUP BY] share out the rows: a total taken group
    by group is the total over all rows. *)
Lemma group_total {K A} `{EqDecision K} (key : A -> K) (f : A -> Z)
    (l : list A) :
  foldr Z.add 0 ((fun kg => foldr Z.add 0 (f <$> kg.2)) <$> Agg.group_by key l)
  = foldr Z.add 0 (f <$> l).
Proof.
  unfold Agg.group_by. rewrite <- list_fmap_compose.
  assert (G : forall ks, NoDup ks -> (forall x, x ∈ l -> key x ∈ ks) ->
    foldr Z.add 0
      ((fun k => foldr Z.add 0 (f <$> filter (fun x => key x = k) l)) <$> ks)
    = foldr Z.add 0 (f <$> l)).
  { intros ks Hnd. induction l as [|a l IH]; intros Hall.
    - clear. induction ks as [|k ks IH]; [done|].
      rewrite fmap_cons. cbn [foldr]. rewrite IH. done.
    - rewrite (list_fmap_ext _
        (fun k => (if decide (key a = k) then f a else 0)
                  + foldr Z.add 0 (f <$> filter (fun x => key x = k) l)) ks).
      + rewrite total_add, total_indicator.
        * rewrite fmap_cons. cbn [foldr]. rewrite IH; [done|]. intros x Hx. apply Hall. apply elem_of_cons.
          by right.
        * done.
        * apply Hall. apply elem_of_cons. by left.
      + intros i k _. rewrite filter_cons.
        destruct (decide (key a = k)); [|lia].
        rewrite fmap_cons. cbn [foldr]. lia. }
  apply G.
  - apply NoDup_remove_dups.
  - intros x Hx. apply elem_of_remove_dups. apply list_elem_of_fmap.
    by exists x.
Qed.

(** X3.  Resampling keeps the volume: the volumes of the candles of a
    result add up to the volumes of the eligible rows of the source
    (a missing volume counting as nothing). *)
Theorem volume_conserved tf :
  (forall src : list Bar,
     foldr Z.add 0 ((fun c => default 0 (c_volume c)) <$> select_stock tf src)
     = foldr Z.add 0 ((fun b => default 0 (Volume b))
                      <$> filter (fun b => where_clause b) src))
  /\ (forall src : list OptionRow,
        foldr Z.add 0
          ((fun c => default 0 (c_volume c)) <$> select_option tf src)
        = foldr Z.add 0 ((fun r => default 0 (Volume (bar r)))
                         <$> filter (fun r => where_clause (bar r)) src)).
Proof.
  split; intros src.
  - unfold select_stock.
    rewrite (total_Permutation _ _
               (fmap_Permutation _ _ _ (merge_sort_Permutation _ _))).
    rewrite <- list_fmap_compose.
    rewrite (list_fmap_ext _
               (fun kg : option datetime * list (option datetime * Bar) =>
                  foldr Z.add 0
                    ((fun x : option datetime * Bar => default 0 (Volume x.2))
                     <$> kg.2))
               (Agg.group_by fst (bucketed_stock tf src))).
    + rewrite group_total. unfold bucketed_stock.
      by rewrite <- list_fmap_compose.
    + intros i [k g] _. simpl. rewrite sum_default.
      by rewrite <- !list_fmap_compose.
  - unfold select_option.
    rewrite (total_Permutation _ _
               (fmap_Permutation _ _ _ (merge_sort_Permutation _ _))).
    rewrite <- list_fmap_compose.
    rewrite (list_fmap_ext _
               (fun kg : Contract * option datetime
                         * list (Contract * option datetime * Bar) =>
                  foldr Z.add 0
                    ((fun x : Contract * option datetime * Bar =>
                        default 0 (Volume x.2)) <$> kg.2))
               (Agg.group_by (fun x : Contract * option datetime * Bar =>
                                (x.1.1, x.1.2))
                  (bucketed tf (base tf src)))).
    + rewrite group_total, bucketed_base.
      by rewrite <- list_fmap_compose.
    + intros i [ [k1 k2] g] _. simpl. rewrite sum_default.
      by rewrite <- !list_fmap_compose.
Qed.

End candle_count_facts.

(** ** The two resample routes, request by request *)

Section route_facts.

(** X4.  The blueprint route of [resample.py] never changes the
    database and never reports a result entry: a request that names a
    supported timeframe ends in the [TypeError] of the call of
    [create_resampled_table], before any statement has run. *)
Theorem blueprint_resample_never_writes req w :
  (ApiResample.api_resample req w).2 = w
  /\ (forall e es, (ApiResample.api_resample req w).1 <> Results (e :: es))
  /\ (forall schema src,
        truthy (r_schema req) = Some schema ->
        truthy (r_table req) = Some src ->
        filter (fun n => n ∈ TIMEFRAMES.*1) (r_timeframes req) <> [] ->
        (ApiResample.api_resample req w).1 = Raised TypeError).
Proof.
  unfold ApiResample.api_resample.
  destruct (truthy (r_schema req)) as [schema|]; [|by repeat split].
  destruct (truthy (r_table req)) as [src|]; [|by repeat split].
  destruct (r_timeframes req) as [|n tfs] eqn:Etf; [by repeat split|].
  destruct (filter (fun n => n ∈ TIMEFRAMES.*1) (n :: tfs)) as [|m l] eqn:Ef.
  - rewrite api_loop_skip, Ef. cbn. repeat split; done.
  - rewrite api_loop_raises by (by rewrite Ef). cbn. repeat split; done.
Qed.

Lemma blueprint_resample_never_writes_witness :
  (ApiResample.api_resample Examples.resample_request Examples.resample_world).1
  = Raised TypeError.
Proof.
  destruct (blueprint_resample_never_writes Examples.resample_request
              Examples.resample_world) as (_ & _ & H).
  apply (H "qqq_db" "ib_2w_call_1min"); [reflexivity|reflexivity|].
  vm_compute. discriminate.
Defined.

Lemma app_loop_entries (P : entry -> Prop) schema src tfs :
  (forall n, P (failure n "Failed to create destination table")) ->
  (forall n, P (failure n "Failed to execute resampling")) ->
  (forall n, P (success n (dest_name src n))) ->
  forall res w, Forall P res -> Forall P (App.loop schema src tfs res w).1.
Proof.
  intros H1 H2 H3. induction tfs as [|n tfs IH]; intros res w Hres; [done|].
  simpl. destruct (timeframe_minutes n) as [m|]; [|by apply IH].
  destruct (App.create_dest_table schema _ w) as [ [|] w1].
  - destruct (App.execute_resample schema src _ m w1) as [ [|] w2];
      apply IH; apply Forall_app; split; try done;
      apply Forall_singleton; auto.
  - apply IH. apply Forall_app. split; [done|]. apply Forall_singleton. auto.
Qed.

(** X5.  The route of [app.py] answers a well-formed request with one
    entry for each supported timeframe of the request, in the order of
    the request and with repetitions; an entry either reports success
    and names the destination table, or reports failure with an error
    text and no table. *)
Theorem app_resample_reports schema src tfs w :
  schema <> "" -> src <> "" -> tfs <> [] ->
  exists es w',
    App.api_resample (mkRequest (Some schema) (Some src) tfs) w
      = (Results es, w')
    /\ e_timeframe <$> es = filter (fun n => n ∈ TIMEFRAMES.*1) tfs
    /\ Forall (fun e =>
                 (e_success e = true
                  /\ e_table e = Some (dest_name src (e_timeframe e))
                  /\ e_error e = None)
                 \/ (e_success e = false /\ e_table e = None
                     /\ e_error e <> None)) es.
Proof.
  intros Hs Ht Htf. unfold App.api_resample. cbn [r_schema r_table r_timeframes].
  destruct schema as [|c s]; [done|]. destruct src as [|c' s']; [done|].
  destruct tfs as [|n tfs]; [done|]. cbn [truthy].
  destruct (App.loop (String c s) (String c' s') (n :: tfs) [] w) as [es w'] eqn:E.
  exists es, w'. split; [done|]. split.
  - pose proof (app_loop_reports (String c s) (String c' s') (n :: tfs) [] w) as H.
    rewrite E in H. exact H.
  - assert (H : Forall (fun e =>
                 (e_success e = true
                  /\ e_table e = Some (dest_name (String c' s') (e_timeframe e))
                  /\ e_error e = None)
                 \/ (e_success e = false /\ e_table e = None
                     /\ e_error e <> None))
               (App.loop (String c s) (String c' s') (n :: tfs) [] w).1).
    { apply app_loop_entries.
      - intros m. right. by repeat split.
      - intros m. right. by repeat split.
      - intros m. left. by repeat split.
      - constructor. }
    rewrite E in H. exact H.
Qed.

Lemma app_resample_reports_witness :
  exists es w',
    App.api_resample (mkRequest (Some "qqq_db") (Some "ib_2w_call_1min")
                        ["3min"; "2min"; "5min"]) Examples.resample_world
      = (Results es, w')
    /\ e_timeframe <$> es = ["3min"; "5min"].
Proof.
  destruct (app_resample_reports "qqq_db" "ib_2w_call_1min"
              ["3min"; "2min"; "5min"] Examples.resample_world)
    as (es & w' & H1 & H2 & _); [done|done|done|].
  exists es, w'. split; [exact H1|].
  rewrite H2. by vm_compute.
Defined.

End route_facts.

(** ** Destination names and rebuilding *)

Section rebuild_facts.

Lemma replace_from_absent old new s :
  Text.is_in old s = false -> Text.replace_from old new O s = s.
Proof.
  induction s as [|c r IH]; [done|].
  intros H. change (Text.is_in old (String c r))
    with (Text.startswith old (String c r) || Text.is_in old r) in H.
  apply orb_false_elim in H as [H1 H2].
  change (Text.replace_from old new O (String c r))
    with (if Text.startswith old (String c r)
          then (new ++ Text.replace_from old new
                         (Nat.pred (String.length old)) r)%string
          else String c (Text.replace_from old new O r)).
  rewrite H1. f_equal. by apply IH.
Qed.

Lemma startswith_app p : forall s,
  Text.startswith p s = true -> exists r, s = (p ++ r)%string.
Proof.
  induction p as [|a p IH]; intros s H.
  - by exists s.
  - destruct s as [|b s]; [done|].
    change (Ascii.eqb a b && Text.startswith p s = true) in H.
    apply andb_true_iff in H as [Hab Hs]. apply Ascii.eqb_eq in Hab as ->.
    destruct (IH s Hs) as [r ->]. by exists r.
Qed.

Lemma startswith_1min s :
  Text.startswith "_1min" s = true ->
  exists r, s = String "_" (String "1" (String "m" (String "i" (String "n" r)))).
Proof.
  intros H. destruct (startswith_app _ _ H) as [r ->]. by exists r.
Qed.

Lemma replace_from_present name s :
  name ∈ TIMEFRAMES.*1 ->
  Text.is_in "_1min" s = true ->
  Text.replace_from "_1min" (String "_" name) O s <> s.
Proof.
  intros Hn. induction s as [|c r IH]; [done|].
  intros H. change (Text.is_in "_1min" (String c r))
    with (Text.startswith "_1min" (String c r) || Text.is_in "_1min" r) in H.
  change (Text.replace_from "_1min" (String "_" name) O (String c r))
    with (if Text.startswith "_1min" (String c r)
          then (String "_" name
                ++ Text.replace_from "_1min" (String "_" name) 4 r)%string
          else String c (Text.replace_from "_1min" (String "_" name) O r)).
  destruct (Text.startswith "_1min" (String c r)) eqn:Es.
  - apply startswith_1min in Es as [r' Er]. rewrite Er.
    unfold TIMEFRAMES in Hn. cbn [fmap list_fmap fst] in Hn.
    repeat (apply elem_of_cons in Hn as [->|Hn]);
      [| | | |by apply elem_of_nil in Hn];
      intros Heq; vm_compute in Heq; discriminate Heq.
  - simpl in H. intros [= Heq]. by apply IH.
Qed.

(** The destination of a supported timeframe is the source itself
    exactly when the name of the source has no [_1min] in it. *)
Lemma dest_name_fixed_iff src name :
  name ∈ TIMEFRAMES.*1 ->
  dest_name src name = src <-> Text.is_in "_1min" src = false.
Proof.
  intros Hn. unfold dest_name, Text.replace. split.
  - intros Heq. destruct (Text.is_in "_1min" src) eqn:E; [|done].
    by apply (replace_from_present name src Hn) in E.
  - apply replace_from_absent.
Qed.

(** X6.  The route of [app.py] does not require [_1min] in the name
    of the source table.  Without it the destination of every
    timeframe is the source table itself: the route drops the source,
    creates it anew, resamples the empty table into itself and reports
    success; the rows of the source are gone. *)
Theorem source_without_1min_is_emptied schema src name w :
  schema <> "" -> src <> "" ->
  name ∈ TIMEFRAMES.*1 ->
  Text.is_in "_1min" src = false ->
  (schema, src) ∉ ddl_denied w ->
  App.api_resample (mkRequest (Some schema) (Some src) [name]) w
  = (Results [success name src],
     set_table w (schema, src) (OptionTable [])).
Proof.
  intros Hs Ht Hn Hin Hd. unfold App.api_resample.
  cbn [r_schema r_table r_timeframes].
  destruct schema as [|c s]; [done|]. destruct src as [|c' s']; [done|].
  cbn [truthy].
  pose proof (proj2 (dest_name_fixed_iff (String c' s') name Hn) Hin) as Hdest.
  apply timeframe_minutes_some in Hn as [m Hm].
  cbn [App.loop]. rewrite Hm, Hdest.
  unfold App.create_dest_table. rewrite decide_False by done.
  unfold App.execute_resample, Execute.execute_resample_option.
  cbn [tables set_table]. rewrite lookup_insert_eq.
  assert (Hsel : Resample.select_option m [] = []) by reflexivity.
  assert (Hins : Execute.insert_option [] [] = Some []) by reflexivity.
  rewrite Hsel, Hins. unfold set_table. cbn [tables ddl_denied app].
  by rewrite insert_insert_eq.
Qed.

Lemma source_without_1min_is_emptied_witness :
  let w := mkWorld {[ ("qqq_db", "calls") := OptionTable Examples.option_rows ]} ∅ in
  tables (App.api_resample (mkRequest (Some "qqq_db") (Some "calls") ["5min"]) w).2
    !! ("qqq_db", "calls") = Some (OptionTable []).
Proof.
  intros w.
  rewrite (source_without_1min_is_emptied "qqq_db" "calls" "5min" w);
    [|done|done| | |].
  - cbn [snd tables set_table]. apply lookup_insert_eq.
  - unfold TIMEFRAMES. set_solver.
  - reflexivity.
  - apply not_elem_of_empty.
Defined.

Lemma app_loop_cons schema src n rest res w :
  App.loop schema src (n :: rest) res w =
  match timeframe_minutes n with
  | None => App.loop schema src rest res w
  | Some tf_minutes =>
      let dest_table := dest_name src n in
      match App.create_dest_table schema dest_table w with
      | (false, w1) =>
          App.loop schema src rest
            (res ++ [failure n "Failed to create destination table"]) w1
      | (true, w1) =>
          let '(ok, w2) :=
            App.execute_resample schema src dest_table tf_minutes w1 in
          App.loop schema src rest
            (res ++ [if ok then success n dest_table
                     else failure n "Failed to execute resampling"]) w2
      end
  end.
Proof. reflexivity. Qed.

(** What the loop of [app.py] reports and writes is fixed by the
    source table and by the tables that cannot be created: it reads
    nothing else, and it writes the destinations only. *)
Lemma app_loop_writes (schema src : string) (D : gset (string * string))
    (T : option Table) (tfs : list string) :
  (forall n, n ∈ tfs -> n ∈ TIMEFRAMES.*1 -> dest_name src n <> src) ->
  exists (E : list entry) (m : gmap (string * string) Table),
    m !! (schema, src) = None
    /\ forall res w,
         ddl_denied w = D -> tables w !! (schema, src) = T ->
         App.loop schema src tfs res w = (res ++ E, mkWorld (m ∪ tables w) D).
Proof.
  induction tfs as [|n tfs IH]; intros Hne.
  - exists [], ∅. split; [done|]. intros res [tb dn] HD HT. simpl in *.
    by rewrite app_nil_r, (left_id_L ∅ (∪)), HD.
  - destruct IH as (E' & m' & Hm' & IH).
    { intros x Hx. apply Hne. apply elem_of_cons. by right. }
    destruct (timeframe_minutes n) as [tfm|] eqn:Em.
    2:{ exists E', m'. split; [done|]. intros res w HD HT.
        rewrite app_loop_cons, Em. by apply IH. }
    assert (Hd : dest_name src n <> src).
    { apply Hne; [apply elem_of_cons; by left|].
      apply timeframe_minutes_some. by eexists. }
    assert (Hk : (schema, dest_name src n) <> (schema, src)) by congruence.
    assert (Hstep : forall e X,
      (forall res w, ddl_denied w = D -> tables w !! (schema, src) = T ->
         App.loop schema src (n :: tfs) res w
         = App.loop schema src tfs (res ++ [e])
             (set_table w (schema, dest_name src n) X)) ->
      exists (E : list entry) (m : gmap (string * string) Table),
        m !! (schema, src) = None
        /\ forall res w,
             ddl_denied w = D -> tables w !! (schema, src) = T ->
             App.loop schema src (n :: tfs) res w
             = (res ++ E, mkWorld (m ∪ tables w) D)).
    { intros e X Hl. exists (e :: E'), (m' ∪ {[ (schema, dest_name src n) := X ]}).
      split.
      - apply lookup_union_None. split; [done|]. by apply lookup_singleton_ne.
      - intros res w HD HT. rewrite Hl by done.
        rewrite IH; [| done |].
        + f_equal; [by rewrite <- app_assoc|].
          cbn [tables set_table]. f_equal.
          by rewrite insert_union_singleton_l, (assoc_L (∪)).
        + cbn [tables set_table]. by rewrite lookup_insert_ne. }
    destruct (decide ((schema, dest_name src n) ∈ D)) as [Hden|Hok].
    { exists (failure n "Failed to create destination table" :: E'), m'.
      split; [done|]. intros res w HD HT.
      rewrite app_loop_cons, Em. cbn zeta. unfold App.create_dest_table.
      rewrite HD, decide_True by done.
      rewrite IH by done. by rewrite <- app_assoc. }
    assert (Hexec : forall w, ddl_denied w = D ->
      tables w !! (schema, src) = T ->
      App.create_dest_table schema (dest_name src n) w
      = (true, set_table w (schema, dest_name src n) (OptionTable []))).
    { intros w HD HT. unfold App.create_dest_table.
      by rewrite HD, decide_False by done. }
    destruct T as [ [srows|srows]|].
    + destruct (Execute.insert_option (Resample.select_option tfm srows) [])
        as [rows|] eqn:Ei.
      * apply (Hstep (success n (dest_name src n)) (OptionTable rows)).
        intros res w HD HT. rewrite app_loop_cons, Em. cbn zeta.
        rewrite Hexec by done.
        unfold App.execute_resample, Execute.execute_resample_option.
        cbn [tables set_table].
        rewrite lookup_insert_ne by done. rewrite HT, lookup_insert_eq, Ei.
        unfold set_table. cbn [tables ddl_denied].
        by rewrite insert_insert_eq.
      * apply (Hstep (failure n "Failed to execute resampling") (OptionTable [])).
        intros res w HD HT. rewrite app_loop_cons, Em. cbn zeta.
        rewrite Hexec by done.
        unfold App.execute_resample, Execute.execute_resample_option.
        cbn [tables set_table].
        rewrite lookup_insert_ne by done. by rewrite HT, lookup_insert_eq, Ei.
    + apply (Hstep (failure n "Failed to execute resampling") (OptionTable [])).
      intros res w HD HT. rewrite app_loop_cons, Em. cbn zeta.
      rewrite Hexec by done.
      unfold App.execute_resample, Execute.execute_resample_option.
      cbn [tables set_table].
      rewrite lookup_insert_ne by done. by rewrite HT.
    + apply (Hstep (failure n "Failed to execute resampling") (OptionTable [])).
      intros res w HD HT. rewrite app_loop_cons, Em. cbn zeta.
      rewrite Hexec by done.
      unfold App.execute_resample, Execute.execute_resample_option.
      cbn [tables set_table].
      rewrite lookup_insert_ne by done. by rewrite HT.
Qed.

(** X7.  With [_1min] in the name of the source table, the route of
    [app.py] rebuilds its destinations from the source alone: the
    source table is left as it was, and sending the same request again
    gives the same answer and leaves the database as the first run
    left it. *)
Theorem app_resample_idempotent schema src tfs w resp w1 :
  Text.is_in "_1min" src = true ->
  App.api_resample (mkRequest (Some schema) (Some src) tfs) w = (resp, w1) ->
  App.api_resample (mkRequest (Some schema) (Some src) tfs) w1 = (resp, w1)
  /\ tables w1 !! (schema, src) = tables w !! (schema, src)
  /\ ddl_denied w1 = ddl_denied w.
Proof.
  intros Hin. unfold App.api_resample. cbn [r_schema r_table r_timeframes].
  destruct (truthy (Some schema)) as [s|] eqn:Es;
    [|by intros [= <- <-] ].
  destruct (truthy (Some src)) as [t|] eqn:Et;
    [|by intros [= <- <-] ].
  assert (schema = s) as <- by (destruct schema; simpl in Es; congruence).
  assert (src = t) as <- by (destruct src; simpl in Et; congruence).
  destruct tfs as [|n tfs]; [by intros [= <- <-]|].
  destruct (app_loop_writes schema src (ddl_denied w)
              (tables w !! (schema, src)) (n :: tfs)) as (E & m & Hm & Hl).
  { intros x _ Hx Heq. apply dest_name_fixed_iff in Heq; [congruence|done]. }
  rewrite (Hl [] w) by done. intros [= <- <-].
  assert (Hsrc : (m ∪ tables w) !! (schema, src) = tables w !! (schema, src))
    by (by apply lookup_union_r).
  rewrite (Hl [] (mkWorld (m ∪ tables w) (ddl_denied w))) by done.
  cbn [tables ddl_denied].
  by rewrite (assoc_L (∪)), (idemp_L (∪)).
Qed.

Lemma app_resample_idempotent_witness :
  let req := mkRequest (Some "qqq_db") (Some "ib_2w_call_1min") ["3min"; "5min"] in
  let first := App.api_resample req Examples.resample_world in
  App.api_resample req first.2 = first.
Proof.
  intros req first.
  destruct (app_resample_idempotent "qqq_db" "ib_2w_call_1min" ["3min"; "5min"]
              Examples.resample_world first.1 first.2) as [H _].
  - reflexivity.
  - symmetry. apply surjective_pairing.
  - transitivity (first.1, first.2); [exact H|].
    symmetry. apply surjective_pairing.
Defined.

End rebuild_facts.

(** ** The merge route: what a request leaves behind *)

Section merge_outcome_facts.
Import Merge.

Variable store_datetime : string -> option datetime.

Lemma drop_duplicates_from_snoc table l r : forall seen,
  drop_duplicates_from table seen (l ++ [r])
  = drop_duplicates_from table seen l
    ++ (if decide (subset_values table r ∈ seen
                   \/ subset_values table r ∈ subset_values table <$> l)
        then [] else [r]).
Proof.
  induction l as [|a l IH]; intros seen.
  - simpl. destruct (decide (subset_values table r ∈ seen)) as [Hin|Hout].
    + by rewrite decide_True by (by left).
    + rewrite decide_False; [done|]. intros [H|H]; [done|].
      by apply elem_of_nil in H.
  - simpl. destruct (decide (subset_values table a ∈ seen)) as [Hin|Hout].
    + rewrite IH. f_equal. apply decide_ext. rewrite elem_of_cons. split.
      * intros [H|H]; [by left|right; by right].
      * intros [H|[->|H] ]; [by left|by left|by right].
    + rewrite IH. simpl. do 2 f_equal. apply decide_ext.
      rewrite elem_of_cons, elem_of_union, elem_of_singleton. tauto.
Qed.

Lemma drop_duplicates_from_sublist table l : forall seen,
  sublist (drop_duplicates_from table seen l) l.
Proof.
  induction l as [|a l IH]; intros seen; simpl; [constructor|].
  destruct (decide (subset_values table a ∈ seen)).
  - apply sublist_cons, IH.
  - apply sublist_skip, IH.
Qed.

(** X8.  [drop_duplicates] keeps, in their order, exactly the rows
    whose values in the key columns have not occurred earlier in the
    batch: a row added at the end stays when no earlier row has its
    values, and is dropped otherwise, without any effect on the rows
    before it. *)
Theorem drop_duplicates_keeps_first table l r :
  drop_duplicates table (l ++ [r])
  = drop_duplicates table l
    ++ (if decide (subset_values table r ∈ subset_values table <$> l)
        then [] else [r])
  /\ sublist (drop_duplicates table l) l.
Proof.
  split; [|apply drop_duplicates_from_sublist].
  unfold drop_duplicates. rewrite drop_duplicates_from_snoc. f_equal.
  apply decide_ext. split; [|by right].
  intros [H|H]; [|done]. by apply not_elem_of_empty in H.
Qed.

Lemma mapM_same_length {A B} (f : A -> option B) l k :
  mapM f l = Some k -> length k = length l.
Proof.
  intros H. apply mapM_Some in H. symmetry. by eapply Forall2_length.
Qed.

(** What a successful [to_sql] does to the database. *)
Lemma to_sql_appends schema table rows w w' :
  to_sql store_datetime schema table rows w = Some w' ->
  ddl_denied w' = ddl_denied w
  /\ (forall k, k <> (schema, table) -> tables w' !! k = tables w !! k)
  /\ ((exists old new,
         tables w !! (schema, table) = Some (StockTable old)
         /\ tables w' !! (schema, table) = Some (StockTable (old ++ new))
         /\ length new = length rows)
      \/ (exists old new,
            tables w !! (schema, table) = Some (OptionTable old)
            /\ tables w' !! (schema, table) = Some (OptionTable (old ++ new))
            /\ length new = length rows)).
Proof.
  unfold to_sql. intros H.
  destruct (tables w !! (schema, table)) as [ [old|old]|] eqn:Et; [| |done].
  - destruct (timestamp_keyed table); [done|].
    destruct (mapM (stored_option_row store_datetime) rows) as [new|] eqn:Em;
      [|done].
    simpl in H. destruct (decide (NoDup _)); [|done]. injection H as <-.
    split; [done|]. split.
    + intros k Hk. cbn [tables set_table]. by rewrite lookup_insert_ne.
    + right. exists old, new. split; [done|]. split.
      * cbn [tables set_table]. by rewrite lookup_insert_eq.
      * by apply mapM_same_length in Em.
  - destruct (timestamp_keyed table); [|done].
    destruct (mapM (stored_bar store_datetime) rows) as [new|] eqn:Em; [|done].
    simpl in H. destruct (decide (NoDup _)); [|done]. injection H as <-.
    split; [done|]. split.
    + intros k Hk. cbn [tables set_table]. by rewrite lookup_insert_ne.
    + left. exists old, new. split; [done|]. split.
      * cbn [tables set_table]. by rewrite lookup_insert_eq.
      * by apply mapM_same_length in Em.
Qed.

(** X9.  A merge answered with a result only appends.  The counts of
    the result add up to the rows read from the files; at most 100
    skipped rows are shown; no table other than the destination is
    touched; and the destination holds the rows it had after
    [create_base_table], in place, followed by [rows_inserted] new
    rows. *)
Theorem merge_only_appends schema table files w r w' :
  merge_option_data store_datetime (Some schema) (Some table) files w
    = (Merged r, w') ->
  let w1 := (Database.create_base_table schema table w).2 in
  total_rows r = (rows_inserted r + duplicates_skipped r + csv_dupes r)%nat
  /\ (length (skipped_rows r) <= 100)%nat
  /\ (length (skipped_rows r) <= duplicates_skipped r)%nat
  /\ ddl_denied w' = ddl_denied w
  /\ (forall k, k <> (schema, table) -> tables w' !! k = tables w !! k)
  /\ ((exists old new,
         tables w1 !! (schema, table) = Some (StockTable old)
         /\ tables w' !! (schema, table) = Some (StockTable (old ++ new))
         /\ length new = rows_inserted r)
      \/ (exists old new,
            tables w1 !! (schema, table) = Some (OptionTable old)
            /\ tables w' !! (schema, table) = Some (OptionTable (old ++ new))
            /\ length new = rows_inserted r)).
Proof.
  intros H w1. unfold merge_option_data in H.
  destruct (truthy (Some schema)) as [s|] eqn:Es; [|done].
  destruct (truthy (Some table)) as [t|] eqn:Et; [|done].
  assert (schema = s) as <- by (destruct schema; simpl in Es; congruence).
  assert (table = t) as <- by (destruct table; simpl in Et; congruence).
  destruct (forallb _ files); [done|].
  destruct (negb (bool_decide (table ∈ Database.BASE_TABLES))); [done|].
  destruct (validate_files schema table files); [done|].
  destruct (read_files files) as [|merged] eqn:Er; [done|].
  fold w1 in H.
  assert (Hw1 : ddl_denied w1 = ddl_denied w
                /\ forall k, k <> (schema, table) ->
                     tables w1 !! k = tables w !! k).
  { subst w1. unfold Database.create_base_table.
    destruct (tables w !! (schema, table)); [done|].
    destruct (decide _); [done|].
    destruct (String.eqb table "ib_stock_1min"); simpl; split; try done;
      intros k Hk; by rewrite lookup_insert_ne. }
  destruct Hw1 as [Hden Hother].
  unfold merge_rows in H.
  destruct (fetch_existing_keys schema table w1) as [keys|] eqn:Ef; [|done].
  pose proof (partition_lengths table keys (drop_duplicates table merged)) as Hp.
  destruct (drop_duplicates_from_spec table merged ∅) as (_ & _ & Hlen & _).
  fold (drop_duplicates table merged) in Hlen.
  assert (Htake : (length (take 100
             (duplicate_rows table keys (drop_duplicates table merged))) <= 100)%nat
           /\ (length (take 100
             (duplicate_rows table keys (drop_duplicates table merged)))
               <= length (duplicate_rows table keys (drop_duplicates table merged)))%nat).
  { rewrite length_take. lia. }
  destruct (new_data table keys (drop_duplicates table merged)) as [|n0 new0] eqn:En.
  - injection H as <- <-. cbn [total_rows rows_inserted duplicates_skipped
                                 csv_dupes skipped_rows].
    simpl in Hp.
    split; [lia|]. split; [lia|]. split; [lia|]. split; [done|].
    split; [done|].
    unfold fetch_existing_keys in Ef.
    destruct (tables w1 !! (schema, table)) as [ [old|old]|]; [| |done].
    + right. exists old, []. by rewrite app_nil_r.
    + left. exists old, []. by rewrite app_nil_r.
  - destruct (to_sql store_datetime schema table (n0 :: new0) w1) as [w2|] eqn:Es2;
      [|done].
    injection H as <- <-. cbn [total_rows rows_inserted duplicates_skipped
                                 csv_dupes skipped_rows].
    destruct (to_sql_appends _ _ _ _ _ Es2) as (Hd2 & Ho2 & Hrows).
    cbn [length] in Hp, Hrows |- *.
    split; [lia|]. split; [lia|]. split; [lia|].
    split; [congruence|]. split.
    + intros k Hk. rewrite Ho2 by done. by apply Hother.
    + exact Hrows.
Qed.

(** X10.  A merge answered with status 500 has stored no row: every
    table that was there keeps its rows, the permissions are as
    before, and a table that was not there before is the destination,
    created empty before the failure. *)
Theorem failed_merge_keeps_rows schema table files w e w' :
  merge_option_data store_datetime schema table files w = (Failed e, w') ->
  ddl_denied w' = ddl_denied w
  /\ (forall k t, tables w !! k = Some t -> tables w' !! k = Some t)
  /\ (forall k t, tables w' !! k = Some t -> tables w !! k = None ->
        (Some k.1 = schema /\ Some k.2 = table)
        /\ (t = StockTable [] \/ t = OptionTable [])).
Proof.
  unfold merge_option_data. intros H.
  destruct schema as [ [|c s]|]; simpl in H; [done| |done].
  destruct table as [ [|c' t]|]; simpl in H; [done| |done].
  destruct (forallb _ files); [done|].
  destruct (bool_decide _); simpl in H; [|done].
  destruct (validate_files (String c s) (String c' t) files); [done|].
  assert (Hw : w' = (Database.create_base_table (String c s) (String c' t) w).2).
  { destruct (read_files files); [by injection H as _ <-|].
    unfold merge_rows in H.
    destruct (fetch_existing_keys _ _ _); [|by injection H as _ <-].
    destruct (new_data _ _ _); [done|].
    destruct (to_sql _ _ _ _ _); [done|by injection H as _ <-]. }
  destruct (create_base_table_effect (String c s) (String c' t) w) as [Hkeep Hnew].
  rewrite Hw. split; [|split].
  - unfold Database.create_base_table.
    destruct (tables w !! _); [done|]. destruct (decide _); [done|].
    by destruct (String.eqb _ _).
  - exact Hkeep.
  - intros k x Hk Hnone. destruct (Hnew k x Hk Hnone) as [-> Hx]. done.
Qed.

End merge_outcome_facts.

Lemma merge_only_appends_witness :
  let files := [Examples.stock_file [Examples.stock_csv "2026-01-02 09:31:00";
                                     Examples.stock_csv "2026-01-02 09:32:00";
                                     Examples.stock_csv "2026-01-02 09:31:00"] ] in
  let res := Merge.merge_option_data Store.datetime_of_text (Some "qqq_db")
               (Some "ib_stock_1min") files Examples.empty_world in
  res.1 = Merged (mkMergeResult 3 2 0 1 [])
  /\ forall k, k <> ("qqq_db", "ib_stock_1min") -> tables res.2 !! k = None.
Proof.
  intros files res.
  assert (H1 : res.1 = Merged (mkMergeResult 3 2 0 1 [])) by (by vm_compute).
  split; [exact H1|].
  destruct (merge_only_appends Store.datetime_of_text "qqq_db" "ib_stock_1min"
              files Examples.empty_world (mkMergeResult 3 2 0 1 []) res.2)
    as (_ & _ & _ & _ & H & _).
  - rewrite <- H1. apply surjective_pairing.
  - intros k Hk. rewrite H by done. apply lookup_empty.
Defined.

Lemma failed_merge_keeps_rows_witness :
  let res := Merge.merge_option_data Store.datetime_of_text (Some "qqq_db")
               (Some "ib_2w_call_1min")
               [mkUpload "ib_data_01152026_qqq_call_1min_2026-01-23.csv" None]
               Examples.resample_world in
  res.1 = Failed (ErrorReading "ib_data_01152026_qqq_call_1min_2026-01-23.csv")
  /\ tables res.2 !! ("qqq_db", "ib_2w_call_1min")
     = Some (OptionTable Examples.option_rows).
Proof.
  intros res.
  assert (H1 : res.1 = Failed (ErrorReading
                 "ib_data_01152026_qqq_call_1min_2026-01-23.csv"))
    by (by vm_compute).
  split; [exact H1|].
  destruct (failed_merge_keeps_rows Store.datetime_of_text (Some "qqq_db") (Some "ib_2w_call_1min")
              [mkUpload "ib_data_01152026_qqq_call_1min_2026-01-23.csv" None]
              Examples.resample_world
              (ErrorReading "ib_data_01152026_qqq_call_1min_2026-01-23.csv")
              res.2) as (_ & Hkeep & _).
  - rewrite <- H1. apply surjective_pairing.
  - apply Hkeep. by vm_compute.
Defined.

(** ** VIX files and the VIX table *)

Lemma base_tables_cases table :
  table ∈ Database.BASE_TABLES ->
  table = "ib_2w_call_1min" \/ table = "ib_2w_put_1min"
  \/ table = "ib_stock_1min".
Proof.
  unfold Database.BASE_TABLES. rewrite !elem_of_cons, elem_of_nil. tauto.
Qed.

Section vix_facts.
Import Merge.

Variable store_datetime : string -> option datetime.

Lemma check_file_not_vix_table schema table f r f' :
  table ∈ Database.BASE_TABLES ->
  check_file schema table f = Some r ->
  r <> OptionFileForVixTable f' /\ r <> NotVixFileForVixTable f'.
Proof.
  intros Ht. unfold check_file.
  destruct (Filename.parse_filename f) as [p|]; [|by intros [= <-] ].
  destruct (negb _); [by intros [= <-]|].
  apply base_tables_cases in Ht as [-> | [-> | ->] ]; simpl;
    intros H; repeat case_match; simplify_eq; done.
Qed.

Lemma validate_files_not_vix_table schema table files r f' :
  table ∈ Database.BASE_TABLES ->
  validate_files schema table files = Some r ->
  r <> OptionFileForVixTable f' /\ r <> NotVixFileForVixTable f'.
Proof.
  intros Ht. induction files as [|f files IH]; simpl; [done|].
  destruct (String.eqb (filename f) ""); [done|].
  destruct (check_file schema table (filename f)) as [r0|] eqn:E; [|done].
  intros [= <-]. by apply (check_file_not_vix_table schema table (filename f)).
Qed.

Lemma check_file_vix schema table f p :
  table ∈ Database.BASE_TABLES ->
  Filename.parse_filename f = Some p ->
  p_symbol p = "vix" -> p_type p = "stock" ->
  is_Some (check_file schema table f).
Proof.
  intros Ht Hp Hs Hty. unfold check_file. rewrite Hp, Hs, Hty.
  destruct (negb _); [done|].
  apply base_tables_cases in Ht as [-> | [-> | ->] ]; done.
Qed.

Lemma validate_files_vix schema table files f p :
  table ∈ Database.BASE_TABLES ->
  f ∈ files ->
  Filename.parse_filename (filename f) = Some p ->
  p_symbol p = "vix" -> p_type p = "stock" ->
  is_Some (validate_files schema table files).
Proof.
  intros Ht Hf Hp Hs Hty. induction files as [|a files IH];
    [by apply elem_of_nil in Hf|].
  simpl. apply elem_of_cons in Hf as [<-|Hf].
  - destruct (String.eqb_spec (filename f) "") as [E|_].
    { rewrite E in Hp. discriminate Hp. }
    destruct (check_file_vix schema table (filename f) p Ht Hp Hs Hty) as [r ->].
    done.
  - destruct (String.eqb (filename a) ""); [by apply IH|].
    destruct (check_file schema table (filename a)); [done|by apply IH].
Qed.

(** X11.  [ib_vix_1min] is not among [BASE_TABLES], so the route never
    merges into it: a request for that table is turned down before
    anything is done, and the two answers written for the VIX table
    are never given.  The stock table refuses VIX files and the option
    tables refuse stock files, so a request that holds a VIX stock
    file is always turned down. *)
Theorem vix_is_never_merged schema table files w :
  (forall f,
     (merge_option_data store_datetime schema table files w).1
       <> Rejected (OptionFileForVixTable f)
     /\ (merge_option_data store_datetime schema table files w).1
          <> Rejected (NotVixFileForVixTable f))
  /\ (table = Some "ib_vix_1min" ->
      (merge_option_data store_datetime schema table files w).2 = w
      /\ exists r,
           (merge_option_data store_datetime schema table files w).1
           = Rejected r)
  /\ (forall f p,
        f ∈ files -> Filename.parse_filename (filename f) = Some p ->
        p_symbol p = "vix" -> p_type p = "stock" ->
        exists r,
          (merge_option_data store_datetime schema table files w).1
          = Rejected r).
Proof.
  unfold merge_option_data.
  destruct (truthy schema) as [s|]; [|by (repeat split; eauto)].
  destruct (truthy table) as [t|] eqn:Et; [|by (repeat split; eauto)].
  destruct (forallb _ files); [by (repeat split; eauto)|].
  destruct (bool_decide (t ∈ Database.BASE_TABLES)) eqn:Eb;
    [|by (repeat split; eauto)].
  apply bool_decide_eq_true in Eb. cbn [negb].
  split; [|split].
  - intros f.
    destruct (validate_files s t files) as [r|] eqn:Ev.
    + cbn [fst].
      destruct (validate_files_not_vix_table s t files r f Eb Ev) as [H1 H2].
      split; congruence.
    + destruct (read_files files); [done|].
      split; intros H; eapply merge_rows_not_rejected;
        apply injective_projections; [exact H|reflexivity|exact H|reflexivity].
  - intros ->. simpl in Et. injection Et as <-.
    apply base_tables_cases in Eb as [Eb | [Eb | Eb] ]; discriminate Eb.
  - intros f p Hf Hp Hs Hty.
    destruct (validate_files_vix s t files f p Eb Hf Hp Hs Hty) as [r ->].
    by exists r.
Qed.

End vix_facts.

Lemma vix_is_never_merged_witness :
  (Merge.merge_option_data Store.datetime_of_text (Some "vix_db")
     (Some "ib_stock_1min")
     [mkUpload "ib_data_01202026_vix_1min.csv" (Some [])]
     Examples.empty_world).1
  = Rejected (VixFileForStockTable "ib_data_01202026_vix_1min.csv").
Proof.
  destruct (vix_is_never_merged Store.datetime_of_text (Some "vix_db")
              (Some "ib_stock_1min")
              [mkUpload "ib_data_01202026_vix_1min.csv" (Some [])]
              Examples.empty_world) as (_ & _ & H).
  destruct (H (mkUpload "ib_data_01202026_vix_1min.csv" (Some []))
              (mkParsed "vix" "stock" "1min")) as [r Hr].
  - apply elem_of_cons. by left.
  - by vm_compute.
  - reflexivity.
  - reflexivity.
  - rewrite Hr. vm_compute in Hr. injection Hr as <-. reflexivity.
Defined.

(** ** Keys of stored rows and of the texts that denote them *)

Section stored_key_facts.
Import Merge Calendar.

Lemma digit_mod n : 0 <= n mod 10 <= 9.
Proof. pose proof (Z.mod_pos_bound n 10). lia. Qed.

Lemma is_space_digit_char d : 0 <= d <= 9 -> Text.is_space (Text.digit_char d) = false.
Proof.
  intros Hd. unfold Text.is_space. rewrite code_digit_char by done.
  assert (H : d = 0 \/ d = 1 \/ d = 2 \/ d = 3 \/ d = 4 \/ d = 5 \/ d = 6
              \/ d = 7 \/ d = 8 \/ d = 9) by lia.
  repeat (destruct H as [->|H]; [reflexivity|]). by subst.
Qed.

Lemma contains_cons sep c k :
  Agg.contains sep (String c k) = Ascii.eqb c sep || Agg.contains sep k.
Proof. reflexivity. Qed.

Lemma contains_year_text sep y k :
  Decimal.digit_val sep = None ->
  Agg.contains sep (year_text y k) = Agg.contains sep k.
Proof.
  intros Hd. unfold year_text.
  destruct (y <? 10); [|destruct (y <? 100); [|destruct (y <? 1000)] ].
  - rewrite contains_cons, digit_char_neq; [done|apply digit_mod|done].
  - by apply contains_pad2.
  - rewrite contains_cons, digit_char_neq; [|apply digit_mod|done].
    by apply contains_pad2.
  - by apply contains_pad4.
Qed.

Lemma contains_strftime sep t :
  Decimal.digit_val sep = None ->
  Ascii.eqb "-" sep = false -> Ascii.eqb " " sep = false ->
  Ascii.eqb ":" sep = false ->
  Agg.contains sep (strftime t) = false.
Proof.
  intros Hd H1 H2 H3. unfold strftime.
  rewrite contains_year_text by done. rewrite contains_cons, H1.
  rewrite contains_pad2 by done. rewrite contains_cons, H1.
  rewrite contains_pad2 by done. rewrite contains_cons, H2.
  rewrite contains_pad2 by done. rewrite contains_cons, H3.
  rewrite contains_pad2 by done. rewrite contains_cons, H3.
  rewrite contains_pad2 by done. done.
Qed.

Lemma rstrip_cons_fixed c k :
  Text.rstrip k = k -> k <> "" -> Text.rstrip (String c k) = String c k.
Proof. intros H Hk. simpl. rewrite H. by destruct k. Qed.

Lemma strip_strftime t : Text.strip (strftime t) = strftime t.
Proof.
  unfold Text.strip.
  assert (Hl : Text.lstrip (strftime t) = strftime t).
  { unfold strftime, year_text, Text.pad4, Text.pad2.
    destruct (dt_year t <? 10);
      [|destruct (dt_year t <? 100); [|destruct (dt_year t <? 1000)] ];
      change (Text.lstrip (String ?c ?r))
        with (if Text.is_space c then Text.lstrip r else String c r);
      by rewrite is_space_digit_char by apply digit_mod. }
  rewrite Hl. unfold strftime, year_text, Text.pad4, Text.pad2.
  destruct (dt_year t <? 10);
    [|destruct (dt_year t <? 100); [|destruct (dt_year t <? 1000)] ];
    repeat (apply rstrip_cons_fixed; [|discriminate]);
    simpl; by rewrite is_space_digit_char by apply digit_mod.
Qed.

Lemma replace_char_back sep s :
  sep = " "%char \/ sep = "T"%char ->
  Agg.contains "T" s = false ->
  Text.replace_char "T" " " (Text.replace_char " " sep s) = s.
Proof.
  intros Hsep. induction s as [|c s IH]; [done|].
  rewrite contains_cons. intros H. apply orb_false_elim in H as [Hc Hs].
  change (String
            (if Ascii.eqb (if Ascii.eqb c " " then sep else c) "T"
             then " "%char else (if Ascii.eqb c " " then sep else c))
            (Text.replace_char "T" " " (Text.replace_char " " sep s))
          = String c s).
  rewrite IH by done. f_equal.
  destruct (Ascii.eqb_spec c " ") as [->|Hne].
  - by destruct Hsep as [-> | ->].
  - by rewrite Hc.
Qed.

Lemma replace_char_absent a b s :
  Agg.contains a s = false -> Text.replace_char a b s = s.
Proof.
  induction s as [|c s IH]; [done|].
  rewrite contains_cons. intros H. apply orb_false_elim in H as [Hc Hs].
  change (String (if Ascii.eqb c a then b else c) (Text.replace_char a b s)
          = String c s).
  by rewrite Hc, IH.
Qed.

(** The text of a stored [DATETIME] is its own normal form. *)
Lemma normalize_dt_strftime t :
  normalize_dt (PyStr (strftime t)) = strftime t.
Proof.
  unfold normalize_dt.
  rewrite replace_char_absent by (by apply contains_strftime).
  rewrite (split_head_none "." (strftime t)) by (by apply contains_strftime).
  rewrite (split_head_none "+" (strftime t)) by (by apply contains_strftime).
  apply strip_strftime.
Qed.

(** X12.  For a value [t] that a [DATETIME] column can hold, a
    timestamp written in the file as [strftime] prints [t], with a
    blank or [T] between date and time and with or without a fraction
    of seconds or an offset that starts with a plus sign, has the key
    that [existing_keys] holds for the stored row: such a row of a
    stock file is recognised as already present. *)
Theorem stored_datetime_key t sep x :
  dt_valid t ->
  sep = " "%char \/ sep = "T"%char ->
  let text := Text.replace_char " " sep (strftime t) in
  normalize_dt (PyStr text) = normalize_dt (PyDatetime t)
  /\ normalize_dt (PyStr (text ++ String "." x)) = normalize_dt (PyDatetime t)
  /\ normalize_dt (PyStr (text ++ String "+" x)) = normalize_dt (PyDatetime t)
  /\ forall row (existing_keys : gset Key),
       csv_Timestamp row = text
       \/ csv_Timestamp row = (text ++ String "." x)%string
       \/ csv_Timestamp row = (text ++ String "+" x)%string ->
       stock_db_key t ∈ existing_keys ->
       row_exists "ib_stock_1min" existing_keys row = true.
Proof.
  intros _ Hsep text.
  assert (Hdot : Agg.contains "." text = false).
  { unfold text. rewrite contains_replace_char; [by apply contains_strftime|done|].
    by destruct Hsep as [-> | ->]. }
  assert (Hplus : Agg.contains "+" text = false).
  { unfold text. rewrite contains_replace_char; [by apply contains_strftime|done|].
    by destruct Hsep as [-> | ->]. }
  assert (H0 : normalize_dt (PyStr text) = normalize_dt (PyDatetime t)).
  { rewrite <- (normalize_dt_strftime t) at 1. cbn [normalize_dt].
    unfold text.
    rewrite replace_char_back by (done || by apply contains_strftime).
    by rewrite replace_char_absent by (by apply contains_strftime). }
  assert (H1 : normalize_dt (PyStr (text ++ String "." x))
               = normalize_dt (PyDatetime t))
    by (by rewrite normalize_dt_fraction).
  assert (H2 : normalize_dt (PyStr (text ++ String "+" x))
               = normalize_dt (PyDatetime t))
    by (by rewrite normalize_dt_plus_offset).
  split; [exact H0|]. split; [exact H1|]. split; [exact H2|].
  intros row keys Hrow Hin. unfold row_exists. apply bool_decide_eq_true.
  unfold csv_key. cbn [timestamp_keyed String.eqb orb].
  replace (normalize_dt (PyStr (csv_Timestamp row)))
    with (normalize_dt (PyDatetime t)); [exact Hin|].
  destruct Hrow as [E | [E | E] ]; rewrite E; symmetry; assumption.
Qed.

Lemma stored_datetime_key_witness :
  normalize_dt (PyStr "2026-01-02T09:31:00.000")
  = normalize_dt (PyDatetime (DateTime 2026 1 2 9 31 0)).
Proof.
  destruct (stored_datetime_key (DateTime 2026 1 2 9 31 0) "T" "000")
    as (_ & H & _).
  - vm_compute. repeat split; discriminate.
  - by right.
  - exact H.
Defined.

End stored_key_facts.

(** ** Listing tables *)

Section catalog_facts.
Import Catalog.

Lemma elem_of_show_tables schema w name :
  name ∈ show_tables schema w <-> is_Some (tables w !! (schema, name)).
Proof.
  unfold show_tables. rewrite merge_sort_Permutation, list_elem_of_fmap.
  split.
  - intros (k & -> & Hk). apply list_elem_of_filter in Hk as [Hs Hk].
    apply list_elem_of_fmap in Hk as ([k' v] & -> & Hkv).
    apply elem_of_map_to_list in Hkv. simpl in *. subst schema.
    destruct k' as [a b]. by exists v.
  - intros [v Hv]. exists (schema, name). split; [done|].
    apply list_elem_of_filter. split; [done|].
    apply list_elem_of_fmap. exists (schema, name, v). split; [done|].
    by apply elem_of_map_to_list.
Qed.

Lemma NoDup_show_tables schema w : NoDup (show_tables schema w).
Proof.
  unfold show_tables. rewrite merge_sort_Permutation.
  apply NoDup_fmap_2_strong.
  - intros [a b] [a' b'] Hx Hy Heq.
    apply list_elem_of_filter in Hx as [Hx _].
    apply list_elem_of_filter in Hy as [Hy _]. simpl in *. congruence.
  - apply NoDup_filter, NoDup_fst_map_to_list.
Qed.

Lemma is_in_empty s : Text.is_in "" s = true.
Proof. by destruct s. Qed.

Lemma elem_of_get_tables schema pattern w name :
  name ∈ get_tables schema pattern w <->
  is_Some (tables w !! (schema, name)) /\ Text.is_in pattern name = true.
Proof.
  unfold get_tables. rewrite list_elem_of_filter, elem_of_show_tables.
  rewrite Is_true_true. tauto.
Qed.

(** X13.  [get_tables] lists, each once, exactly the tables of the
    schema whose name contains the pattern; the tables offered as
    sources of a resample are those with [_1min] in their name; and
    [get_base_tables_status] reports each of the [BASE_TABLES], in
    their order and under its own name, as existing exactly when the
    schema has a table of that name. *)
Theorem listing_is_exact schema w :
  (forall pattern,
     NoDup (get_tables schema pattern w)
     /\ forall name,
          name ∈ get_tables schema pattern w <->
          is_Some (tables w !! (schema, name))
          /\ Text.is_in pattern name = true)
  /\ (forall name,
        name ∈ api_get_tables schema w <->
        is_Some (tables w !! (schema, name))
        /\ Text.is_in "_1min" name = true)
  /\ (get_base_tables_status schema w).*1 = Database.BASE_TABLES
  /\ Forall (fun item =>
               st_display item.2 = item.1
               /\ (st_exists item.2 = true <->
                   is_Some (tables w !! (schema, item.1))))
       (get_base_tables_status schema w).
Proof.
  split; [|split; [|split] ].
  - intros pattern. split; [|apply elem_of_get_tables].
    unfold get_tables. apply NoDup_filter, NoDup_show_tables.
  - intros name. apply elem_of_get_tables.
  - reflexivity.
  - unfold get_base_tables_status. apply Forall_fmap, Forall_forall.
    intros [name ty] _. simpl. split; [done|].
    rewrite bool_decide_eq_true, elem_of_get_tables, is_in_empty. tauto.
Qed.

(** X14.  [create_base_table] is [CREATE TABLE IF NOT EXISTS]: when it
    returns [True] the table is listed afterwards; a table that is
    there already is left as it is, rows included; the listing of the
    other tables does not change; a second call changes nothing more;
    and [False] comes only when the table is missing and cannot be
    created, the database being left as it was. *)
Theorem create_base_table_then_listed schema t w :
  ((Database.create_base_table schema t w).1 = true ->
   t ∈ get_tables schema "" (Database.create_base_table schema t w).2)
  /\ (forall tb, tables w !! (schema, t) = Some tb ->
        Database.create_base_table schema t w = (true, w))
  /\ (forall pattern name,
        name <> t ->
        name ∈ get_tables schema pattern
                 (Database.create_base_table schema t w).2
        <-> name ∈ get_tables schema pattern w)
  /\ Database.create_base_table schema t
       (Database.create_base_table schema t w).2
     = Database.create_base_table schema t w
  /\ ((Database.create_base_table schema t w).1 = false ->
      (Database.create_base_table schema t w).2 = w
      /\ tables w !! (schema, t) = None
      /\ (schema, t) ∈ ddl_denied w).
Proof.
  split; [|split; [|split; [|split] ] ].
  - intros Hok. apply elem_of_get_tables. split; [|apply is_in_empty].
    revert Hok. unfold Database.create_base_table.
    destruct (tables w !! (schema, t)) as [tb|] eqn:E;
      [intros _; cbn [snd]; try rewrite E; by eexists|].
    destruct (decide _); [done|].
    destruct (String.eqb t "ib_stock_1min"); intros _; cbn [snd tables set_table];
      by rewrite lookup_insert_eq.
  - intros tb Htb. unfold Database.create_base_table. by rewrite Htb.
  - intros pattern name Hne. rewrite !elem_of_get_tables.
    assert (H : tables (Database.create_base_table schema t w).2 !! (schema, name)
                = tables w !! (schema, name)).
    { unfold Database.create_base_table.
      destruct (tables w !! (schema, t)); [done|].
      destruct (decide _); [done|].
      destruct (String.eqb t "ib_stock_1min"); cbn [snd tables set_table];
        rewrite lookup_insert_ne; congruence. }
    by rewrite H.
  - destruct (tables w !! (schema, t)) as [tb|] eqn:E.
    { assert (Hc : Database.create_base_table schema t w = (true, w))
        by (unfold Database.create_base_table; by rewrite E).
      rewrite Hc. exact Hc. }
    destruct (decide ((schema, t) ∈ ddl_denied w)) as [Hd|Hd].
    { assert (Hc : Database.create_base_table schema t w = (false, w))
        by (unfold Database.create_base_table; by rewrite E, decide_True).
      rewrite Hc. exact Hc. }
    assert (Hc : exists X, Database.create_base_table schema t w
                           = (true, set_table w (schema, t) X)).
    { unfold Database.create_base_table. rewrite E, decide_False by done.
      destruct (String.eqb t "ib_stock_1min"); eauto. }
    destruct Hc as [X Hc]. rewrite Hc. cbn [snd].
    unfold Database.create_base_table at 1. cbn [tables set_table].
    by rewrite lookup_insert_eq.
  - unfold Database.create_base_table.
    destruct (tables w !! (schema, t)); [done|].
    destruct (decide _); [done|].
    by destruct (String.eqb t "ib_stock_1min").
Qed.

Lemma create_base_table_then_listed_witness :
  "ib_stock_1min"
  ∈ get_tables "qqq_db" ""
      (Database.create_base_table "qqq_db" "ib_stock_1min"
         Examples.resample_world).2.
Proof.
  destruct (create_base_table_then_listed "qqq_db" "ib_stock_1min"
              Examples.resample_world) as [H _].
  apply H. by vm_compute.
Defined.

End catalog_facts.

(** ** The merge route of [app.py] *)

Section app_merge_facts.

Variable store_datetime : string -> option datetime.

Lemma truthy_Some x s : truthy x = Some s -> x = Some s.
Proof. destruct x as [ [|c r]|]; simpl; congruence. Qed.

(** X15.  The merge route of [app.py] hands every row left by
    [drop_duplicates] to [to_sql], so it succeeds only when none of
    them is in the table already: in an answer with counts the number
    of duplicates skipped is always zero, the number of rows inserted
    is the size of the batch without its inner duplicates, and no
    stored row of the batch had its key in the table before. *)
Theorem app_merge_never_skips schema table files w r w' :
  AppMerge.merge_option_data store_datetime schema table files w
    = (AppMerged r, w') ->
  a_duplicates_skipped r = 0
  /\ exists merged,
       AppMerge.read_files files = inr merged
       /\ a_total_rows r = Z.of_nat (length merged)
       /\ a_rows_inserted r
          = Z.of_nat (length (AppMerge.drop_duplicates merged))
       /\ forall s t old row o,
            schema = Some s -> table = Some t ->
            tables w !! (s, t) = Some (OptionTable old) ->
            row ∈ AppMerge.drop_duplicates merged ->
            Merge.stored_option_row store_datetime row = Some o ->
            (contract o, Timestamp (bar o))
            ∉ (fun x => (contract x, Timestamp (bar x))) <$> old.
Proof.
  unfold AppMerge.merge_option_data. intros H.
  destruct (truthy schema) as [s|] eqn:Es; [|done].
  destruct (truthy table) as [t|] eqn:Et; [|done].
  apply truthy_Some in Es, Et. subst schema table.
  destruct files as [|f0 files]; [done|].
  destruct (AppMerge.validate_files s t (f0 :: files)); [done|].
  destruct (AppMerge.read_files (f0 :: files)) as [|merged]; [done|].
  destruct (AppMerge.count_rows s t w) as [before|] eqn:Eb; [|done].
  destruct (Merge.to_sql store_datetime s t (AppMerge.drop_duplicates merged) w)
    as [w2|] eqn:Esql; [|done].
  destruct (AppMerge.count_rows s t w2) as [after|] eqn:Ea; [|done].
  injection H as <- <-.
  cbn [a_total_rows a_rows_inserted a_duplicates_skipped].
  assert (Hcount : after - before
                   = Z.of_nat (length (AppMerge.drop_duplicates merged))).
  { destruct (to_sql_appends store_datetime _ _ _ _ _ Esql)
      as (_ & _ & [ (old & new & H1 & H2 & H3) | (old & new & H1 & H2 & H3) ]);
      unfold AppMerge.count_rows in Eb, Ea; rewrite H1 in Eb; rewrite H2 in Ea;
      injection Eb as <-; injection Ea as <-;
      rewrite length_app; lia. }
  split; [lia|]. exists merged. split; [done|]. split; [done|].
  split; [exact Hcount|].
  intros s' t' old row o [= <-] [= <-] Hold Hrow Hst Hin.
  unfold Merge.to_sql in Esql. rewrite Hold in Esql.
  destruct (Merge.timestamp_keyed t); [done|].
  destruct (mapM (Merge.stored_option_row store_datetime)
              (AppMerge.drop_duplicates merged)) as [new|] eqn:Em; [|done].
  simpl in Esql. destruct (decide (NoDup _)) as [Hnd|]; [|done].
  apply mapM_Some in Em.
  destruct (Forall2_elem _ _ _ row Em Hrow) as (o' & Ho' & Hst').
  rewrite Hst in Hst'. injection Hst' as <-.
  rewrite fmap_app in Hnd. apply NoDup_app in Hnd as (_ & Hdisj & _).
  apply (Hdisj _ Hin). apply list_elem_of_fmap. by exists o.
Qed.

End app_merge_facts.

Lemma app_merge_never_skips_witness :
  let row := mkCsvRow 450 "call" "2026-01-16 00:00:00" "2026-01-02 09:33:00"
               (Some 1) (Some 1) (Some 1) (Some 1) (Some 1) in
  let files := [mkUpload "ib_data_01152026_qqq_call_1min_2026-01-23.csv"
                  (Some [row; row]) ] in
  let res := AppMerge.merge_option_data Store.datetime_of_text (Some "qqq_db")
               (Some "ib_2w_call_1min") files Examples.resample_world in
  res.1 = AppMerged (mkAppMergeResult 2 1 0).
Proof.
  intros row files res.
  assert (H : res.1 = AppMerged (mkAppMergeResult 2 1 0)) by (by vm_compute).
  destruct (app_merge_never_skips Store.datetime_of_text (Some "qqq_db")
              (Some "ib_2w_call_1min") files Examples.resample_world
              (mkAppMergeResult 2 1 0) res.2) as [_ _]; [|exact H].
  rewrite <- H. apply surjective_pairing.
Defined.

(** ** File names *)

Section filename_facts.
Import Filename.

Lemma after_last_underscore_tail tail s p :
  after_last_underscore tail s = Some p -> exists r, tail r = Some p.
Proof.
  induction s as [|c r IH]; [done|]. cbn [after_last_underscore].
  destruct (Ascii.eqb c newline).
  - destruct (Ascii.eqb c "_"); [eauto|done].
  - destruct (after_last_underscore tail r) as [p'|];
      [intros [= <-]; by apply IH|].
    destruct (Ascii.eqb c "_"); [eauto|done].
Qed.

Lemma span_Forall f s :
  Forall (fun c => f c = true) (list_ascii_of_string (Text.span f s).1).
Proof.
  induction s as [|c r IH]; [constructor|]. cbn [Text.span].
  destruct (f c) eqn:E; [|constructor].
  destruct (Text.span f r) as [a b]. cbn. by constructor.
Qed.

Lemma tf_group_shape s g rest :
  tf_group s = Some (g, rest) ->
  exists d ds ws,
    g = String d (ds ++ ws ++ "min")%string
    /\ Forall (fun c => is_digit c = true) (list_ascii_of_string (String d ds))
    /\ Forall (fun c => Text.is_space c = true) (list_ascii_of_string ws).
Proof.
  unfold tf_group. pose proof (span_Forall is_digit s) as Hd.
  destruct (Text.span is_digit s) as [ds r1].
  pose proof (span_Forall Text.is_space r1) as Hw.
  destruct (Text.span Text.is_space r1) as [ws r2].
  destruct ds as [|d ds]; [done|].
  destruct (Text.strip_prefix "min" r2); [|done].
  intros [= <- <-]. by exists d, ds, ws.
Qed.

Lemma option_tail_spec r p :
  option_tail r = Some p ->
  p_symbol p <> "" /\ (p_type p = "call" \/ p_type p = "put")
  /\ exists r3 rest, tf_group r3 = Some (p_tf p, rest).
Proof.
  unfold option_tail. destruct (Text.span is_letter r) as [sym r0].
  destruct sym as [|c sym]; [done|].
  destruct (Text.strip_prefix "_" r0) as [r1|]; [|done].
  cbn [mbind option_bind].
  assert (Htr : forall tr,
    match Text.strip_prefix "call" r1 with
    | Some r2 => Some ("call", r2)
    | None => (fun r2 => ("put", r2)) <$> Text.strip_prefix "put" r1
    end = Some tr -> tr.1 = "call" \/ tr.1 = "put").
  { intros tr. destruct (Text.strip_prefix "call" r1); [intros [= <-]; by left|].
    destruct (Text.strip_prefix "put" r1); [intros [= <-]; by right|done]. }
  destruct (match Text.strip_prefix "call" r1 with
            | Some r2 => Some ("call", r2)
            | None => (fun r2 => ("put", r2)) <$> Text.strip_prefix "put" r1
            end) as [tr|]; [|done].
  specialize (Htr tr eq_refl). cbn [mbind option_bind].
  destruct (Text.strip_prefix "_" tr.2) as [r3|]; [|done].
  cbn [mbind option_bind].
  destruct (tf_group r3) as [ [g rest]|] eqn:Eg; [|done].
  cbn [mbind option_bind fst snd].
  destruct (Text.strip_prefix "_" rest) as [r7|]; [|done].
  cbn [mbind option_bind].
  destruct (any_dot_csv_end r7); [|done].
  intros [= <-]. cbn [p_symbol p_type p_tf]. split; [done|]. split; [done|].
  by exists r3, rest.
Qed.

Lemma stock_tail_spec r p :
  stock_tail r = Some p ->
  p_symbol p <> "" /\ exists r3 rest, tf_group r3 = Some (p_tf p, rest).
Proof.
  unfold stock_tail. destruct (Text.span is_letter r) as [sym r0].
  destruct sym as [|c sym]; [done|].
  destruct (Text.strip_prefix "_" r0) as [r1|]; [|done].
  cbn [mbind option_bind].
  destruct (tf_group r1) as [ [g rest]|] eqn:Eg; [|done].
  cbn [mbind option_bind fst snd].
  destruct (dot_csv_end rest); [|done].
  intros [= <-]. cbn [p_symbol p_tf]. split; [done|]. by exists r1, rest.
Qed.

Lemma remove_spaces_app a b :
  remove_spaces (a ++ b)%string = (remove_spaces a ++ remove_spaces b)%string.
Proof.
  induction a as [|c a IH]; [done|].
  change (remove_spaces (String c (a ++ b)%string)
          = (remove_spaces (String c a) ++ remove_spaces b)%string).
  cbn [remove_spaces]. rewrite IH. by destruct (Ascii.eqb c " ").
Qed.

Lemma remove_spaces_digits s :
  Forall (fun c => is_digit c = true) (list_ascii_of_string s) ->
  remove_spaces s = s.
Proof.
  induction s as [|c s IH]; [done|]. cbn [list_ascii_of_string].
  intros H. apply Forall_cons in H as [Hc Hs]. cbn [remove_spaces].
  destruct (Ascii.eqb_spec c " ") as [->|_]; [discriminate Hc|].
  by rewrite IH.
Qed.

Lemma remove_spaces_spaces s :
  Forall (fun c => Text.is_space c = true) (list_ascii_of_string s) ->
  Forall (fun c => Text.is_space c = true)
    (list_ascii_of_string (remove_spaces s)).
Proof.
  induction s as [|c s IH]; [done|]. cbn [list_ascii_of_string remove_spaces].
  intros H. apply Forall_cons in H as [Hc Hs].
  destruct (Ascii.eqb c " "); [by apply IH|].
  cbn [list_ascii_of_string]. constructor; [done|by apply IH].
Qed.

Lemma contains_remove_spaces s : Agg.contains " " (remove_spaces s) = false.
Proof.
  induction s as [|c s IH]; [done|]. cbn [remove_spaces].
  destruct (Ascii.eqb c " ") eqn:E; [done|].
  cbn [Agg.contains]. by rewrite E, IH.
Qed.

Lemma remove_spaces_tf d ds ws :
  Forall (fun c => is_digit c = true) (list_ascii_of_string (String d ds)) ->
  remove_spaces (String d (ds ++ ws ++ "min")%string)
  = String d (ds ++ remove_spaces ws ++ "min")%string.
Proof.
  intros H.
  change (String d (ds ++ ws ++ "min")%string)
    with (String d ds ++ (ws ++ "min"))%string.
  rewrite !remove_spaces_app, remove_spaces_digits by done. done.
Qed.

Lemma lower_char_idemp c : Text.lower_char (Text.lower_char c) = Text.lower_char c.
Proof. destruct c as [ [] [] [] [] [] [] [] [] ]; reflexivity. Qed.

Lemma lower_idemp s : Text.lower (Text.lower s) = Text.lower s.
Proof.
  induction s as [|c s IH]; [done|]. cbn [Text.lower].
  by rewrite lower_char_idemp, IH.
Qed.

(** What [parse_filename] returns. *)
Lemma parse_filename_shape f p :
  parse_filename f = Some p ->
  p_symbol p <> ""
  /\ (p_type p = "call" \/ p_type p = "put" \/ p_type p = "stock")
  /\ exists d ds ws,
       p_tf p = String d (ds ++ ws ++ "min")%string
       /\ Forall (fun c => is_digit c = true) (list_ascii_of_string (String d ds))
       /\ Forall (fun c => Text.is_space c = true) (list_ascii_of_string ws)
       /\ Agg.contains " " ws = false.
Proof.
  unfold parse_filename.
  destruct (after_last_underscore option_tail (Text.lower f)) as [q|] eqn:Eo.
  - intros [= <-]. cbn [p_symbol p_type p_tf].
    apply after_last_underscore_tail in Eo as [r Hr].
    apply option_tail_spec in Hr as (Hs & Ht & r3 & rest & Hg).
    apply tf_group_shape in Hg as (d & ds & ws & -> & Hd & Hw).
    split; [done|]. split; [tauto|].
    exists d, ds, (remove_spaces ws). rewrite remove_spaces_tf by done.
    split; [done|]. split; [done|]. split; [by apply remove_spaces_spaces|].
    apply contains_remove_spaces.
  - destruct (after_last_underscore stock_tail (Text.lower f)) as [q|] eqn:Es;
      [|done].
    intros [= <-]. cbn [p_symbol p_type p_tf].
    apply after_last_underscore_tail in Es as [r Hr].
    apply stock_tail_spec in Hr as (Hs & r3 & rest & Hg).
    apply tf_group_shape in Hg as (d & ds & ws & -> & Hd & Hw).
    split; [done|]. split; [tauto|].
    exists d, ds, (remove_spaces ws). rewrite remove_spaces_tf by done.
    split; [done|]. split; [done|]. split; [by apply remove_spaces_spaces|].
    apply contains_remove_spaces.
Qed.

(** X16.  [parse_filename] reads a name without regard to case, and
    what it returns is a symbol that is not empty, one of the types
    [call], [put] and [stock], and a timeframe made of one or more
    digits, then possibly whitespace other than blanks, then [min]: no
    blank is left in it, while a tab between the number and [min]
    stays. *)
Theorem parse_filename_result f p :
  parse_filename f = Some p ->
  parse_filename (Text.lower f) = Some p
  /\ p_symbol p <> ""
  /\ (p_type p = "call" \/ p_type p = "put" \/ p_type p = "stock")
  /\ Agg.contains " " (p_tf p) = false
  /\ exists d ds ws,
       p_tf p = String d (ds ++ ws ++ "min")%string
       /\ Forall (fun c => is_digit c = true) (list_ascii_of_string (String d ds))
       /\ Forall (fun c => Text.is_space c = true) (list_ascii_of_string ws).
Proof.
  intros H. split.
  { unfold parse_filename in *. by rewrite lower_idemp. }
  destruct (parse_filename_shape f p H) as (Hs & Ht & d & ds & ws & Htf & Hd & Hw & Hb).
  split; [done|]. split; [done|]. split.
  - rewrite Htf. clear -Hd Hb.
    change (String d (ds ++ ws ++ "min")%string)
      with (String d ds ++ (ws ++ "min"))%string.
    rewrite !contains_app, Hb.
    assert (Hds : forall s,
      Forall (fun c => is_digit c = true) (list_ascii_of_string s) ->
      Agg.contains " " s = false).
    { clear. induction s as [|c s IH]; [done|]. cbn [list_ascii_of_string].
      intros H. apply Forall_cons in H as [Hc Hs]. cbn [Agg.contains].
      rewrite IH by done.
      destruct (Ascii.eqb_spec c " ") as [->|_]; [discriminate Hc|done]. }
    by rewrite Hds.
  - by exists d, ds, ws.
Qed.

Lemma parse_filename_result_witness :
  parse_filename "IB_DATA_01202026_QQQ_1 MIN.csv"
  = Some (mkParsed "qqq" "stock" "1min")
  /\ parse_filename (Text.lower "IB_DATA_01202026_QQQ_1 MIN.csv")
     = Some (mkParsed "qqq" "stock" "1min").
Proof.
  assert (H : parse_filename "IB_DATA_01202026_QQQ_1 MIN.csv"
              = Some (mkParsed "qqq" "stock" "1min")) by (by vm_compute).
  split; [exact H|].
  destruct (parse_filename_result _ _ H) as [H' _]. exact H'.
Defined.

End filename_facts.

(** ** Files that a merge accepts *)

Section accepted_files_facts.
Import Filename Merge.

Variable store_datetime : string -> option datetime.

Lemma is_digit_cases d :
  is_digit d = true ->
  d = "0"%char \/ d = "1"%char \/ d = "2"%char \/ d = "3"%char \/ d = "4"%char
  \/ d = "5"%char \/ d = "6"%char \/ d = "7"%char \/ d = "8"%char
  \/ d = "9"%char.
Proof.
  destruct d as [ [] [] [] [] [] [] [] [] ]; intros H;
    try discriminate H; tauto.
Qed.

Lemma digit_or_space_other c :
  is_digit c = true \/ Text.is_space c = true ->
  Ascii.eqb c "m" = false /\ Ascii.eqb c "w" = false.
Proof.
  destruct c as [ [] [] [] [] [] [] [] [] ];
    try (split; reflexivity); intros [H|H]; discriminate H.
Qed.

Lemma startswith_cons c rest c' s :
  Text.startswith (String c rest) (String c' s)
  = Ascii.eqb c c' && Text.startswith rest s.
Proof. reflexivity. Qed.

(** The rest of a timeframe after its first digit, set against a text
    that starts with [m] or with [w]. *)
Lemma tf_rest_startswith ds ws s :
  Forall (fun c => is_digit c = true) (list_ascii_of_string ds) ->
  Forall (fun c => Text.is_space c = true) (list_ascii_of_string ws) ->
  Text.startswith (ds ++ ws ++ "min")%string (String "w" s) = false
  /\ (Text.startswith (ds ++ ws ++ "min")%string (String "m" s) = true ->
      ds = "" /\ ws = "").
Proof.
  intros Hd Hw. destruct ds as [|d ds].
  - destruct ws as [|c ws]; [by split|].
    cbn [list_ascii_of_string] in Hw. apply Forall_cons in Hw as [Hc _].
    destruct (digit_or_space_other c (or_intror Hc)) as [Hm Hww].
    change (("" ++ String c ws ++ "min")%string)
      with (String c (ws ++ "min")%string).
    rewrite !startswith_cons, Hm, Hww. by split.
  - cbn [list_ascii_of_string] in Hd. apply Forall_cons in Hd as [Hc _].
    destruct (digit_or_space_other d (or_introl Hc)) as [Hm Hww].
    change ((String d ds ++ ws ++ "min")%string)
      with (String d (ds ++ ws ++ "min")%string).
    rewrite !startswith_cons, Hm, Hww. by split.
Qed.

(** A timeframe found in the name of one of the two option tables is
    [1min]. *)
Lemma tf_in_option_table table d ds ws :
  table = "ib_2w_call_1min" \/ table = "ib_2w_put_1min" ->
  Forall (fun c => is_digit c = true) (list_ascii_of_string (String d ds)) ->
  Forall (fun c => Text.is_space c = true) (list_ascii_of_string ws) ->
  Text.is_in (String d (ds ++ ws ++ "min")%string) table = true ->
  String d (ds ++ ws ++ "min")%string = "1min".
Proof.
  intros Ht Hd Hw. cbn [list_ascii_of_string] in Hd.
  apply Forall_cons in Hd as [Hd0 Hd].
  pose proof (fun s => proj1 (tf_rest_startswith ds ws s Hd Hw)) as Hww.
  pose proof (fun s => proj2 (tf_rest_startswith ds ws s Hd Hw)) as Hmm.
  remember (ds ++ ws ++ "min")%string as rest eqn:Erest.
  apply is_digit_cases in Hd0.
  destruct Ht as [-> | ->];
    repeat (destruct Hd0 as [->|Hd0]); try subst d;
    cbn [Text.is_in]; rewrite !startswith_cons; cbn [Ascii.eqb Bool.eqb andb orb];
    rewrite ?Hww; cbn [orb]; rewrite ?orb_false_r;
    try discriminate;
    intros H; destruct (Hmm _ H) as [-> ->]; by subst rest.
Qed.

Lemma validate_files_None schema table files f :
  validate_files schema table files = None ->
  f ∈ files -> filename f <> "" ->
  check_file schema table (filename f) = None.
Proof.
  induction files as [|a files IH]; intros Hv Hf Hne;
    [by apply elem_of_nil in Hf|].
  cbn [validate_files] in Hv. apply elem_of_cons in Hf as [<-|Hf].
  - destruct (String.eqb_spec (filename f) "") as [E|_]; [done|].
    by destruct (check_file schema table (filename f)).
  - destruct (String.eqb (filename a) ""); [by apply IH|].
    destruct (check_file schema table (filename a)); [done|by apply IH].
Qed.

(** X17.  When a merge has gone through, every named file of the
    request has a name that parses, with a symbol that the schema
    name starts with (followed by an underscore).  For the stock table
    it is a stock file of a symbol other than [vix], whatever its
    timeframe; for an option table it is a file of the type in the
    table's name and of the timeframe [1min]. *)
Theorem accepted_files_match_table schema table files w r w' :
  merge_option_data store_datetime (Some schema) (Some table) files w
    = (Merged r, w') ->
  forall f, f ∈ files -> filename f <> "" ->
  exists p,
    parse_filename (filename f) = Some p
    /\ Text.startswith (p_symbol p ++ "_")%string (Text.lower schema) = true
    /\ ((table = "ib_stock_1min" /\ p_type p = "stock" /\ p_symbol p <> "vix")
        \/ (table = "ib_2w_call_1min" /\ p_type p = "call" /\ p_tf p = "1min")
        \/ (table = "ib_2w_put_1min" /\ p_type p = "put" /\ p_tf p = "1min")).
Proof.
  unfold merge_option_data. intros H f Hf Hne.
  destruct (truthy (Some schema)) as [s|] eqn:Es; [|done].
  destruct (truthy (Some table)) as [t|] eqn:Et; [|done].
  apply truthy_Some in Es, Et. injection Es as <-. injection Et as <-.
  destruct (forallb _ files); [done|].
  destruct (bool_decide (table ∈ Database.BASE_TABLES)) eqn:Eb; [|done].
  apply bool_decide_eq_true in Eb. cbn [negb] in H.
  destruct (validate_files schema table files) eqn:Ev; [done|].
  clear H. pose proof (validate_files_None _ _ _ f Ev Hf Hne) as Hc.
  unfold check_file in Hc.
  destruct (parse_filename (filename f)) as [p|] eqn:Ep; [|done].
  exists p. split; [done|].
  destruct (Text.startswith (p_symbol p ++ "_") (Text.lower schema)); [|done].
  split; [done|]. cbn [negb] in Hc.
  destruct (parse_filename_shape _ _ Ep)
    as (_ & Hty & d & ds & ws & Htf & Hd & Hw & _).
  apply base_tables_cases in Eb as [-> | [-> | ->] ].
  - right. left. split; [done|].
    change (String.eqb "ib_2w_call_1min" "ib_stock_1min") with false in Hc.
    change (String.eqb "ib_2w_call_1min" "ib_vix_1min") with false in Hc.
    change (Text.lower "ib_2w_call_1min") with "ib_2w_call_1min" in Hc.
    cbv iota in Hc.
    destruct Hty as [Hty | [Hty | Hty] ]; rewrite Hty in Hc;
      [|discriminate Hc|discriminate Hc].
    split; [done|].
    destruct (Text.is_in (p_tf p) "ib_2w_call_1min") eqn:Ein;
      [|by destruct (Text.is_in "call" "ib_2w_call_1min")].
    rewrite Htf in Ein |- *.
    apply (tf_in_option_table "ib_2w_call_1min" d ds ws);
      [by left|exact Hd|exact Hw|exact Ein].
  - right. right. split; [done|].
    change (String.eqb "ib_2w_put_1min" "ib_stock_1min") with false in Hc.
    change (String.eqb "ib_2w_put_1min" "ib_vix_1min") with false in Hc.
    change (Text.lower "ib_2w_put_1min") with "ib_2w_put_1min" in Hc.
    cbv iota in Hc.
    destruct Hty as [Hty | [Hty | Hty] ]; rewrite Hty in Hc;
      [discriminate Hc| |discriminate Hc].
    split; [done|].
    destruct (Text.is_in (p_tf p) "ib_2w_put_1min") eqn:Ein;
      [|by destruct (Text.is_in "put" "ib_2w_put_1min")].
    rewrite Htf in Ein |- *.
    apply (tf_in_option_table "ib_2w_put_1min" d ds ws);
      [by right|exact Hd|exact Hw|exact Ein].
  - left. split; [done|].
    change (String.eqb "ib_stock_1min" "ib_stock_1min") with true in Hc.
    cbv iota in Hc.
    destruct (String.eqb_spec (p_type p) "stock") as [Hst|]; [|done].
    split; [done|]. cbn [negb] in Hc.
    by destruct (String.eqb_spec (p_symbol p) "vix").
Qed.

End accepted_files_facts.

Lemma accepted_files_match_table_witness :
  let file := Examples.stock_file [Examples.stock_csv "2026-01-02 09:31:00"] in
  let res := Merge.merge_option_data Store.datetime_of_text (Some "qqq_db")
               (Some "ib_stock_1min") [file] Examples.empty_world in
  res.1 = Merged (mkMergeResult 1 1 0 0 [])
  /\ exists p, Filename.parse_filename (filename file) = Some p
               /\ p_type p = "stock".
Proof.
  intros file res.
  assert (H1 : res.1 = Merged (mkMergeResult 1 1 0 0 [])) by (by vm_compute).
  split; [exact H1|].
  destruct (accepted_files_match_table Store.datetime_of_text "qqq_db"
              "ib_stock_1min" [file] Examples.empty_world
              (mkMergeResult 1 1 0 0 []) res.2) with (f := file)
    as (p & Hp & _ & Hcase).
  - rewrite <- H1. apply surjective_pairing.
  - apply elem_of_cons. by left.
  - discriminate.
  - exists p. split; [exact Hp|].
    destruct Hcase as [ (_ & H & _) | [ (E & _) | (E & _) ] ];
      [exact H|discriminate E|discriminate E].
Defined.

(** ** Resampling into a table just created *)

Section fresh_table_facts.
Import Calendar Resample.

Lemma select_option_ts name tf src c :
  (name, tf) ∈ TIMEFRAMES -> c ∈ select_option tf src -> is_Some (c_ts c).
Proof.
  intros Htf Hc. apply elem_of_select_option in Hc as (r & Hr & Hw & Hc).
  cbv zeta in Hc. subst c. cbn [c_ts option_candle fst snd].
  apply where_clause_spec in Hw as [Hs _].
  rewrite candle_ts_in_session; [by eexists|by eapply timeframes_cases|done].
Qed.

Lemma stored_candle_keys (cs : list (Candle Contract)) (out : list OptionRow) :
  Forall2 (fun c r => contract r = c_key c
                      /\ c_ts c = Some (Timestamp (bar r))) cs out ->
  (fun k : Contract * datetime => (k.1, Some k.2))
  <$> ((fun r => (contract r, Timestamp (bar r))) <$> out)
  = (fun c => (c_key c, c_ts c)) <$> cs.
Proof.
  induction 1 as [|c r cs out [H1 H2] _ IH]; [done|].
  rewrite !fmap_cons, IH. cbn [fst snd]. by rewrite H1, H2.
Qed.

(** X18.  After [create_dest_table] the resample statement cannot
    fail on the primary key.  For a supported timeframe, an option
    table as source, a destination other than the source that may be
    created, and candle volumes within [BIGINT], [execute_resample]
    returns [True] and the destination holds one row for each candle
    of the statement, in its order and with its values. *)
Theorem resample_into_fresh_table schema src dest name tf rows w :
  (name, tf) ∈ TIMEFRAMES ->
  dest <> src ->
  tables w !! (schema, src) = Some (OptionTable rows) ->
  (schema, dest) ∉ ddl_denied w ->
  (forall c, c ∈ select_option tf rows ->
             Execute.bigint_ok (c_volume c) = true) ->
  exists out,
    App.execute_resample schema src dest tf
      (App.create_dest_table schema dest w).2
    = (true, set_table w (schema, dest) (OptionTable out))
    /\ Forall2 (fun c r =>
                  contract r = c_key c
                  /\ c_ts c = Some (Timestamp (bar r))
                  /\ Open (bar r) = c_open c /\ Close (bar r) = c_close c
                  /\ High (bar r) = c_high c /\ Low (bar r) = c_low c
                  /\ Volume (bar r) = c_volume c)
         (select_option tf rows) out.
Proof.
  intros Htf Hne Hsrc Hden Hvol.
  set (store := fun c : Candle Contract =>
                  mkOptionRow (c_key c) <$> Execute.candle_bar c).
  assert (Hall : Forall (is_Some ∘ store) (select_option tf rows)).
  { apply Forall_forall. intros c Hc.
    destruct (select_option_ts name tf rows c Htf Hc) as [t Ht].
    unfold store, Execute.candle_bar. cbn [compose].
    rewrite Ht, (Hvol c Hc). by eexists. }
  apply mapM_is_Some in Hall as [out Hout].
  pose proof (proj1 (mapM_Some _ _ _) Hout) as Hrel.
  assert (Hrel' : Forall2 (fun c r =>
                  contract r = c_key c
                  /\ c_ts c = Some (Timestamp (bar r))
                  /\ Open (bar r) = c_open c /\ Close (bar r) = c_close c
                  /\ High (bar r) = c_high c /\ Low (bar r) = c_low c
                  /\ Volume (bar r) = c_volume c)
         (select_option tf rows) out).
  { eapply Forall2_impl; [exact Hrel|]. intros c r. unfold store,
      Execute.candle_bar.
    destruct (c_ts c) as [t|]; [|done].
    destruct (Execute.bigint_ok (c_volume c)); [|done].
    intros [= <-]. by cbn. }
  assert (Hnd : NoDup ((fun r => (contract r, Timestamp (bar r))) <$> out)).
  { apply (NoDup_fmap_1 (fun k : Contract * datetime => (k.1, Some k.2))).
    rewrite (stored_candle_keys (select_option tf rows) out).
    - apply select_option_keys_NoDup.
    - eapply Forall2_impl; [exact Hrel'|]. intros c r (H1 & H2 & _).
      by split. }
  exists out. split; [|exact Hrel'].
  unfold App.create_dest_table. rewrite decide_False by done. cbn [snd].
  unfold App.execute_resample, Execute.execute_resample_option.
  cbn [tables set_table].
  rewrite lookup_insert_ne by congruence.
  rewrite Hsrc, lookup_insert_eq.
  unfold Execute.insert_option. fold store. rewrite Hout.
  cbn [mbind option_bind app]. rewrite decide_True by done.
  unfold set_table. cbn [tables ddl_denied]. by rewrite insert_insert_eq.
Qed.

Lemma resample_into_fresh_table_witness :
  exists out,
    App.execute_resample "qqq_db" "ib_2w_call_1min" "ib_2w_call_5min" 5
      (App.create_dest_table "qqq_db" "ib_2w_call_5min"
         Examples.resample_world).2
    = (true, set_table Examples.resample_world ("qqq_db", "ib_2w_call_5min")
               (OptionTable out))
    /\ length out = 1%nat.
Proof.
  destruct (resample_into_fresh_table "qqq_db" "ib_2w_call_1min"
              "ib_2w_call_5min" "5min" 5 Examples.option_rows
              Examples.resample_world) as (out & H1 & H2).
  - unfold TIMEFRAMES. set_solver.
  - discriminate.
  - reflexivity.
  - by vm_compute.
  - intros c Hc.
    assert (Hs : length (select_option 5 Examples.option_rows) = 1%nat)
      by (by vm_compute).
    destruct (select_option 5 Examples.option_rows) as [|c0 [|c1 l] ] eqn:E;
      [done| |done].
    apply list_elem_of_singleton in Hc as ->.
    assert (Hv : c_volume <$> select_option 5 Examples.option_rows
                 = [Some 23]) by (by vm_compute).
    rewrite E in Hv. injection Hv as ->. reflexivity.
  - exists out. split; [exact H1|].
    apply Forall2_length in H2. rewrite <- H2. by vm_compute.
Defined.

End fresh_table_facts.

(** ** How many candles *)

Section candle_number_facts.
Import Resample.

Lemma remove_dups_length {A} `{EqDecision A} (l : list A) :
  (length (remove_dups l) <= length l)%nat.
Proof.
  induction l as [|x l IH]; [done|]. cbn [remove_dups length].
  destruct (decide_rel elem_of x l); cbn [length]; lia.
Qed.

Lemma remove_dups_nil {A} `{EqDecision A} (l : list A) :
  remove_dups l = [] <-> l = [].
Proof.
  split; [|by intros ->]. destruct l as [|x l]; [done|]. intros H.
  assert (Hx : x ∈ remove_dups (x :: l))
    by (apply elem_of_remove_dups, elem_of_cons; by left).
  rewrite H in Hx. by apply elem_of_nil in Hx.
Qed.

Lemma fmap_nil_iff {A B} (f : A -> B) (l : list A) :
  f <$> l = [] <-> l = [].
Proof. split; [apply fmap_nil_inv|by intros ->]. Qed.

Lemma group_by_length {K A} `{EqDecision K} (key : A -> K) (l : list A) :
  (length (Agg.group_by key l) <= length l)%nat
  /\ (Agg.group_by key l = [] <-> l = []).
Proof.
  unfold Agg.group_by. split.
  - rewrite length_fmap. etransitivity; [apply remove_dups_length|].
    by rewrite length_fmap.
  - rewrite fmap_nil_iff, remove_dups_nil, fmap_nil_iff. done.
Qed.

Lemma merge_sort_nil {A} (R : relation A) `{!RelDecision R} (l : list A) :
  merge_sort R l = [] <-> l = [].
Proof.
  split; [|by intros ->]. intros H.
  apply Permutation_nil_r. rewrite <- H. symmetry. apply merge_sort_Permutation.
Qed.

(** X19.  A resample never returns more candles than the source has
    eligible rows, and it returns none exactly when no row of the
    source is eligible; an empty source gives an empty result. *)
Theorem candles_bounded_by_rows tf :
  (forall src : list Bar,
     (length (select_stock tf src)
      <= length (filter (fun b => where_clause b) src))%nat
     /\ (select_stock tf src = []
         <-> filter (fun b => where_clause b) src = []))
  /\ (forall src : list OptionRow,
        (length (select_option tf src)
         <= length (filter (fun r => where_clause (bar r)) src))%nat
        /\ (select_option tf src = []
            <-> filter (fun r => where_clause (bar r)) src = [])).
Proof.
  split; intros src.
  - unfold select_stock.
    destruct (group_by_length (fst : option datetime * Bar -> option datetime)
                (bucketed_stock tf src)) as [Hlen Hnil].
    split.
    + rewrite (Permutation_length (merge_sort_Permutation _ _)), length_fmap.
      etransitivity; [exact Hlen|]. unfold bucketed_stock.
      by rewrite length_fmap.
    + rewrite merge_sort_nil, fmap_nil_iff, Hnil. unfold bucketed_stock.
      by rewrite fmap_nil_iff.
  - unfold select_option.
    destruct (group_by_length
                (fun x : Contract * option datetime * Bar => (x.1.1, x.1.2))
                (bucketed tf (base tf src))) as [Hlen Hnil].
    split.
    + rewrite (Permutation_length (merge_sort_Permutation _ _)), length_fmap.
      etransitivity; [exact Hlen|]. rewrite bucketed_base.
      by rewrite length_fmap.
    + rewrite merge_sort_nil, fmap_nil_iff, Hnil, bucketed_base.
      by rewrite fmap_nil_iff.
Qed.

End candle_number_facts.

(** ** The tables the merge route of [app.py] accepts *)

Section app_merge_table_facts.

Variable store_datetime : string -> option datetime.

Lemma app_option_tail_type r p :
  AppMerge.option_tail r = Some p -> p_type p = "call" \/ p_type p = "put".
Proof.
  unfold AppMerge.option_tail.
  destruct (Text.span Filename.is_letter r) as [sym r0].
  destruct sym as [|c sym]; [done|].
  destruct (Text.strip_prefix "_" r0) as [r1|]; [|done].
  cbn [mbind option_bind].
  assert (Htr : forall tr,
    match Text.strip_prefix "call" r1 with
    | Some r2 => Some ("call", r2)
    | None => (fun r2 => ("put", r2)) <$> Text.strip_prefix "put" r1
    end = Some tr -> tr.1 = "call" \/ tr.1 = "put").
  { intros tr. destruct (Text.strip_prefix "call" r1); [intros [= <-]; by left|].
    destruct (Text.strip_prefix "put" r1); [intros [= <-]; by right|done]. }
  destruct (match Text.strip_prefix "call" r1 with
            | Some r2 => Some ("call", r2)
            | None => (fun r2 => ("put", r2)) <$> Text.strip_prefix "put" r1
            end) as [tr|]; [|done].
  specialize (Htr tr eq_refl). cbn [mbind option_bind].
  destruct (Text.strip_prefix "_" tr.2) as [r3|]; [|done].
  cbn [mbind option_bind].
  destruct (AppMerge.tf_group r3) as [ [g rest]|]; [|done].
  cbn [mbind option_bind fst snd].
  destruct (Text.strip_prefix "_" rest) as [r7|]; [|done].
  cbn [mbind option_bind].
  destruct (Filename.any_dot_csv_end r7); [|done].
  by intros [= <-].
Qed.

(** X20.  The merge route of [app.py] knows option files only, and
    checks the table by its name alone: it merges only into a table
    whose name, in lower case, contains [call] or [put], and every
    file of a request that went through is a call or put file whose
    type and timeframe occur in that name and whose symbol starts the
    schema name.  [BASE_TABLES] plays no part: a resampled table is
    accepted as well. *)
Theorem app_merge_needs_option_table schema table files w r w' :
  AppMerge.merge_option_data store_datetime schema table files w
    = (AppMerged r, w') ->
  exists s t,
    schema = Some s /\ table = Some t /\ files <> []
    /\ (Text.is_in "call" (Text.lower t) = true
        \/ Text.is_in "put" (Text.lower t) = true)
    /\ forall f, f ∈ files ->
         exists p,
           AppMerge.parse_filename (filename f) = Some p
           /\ (p_type p = "call" \/ p_type p = "put")
           /\ Text.startswith (p_symbol p ++ "_")%string (Text.lower s) = true
           /\ Text.is_in (p_type p) (Text.lower t) = true
           /\ Text.is_in (p_tf p) (Text.lower t) = true.
Proof.
  unfold AppMerge.merge_option_data. intros H.
  destruct (truthy schema) as [s|] eqn:Es; [|done].
  destruct (truthy table) as [t|] eqn:Et; [|done].
  apply truthy_Some in Es, Et. subst schema table.
  destruct files as [|f0 files]; [done|].
  destruct (AppMerge.validate_files s t (f0 :: files)) eqn:Ev; [done|].
  clear H.
  assert (Hall : forall f, f ∈ f0 :: files ->
    exists p,
      AppMerge.parse_filename (filename f) = Some p
      /\ (p_type p = "call" \/ p_type p = "put")
      /\ Text.startswith (p_symbol p ++ "_")%string (Text.lower s) = true
      /\ Text.is_in (p_type p) (Text.lower t) = true
      /\ Text.is_in (p_tf p) (Text.lower t) = true).
  { revert Ev. generalize (f0 :: files). intros l.
    induction l as [|a l IH]; intros Ev f Hf; [by apply elem_of_nil in Hf|].
    cbn [AppMerge.validate_files] in Ev.
    destruct (AppMerge.check_file s t (filename a)) eqn:Ec; [done|].
    apply elem_of_cons in Hf as [->|Hf]; [|by apply IH].
    unfold AppMerge.check_file in Ec.
    destruct (AppMerge.parse_filename (filename a)) as [p|] eqn:Ep; [|done].
    exists p. split; [done|]. split.
    { unfold AppMerge.parse_filename in Ep.
      apply after_last_underscore_tail in Ep as [r0 Hr0].
      by apply app_option_tail_type in Hr0. }
    destruct (Text.startswith (p_symbol p ++ "_") (Text.lower s)); [|done].
    split; [done|]. cbn [negb] in Ec.
    destruct (Text.is_in (p_type p) (Text.lower t)); [|done].
    destruct (Text.is_in (p_tf p) (Text.lower t)); [|done]. done. }
  exists s, t. split; [done|]. split; [done|]. split; [done|].
  split; [|exact Hall].
  destruct (Hall f0) as (p & _ & Hty & _ & Hin & _);
    [apply elem_of_cons; by left|].
  destruct Hty as [E|E]; rewrite E in Hin; [by left|by right].
Qed.

End app_merge_table_facts.

Lemma app_merge_needs_option_table_witness :
  let row := mkCsvRow 450 "call" "2026-01-16 00:00:00" "2026-01-02 09:30:00"
               (Some 1) (Some 1) (Some 1) (Some 1) (Some 1) in
  let files := [mkUpload "ib_data_01152026_qqq_call_5min_2026-01-23.csv"
                  (Some [row]) ] in
  let w := mkWorld {[ ("qqq_db", "ib_2w_call_5min") := OptionTable [] ]} ∅ in
  let res := AppMerge.merge_option_data Store.datetime_of_text (Some "qqq_db")
               (Some "ib_2w_call_5min") files w in
  res.1 = AppMerged (mkAppMergeResult 1 1 0)
  /\ Text.is_in "call" (Text.lower "ib_2w_call_5min") = true.
Proof.
  intros row files w res.
  assert (H : res.1 = AppMerged (mkAppMergeResult 1 1 0)) by (by vm_compute).
  split; [exact H|].
  destruct (app_merge_needs_option_table Store.datetime_of_text (Some "qqq_db")
              (Some "ib_2w_call_5min") files w (mkAppMergeResult 1 1 0) res.2)
    as (s & t & _ & Ht & _ & Hin & _).
  - rewrite <- H. apply surjective_pairing.
  - injection Ht as <-. reflexivity.
Defined.
